(** * Good Ways point of sale: cart, payment, reports and receipt printing

    A shallow embedding of the TypeScript sources (Cashier, Payment, Reports,
    Home, App and PrinterService) together with the properties their
    description states about them.

    Conventions of the embedding:
    - a JavaScript string is the list of its UTF-16 code units;
    - amounts, prices and quantities (JavaScript numbers that hold rupiah
      amounts and counts) are integers of [Z]; a number read from free text
      by [parseFloat], or got by a subtraction, is of the type [number],
      which has [NaN] and the infinities and rounds an integer the way a
      double does; a quotient is of the type [double], the nearest double to
      the exact rational;
    - React state is an explicit record, a setter is a record update, and an
      event handler is a function from the state before to the state after;
    - the hosted database and the browser storages are explicit stores. *)

From Stdlib Require Import ZArith NArith List String Ascii Lia.
From Stdlib Require Import Numbers.DecimalString Numbers.DecimalPos Numbers.DecimalZ.
From Stdlib Require Import QArith Qabs Qpower Lqa Permutation Sorted.
From stdpp Require Import base option list sorting gmap.
From Equations Require Import Equations.

Local Open Scope Z_scope.

(** ** The JavaScript values and built-ins the sources use *)

Module JS.

(** A string is a sequence of UTF-16 code units. *)
Definition jsstring := list N.

(** An ASCII literal of the source. *)
Definition lit (s : string) : jsstring :=
  map N_of_ascii (list_ascii_of_string s).

(** A number that holds an integer, or is [NaN], [Infinity] or
    [-Infinity]. *)
Inductive number :=
| Num (z : Z)
| NaN
| Inf (negative : bool).

(** The Number value for an integer: the integer itself below [2^53] in
    magnitude; otherwise the nearest double, which keeps 53 significant
    bits, a tie going to the even significand; and an infinity from
    [2^1024 - 2^970] on. *)
Definition numberOf (z : Z) : number :=
  let a := Z.abs z in
  if a <? 2 ^ 53 then Num z
  else
    let e := Z.log2 a - 52 in
    let q := a / 2 ^ e in
    let r := a mod 2 ^ e in
    let half := 2 ^ (e - 1) in
    let q' := if (half <? r) || ((r =? half) && Z.odd q) then q + 1 else q in
    let m := q' * 2 ^ e in
    if 2 ^ 1024 <=? m then Inf (z <? 0) else Num (Z.sgn z * m).

(** [a - b]: the difference of two doubles is the Number value for their
    exact difference. *)
Definition sub (a b : number) : number :=
  match a, b with
  | Num x, Num y => numberOf (x - y)
  | Inf s, Num _ => Inf s
  | Num _, Inf s => Inf (negb s)
  | Inf s, Inf s' => if Bool.eqb s s' then NaN else Inf s
  | _, _ => NaN
  end.

(** [a < b]; every comparison with [NaN] is false. *)
Definition ltb (a b : number) : bool :=
  match a, b with
  | Num x, Num y => x <? y
  | Num _, Inf s => negb s
  | Inf s, Num _ => s
  | Inf s, Inf s' => s && negb s'
  | _, _ => false
  end.

(** [a >= b] *)
Definition geb (a b : number) : bool :=
  match a, b with
  | Num x, Num y => y <=? x
  | Num _, Inf s => s
  | Inf s, Num _ => negb s
  | Inf s, Inf s' => negb s || s'
  | _, _ => false
  end.

(** A double that need not be an integer: the result of a division. *)
Inductive double :=
| Finite (q : Q)
| Infinite (negative : bool)
| NotANumber.

(** [2^e] as a rational, for an exponent of either sign. *)
Definition pow2 (e : Z) : Q := (2 # 1) ^ e.

(** The quotient [a / b] of positive integers is brought between [2^52]
    and [2^53] by the power [2^-e]: [scaleNum a e / scaleDen b e] is
    [a / b * 2^-e] as a fraction of integers. *)
Definition scaleNum (a e : Z) : Z := a * 2 ^ Z.max 0 (- e).
Definition scaleDen (b e : Z) : Z := b * 2 ^ Z.max 0 e.

(** The exponent of the double nearest to [a / b]. *)
Definition exponent (a b : Z) : Z :=
  let e0 := Z.log2 a - Z.log2 b - 53 in
  if 2 ^ 53 <=? scaleNum a e0 / scaleDen b e0 then e0 + 1 else e0.

(** Its significand: the scaled quotient rounded to the nearest integer, a
    tie going to the even one. *)
Definition significand (a b : Z) : Z :=
  let n := scaleNum a (exponent a b) in
  let d := scaleDen b (exponent a b) in
  let m := n / d in
  let r := n mod d in
  if (d <? 2 * r) || ((2 * r =? d) && Z.odd m) then m + 1 else m.

(** The double nearest to [a / b], for positive integers [a] and [b], in
    lowest terms. *)
Definition nearest (a b : Z) : Q :=
  Qred (inject_Z (significand a b) * pow2 (exponent a b)).

(** [a / b] on two integers. The exponent of a double lies between -1074
    and 1023, which the quotient of two integer amounts below [2^1022]
    does not leave; the range is not checked here. *)
Definition divide (a b : Z) : double :=
  if b =? 0 then (if a =? 0 then NotANumber else Infinite (a <? 0))
  else if a =? 0 then Finite 0
  else Finite (Qred (inject_Z (Z.sgn a * Z.sgn b)
                     * nearest (Z.abs a) (Z.abs b))).

(** Truthiness of a string: only the empty string is falsy. *)
Definition truthy (s : jsstring) : bool :=
  match s with
  | [] => false
  | _ :: _ => true
  end.

(** Truthiness of an optional string ([undefined], [null] or a string). *)
Definition truthy_opt (s : option jsstring) : bool :=
  match s with
  | None => false
  | Some s => truthy s
  end.

(** The class [[0-9]] of a regular expression. *)
Definition isDigit (c : N) : bool := ((48 <=? c) && (c <=? 57))%N.

Definition digitValue (c : N) : Z := Z.of_N (c - 48).

(** White space and line terminators, as [trim] and [parseFloat] skip
    them. *)
Definition isWhiteSpace (c : N) : bool :=
  ((c =? 9) || (c =? 10) || (c =? 11) || (c =? 12) || (c =? 13) ||
   (c =? 32) || (c =? 160) || (c =? 5760) ||
   ((8192 <=? c) && (c <=? 8202)) ||
   (c =? 8232) || (c =? 8233) || (c =? 8239) || (c =? 8287) ||
   (c =? 12288) || (c =? 65279))%N.

Fixpoint dropWhile (p : N -> bool) (s : jsstring) : jsstring :=
  match s with
  | [] => []
  | c :: r => if p c then dropWhile p r else s
  end.

Fixpoint takeWhile (p : N -> bool) (s : jsstring) : jsstring :=
  match s with
  | [] => []
  | c :: r => if p c then c :: takeWhile p r else []
  end.

(** [s.trim()] *)
Definition trim (s : jsstring) : jsstring :=
  rev (dropWhile isWhiteSpace (rev (dropWhile isWhiteSpace s))).

(** [s.replace(/[^0-9]/g, '')]: every code unit that is not a decimal
    digit is removed. *)
Definition replace_non_digits (s : jsstring) : jsstring :=
  List.filter isDigit s.

(** The value of a run of decimal digits, most significant first. *)
Definition decimalValue (ds : jsstring) : Z :=
  fold_left (fun acc d => 10 * acc + digitValue d) ds 0.

(** [parseFloat(s)]: leading white space is skipped, then an optional
    sign and the longest run of digits are read, and the result is the
    Number value for the integer they spell; without a digit the result
    is [NaN]. Fractions, exponents and the word [Infinity] are not read:
    the strings the payment screen parses are runs of digits or the
    decimal form of an amount. *)
Definition parseFloat (s : jsstring) : number :=
  let t := dropWhile isWhiteSpace s in
  let '(sign, body) :=
    match t with
    | c :: r =>
        if (c =? 45)%N then (-1, r)
        else if (c =? 43)%N then (1, r)
        else (1, t)
    | [] => (1, t)
    end in
  match takeWhile isDigit body with
  | [] => NaN
  | ds => numberOf (sign * decimalValue ds)
  end.

(** [n.toString()] of an integer amount below [10^21] in magnitude, where
    the decimal form is written without an exponent. *)
Definition toString (n : Z) : jsstring :=
  lit (NilZero.string_of_int (Z.to_int n)).

(** [s.substring(0, e)]: the end is clamped to the string. *)
Definition substring0 (s : jsstring) (e : Z) : jsstring :=
  firstn (Z.to_nat e) s.

(** [' '.repeat(n)]: a negative count raises a RangeError ([None]). *)
Definition repeat_space (n : Z) : option jsstring :=
  if n <? 0 then None else Some (replicate (Z.to_nat n) 32%N).

End JS.

Import JS.

(** ** Cashier: the product modal and the cart *)

Module Cashier.

Record Product := {
  id : jsstring;
  name : jsstring;
  price : Z;
  category : jsstring;
  recipe : option jsstring;
  image_url : jsstring;
  has_variants : option bool;
  has_addons : option bool;
  created_at : jsstring
}.

(** An entry [{ name, price }] of [CartItem.addOns]. *)
Record AddOn := {
  addon_name : jsstring;
  addon_price : Z
}.

(** An entry [{ name, price, selected }] of [modalAddOns]. *)
Record ModalAddOn := {
  modal_name : jsstring;
  modal_price : Z;
  selected : bool
}.

Record CartItem := {
  product : Product;
  quantity : Z;
  variant : option jsstring;
  addOns : list AddOn;
  totalPrice : Z
}.

(** The state of the component that the cart operations read or write. *)
Record State := {
  cart : list CartItem;
  selectedProduct : option Product;
  modalVariant : jsstring;
  modalAddOns : list ModalAddOn;
  modalQuantity : Z;
  editingCartIndex : option nat;
  isProductModalOpen : bool;
  productModalAnimating : bool;
  isCartModalOpen : bool;
  cartModalAnimating : bool
}.

Definition setCart (c : list CartItem) (st : State) : State :=
  {| cart := c;
     selectedProduct := selectedProduct st;
     modalVariant := modalVariant st;
     modalAddOns := modalAddOns st;
     modalQuantity := modalQuantity st;
     editingCartIndex := editingCartIndex st;
     isProductModalOpen := isProductModalOpen st;
     productModalAnimating := productModalAnimating st;
     isCartModalOpen := isCartModalOpen st;
     cartModalAnimating := cartModalAnimating st |}.

Definition setEditingCartIndex (i : option nat) (st : State) : State :=
  {| cart := cart st;
     selectedProduct := selectedProduct st;
     modalVariant := modalVariant st;
     modalAddOns := modalAddOns st;
     modalQuantity := modalQuantity st;
     editingCartIndex := i;
     isProductModalOpen := isProductModalOpen st;
     productModalAnimating := productModalAnimating st;
     isCartModalOpen := isCartModalOpen st;
     cartModalAnimating := cartModalAnimating st |}.

(** [closeProductModal], with its delayed part (the 200 ms timer) run:
    the animation flag is cleared, then the modal is closed and the
    selection and the edit index are reset. The cart is not touched. *)
Definition closeProductModal (st : State) : State :=
  {| cart := cart st;
     selectedProduct := None;
     modalVariant := modalVariant st;
     modalAddOns := modalAddOns st;
     modalQuantity := modalQuantity st;
     editingCartIndex := None;
     isProductModalOpen := false;
     productModalAnimating := false;
     isCartModalOpen := isCartModalOpen st;
     cartModalAnimating := cartModalAnimating st |}.


(** [modalAddOns.filter(a => a.selected).map(a => ({ name, price }))] *)
Definition selectedAddOns (l : list ModalAddOn) : list AddOn :=
  map (fun a => {| addon_name := modal_name a; addon_price := modal_price a |})
      (List.filter selected l).

(** [selectedAddOns.reduce((sum, a) => sum + a.price, 0)] *)
Definition addOnsTotal (l : list AddOn) : Z :=
  fold_left (fun sum a => sum + addon_price a) l 0.

(** The item both [addToCart] and [updateCartItem] build from the modal. *)
Definition buildItem (p : Product) (st : State) : CartItem :=
  let sel := selectedAddOns (modalAddOns st) in
  let total := (price p + addOnsTotal sel) * modalQuantity st in
  {| product := p;
     quantity := modalQuantity st;
     variant := match has_variants p with
                | Some true => Some (modalVariant st)
                | _ => None
                end;
     addOns := sel;
     totalPrice := total |}.

(** [newCart[i] = x] on a copy of the cart. An index inside the cart
    replaces the item and the index [cart.length] appends. A larger index
    would leave a sparse array, which a list of items cannot hold: the
    model stops there ([None]). *)
Definition array_set (c : list CartItem) (i : nat) (x : CartItem)
  : option (list CartItem) :=
  if (i <? length c)%nat then Some (<[i := x]> c)
  else if (i =? length c)%nat then Some (c ++ [x])
  else None.

(** [updateCartItem] *)
Definition updateCartItem (st : State) : option State :=
  match selectedProduct st, editingCartIndex st with
  | Some p, Some i =>
      match array_set (cart st) i (buildItem p st) with
      | Some newCart =>
          Some (closeProductModal (setEditingCartIndex None (setCart newCart st)))
      | None => None
      end
  | _, _ => Some st
  end.

(** [addToCart] *)
Definition addToCart (st : State) : option State :=
  match selectedProduct st with
  | None => Some st
  | Some p =>
      match editingCartIndex st with
      | Some _ => updateCartItem st
      | None =>
          Some (closeProductModal (setCart (cart st ++ [buildItem p st]) st))
      end
  end.



(** [cart.reduce((sum, item) => sum + item.totalPrice, 0)], recomputed at
    every render. *)
Definition grandTotal (st : State) : Z :=
  fold_left (fun sum item => sum + totalPrice item) (cart st) 0.


End Cashier.

(** ** The hosted database: the [transactions] table

    The database is a hosted service reached through its client; it is not
    part of the repository. This module writes down the behaviour of its
    [insert] and [update] that the statements assume: the table holds one
    row per primary key; an insert adds the row built from the object and
    from the columns the database generates, and fails when the key is
    taken; an update overwrites, on the row with the given id, the columns
    that are keys of the object and no others, and fails when there is no
    such row, when a key names no column and when a value does not fit its
    column. A request travels as JSON, in which a number that is not finite
    is written [null]. *)

Module Backend.

(** An element of the [items] column. *)
Record Item := {
  product_id : jsstring;
  product_name : jsstring;
  price : Z;
  quantity : Z;
  variant : option jsstring;
  addOns : list Cashier.AddOn;
  totalPrice : Z
}.

(** A row of [transactions]. *)
Record Transaction := {
  id : jsstring;
  transaction_number : jsstring;
  transaction_date : jsstring;
  items : list Item;
  subtotal : Z;
  total : Z;
  payment_status : jsstring;
  payment_method : option jsstring;
  cash_received : option Z;
  cash_change : option Z;
  customer_name : option jsstring;
  notes : option jsstring;
  cashier_name : jsstring;
  created_by : jsstring;
  created_at : jsstring
}.

(** The object given to [insert]. *)
Record TransactionData := {
  new_items : list Item;
  new_subtotal : Z;
  new_total : Z;
  new_payment_status : jsstring;
  new_payment_method : option jsstring;
  new_cash_received : option number;
  new_cash_change : option number;
  new_customer_name : option jsstring;
  new_notes : option jsstring;
  new_cashier_name : jsstring;
  new_created_by : jsstring
}.

(** A value of an object given to the client. *)
Inductive Value :=
| VNull
| VString (s : jsstring)
| VNumber (n : number)
| VItems (l : list Item).

(** The object given to [update]: its keys, in the order of the object
    literal, each with its value. *)
Definition UpdateData : Type := list (jsstring * Value).

(** The columns the database fills in on insert. *)
Record Generated := {
  gen_id : jsstring;
  gen_transaction_number : jsstring;
  gen_transaction_date : jsstring;
  gen_created_at : jsstring
}.

(** A number on its way to the database: the request body is JSON, in
    which [NaN] and the infinities are written [null]. *)
Definition json_number (n : option number) : option Z :=
  match n with
  | Some (Num z) => Some z
  | _ => None
  end.

(** A value as JSON carries it. *)
Definition json (v : Value) : Value :=
  match v with
  | VNumber (Num _) => v
  | VNumber _ => VNull
  | _ => v
  end.

(** The columns of [transactions]. *)
Inductive Column :=
| c_id
| c_transaction_number
| c_transaction_date
| c_items
| c_subtotal
| c_total
| c_payment_status
| c_payment_method
| c_cash_received
| c_cash_change
| c_customer_name
| c_notes
| c_cashier_name
| c_created_by
| c_created_at.

Definition columns : list Column :=
  [ c_id; c_transaction_number; c_transaction_date; c_items; c_subtotal;
    c_total; c_payment_status; c_payment_method; c_cash_received;
    c_cash_change; c_customer_name; c_notes; c_cashier_name; c_created_by;
    c_created_at ].

Definition column_name (c : Column) : jsstring :=
  match c with
  | c_id => lit "id"
  | c_transaction_number => lit "transaction_number"
  | c_transaction_date => lit "transaction_date"
  | c_items => lit "items"
  | c_subtotal => lit "subtotal"
  | c_total => lit "total"
  | c_payment_status => lit "payment_status"
  | c_payment_method => lit "payment_method"
  | c_cash_received => lit "cash_received"
  | c_cash_change => lit "cash_change"
  | c_customer_name => lit "customer_name"
  | c_notes => lit "notes"
  | c_cashier_name => lit "cashier_name"
  | c_created_by => lit "created_by"
  | c_created_at => lit "created_at"
  end.

(** The column a key of an object names, if any. *)
Definition column_of (k : jsstring) : option Column :=
  List.find (fun c => bool_decide (column_name c = k)) columns.

Definition nullable (s : option jsstring) : Value :=
  match s with
  | Some s => VString s
  | None => VNull
  end.

Definition nullable_number (z : option Z) : Value :=
  match z with
  | Some z => VNumber (Num z)
  | None => VNull
  end.

(** The value a row holds in a column. *)
Definition column (c : Column) (r : Transaction) : Value :=
  match c with
  | c_id => VString (id r)
  | c_transaction_number => VString (transaction_number r)
  | c_transaction_date => VString (transaction_date r)
  | c_items => VItems (items r)
  | c_subtotal => VNumber (Num (subtotal r))
  | c_total => VNumber (Num (total r))
  | c_payment_status => VString (payment_status r)
  | c_payment_method => nullable (payment_method r)
  | c_cash_received => nullable_number (cash_received r)
  | c_cash_change => nullable_number (cash_change r)
  | c_customer_name => nullable (customer_name r)
  | c_notes => nullable (notes r)
  | c_cashier_name => VString (cashier_name r)
  | c_created_by => VString (created_by r)
  | c_created_at => VString (created_at r)
  end.

(** A row with one field replaced. *)
Definition with_text (c : Column) (s : jsstring) (r : Transaction)
  : Transaction :=
  {| id := match c with c_id => s | _ => id r end;
     transaction_number :=
       match c with c_transaction_number => s | _ => transaction_number r end;
     transaction_date :=
       match c with c_transaction_date => s | _ => transaction_date r end;
     items := items r;
     subtotal := subtotal r;
     total := total r;
     payment_status :=
       match c with c_payment_status => s | _ => payment_status r end;
     payment_method := payment_method r;
     cash_received := cash_received r;
     cash_change := cash_change r;
     customer_name := customer_name r;
     notes := notes r;
     cashier_name := match c with c_cashier_name => s | _ => cashier_name r end;
     created_by := match c with c_created_by => s | _ => created_by r end;
     created_at := match c with c_created_at => s | _ => created_at r end |}.

Definition with_optional_text (c : Column) (s : option jsstring)
    (r : Transaction) : Transaction :=
  {| id := id r;
     transaction_number := transaction_number r;
     transaction_date := transaction_date r;
     items := items r;
     subtotal := subtotal r;
     total := total r;
     payment_status := payment_status r;
     payment_method :=
       match c with c_payment_method => s | _ => payment_method r end;
     cash_received := cash_received r;
     cash_change := cash_change r;
     customer_name :=
       match c with c_customer_name => s | _ => customer_name r end;
     notes := match c with c_notes => s | _ => notes r end;
     cashier_name := cashier_name r;
     created_by := created_by r;
     created_at := created_at r |}.

Definition with_amount (c : Column) (z : Z) (r : Transaction) : Transaction :=
  {| id := id r;
     transaction_number := transaction_number r;
     transaction_date := transaction_date r;
     items := items r;
     subtotal := match c with c_subtotal => z | _ => subtotal r end;
     total := match c with c_total => z | _ => total r end;
     payment_status := payment_status r;
     payment_method := payment_method r;
     cash_received := cash_received r;
     cash_change := cash_change r;
     customer_name := customer_name r;
     notes := notes r;
     cashier_name := cashier_name r;
     created_by := created_by r;
     created_at := created_at r |}.

Definition with_optional_amount (c : Column) (z : option Z) (r : Transaction)
  : Transaction :=
  {| id := id r;
     transaction_number := transaction_number r;
     transaction_date := transaction_date r;
     items := items r;
     subtotal := subtotal r;
     total := total r;
     payment_status := payment_status r;
     payment_method := payment_method r;
     cash_received := match c with c_cash_received => z | _ => cash_received r end;
     cash_change := match c with c_cash_change => z | _ => cash_change r end;
     customer_name := customer_name r;
     notes := notes r;
     cashier_name := cashier_name r;
     created_by := created_by r;
     created_at := created_at r |}.

Definition with_items (l : list Item) (r : Transaction) : Transaction :=
  {| id := id r;
     transaction_number := transaction_number r;
     transaction_date := transaction_date r;
     items := l;
     subtotal := subtotal r;
     total := total r;
     payment_status := payment_status r;
     payment_method := payment_method r;
     cash_received := cash_received r;
     cash_change := cash_change r;
     customer_name := customer_name r;
     notes := notes r;
     cashier_name := cashier_name r;
     created_by := created_by r;
     created_at := created_at r |}.

(** One column of a row overwritten with a value that came as JSON; an
    error ([None]) when the value does not fit the column. *)
Definition set_column (c : Column) (v : Value) (r : Transaction)
  : option Transaction :=
  match c with
  | c_id | c_transaction_number | c_transaction_date | c_payment_status
  | c_cashier_name | c_created_by | c_created_at =>
      match v with
      | VString s => Some (with_text c s r)
      | _ => None
      end
  | c_payment_method | c_customer_name | c_notes =>
      match v with
      | VString s => Some (with_optional_text c (Some s) r)
      | VNull => Some (with_optional_text c None r)
      | _ => None
      end
  | c_subtotal | c_total =>
      match v with
      | VNumber (Num z) => Some (with_amount c z r)
      | _ => None
      end
  | c_cash_received | c_cash_change =>
      match v with
      | VNumber (Num z) => Some (with_optional_amount c (Some z) r)
      | VNull => Some (with_optional_amount c None r)
      | _ => None
      end
  | c_items =>
      match v with
      | VItems l => Some (with_items l r)
      | _ => None
      end
  end.

(** The table, keyed by the primary key [id]. *)
Abbreviation Table := (gmap jsstring Transaction).

(** The row an insert creates. *)
Definition new_row (g : Generated) (d : TransactionData) : Transaction :=
  {| id := gen_id g;
     transaction_number := gen_transaction_number g;
     transaction_date := gen_transaction_date g;
     items := new_items d;
     subtotal := new_subtotal d;
     total := new_total d;
     payment_status := new_payment_status d;
     payment_method := new_payment_method d;
     cash_received := json_number (new_cash_received d);
     cash_change := json_number (new_cash_change d);
     customer_name := new_customer_name d;
     notes := new_notes d;
     cashier_name := new_cashier_name d;
     created_by := new_created_by d;
     created_at := gen_created_at g |}.

(** [from('transactions').insert([d]).select().single()]: the new row, or
    an error ([None]) when the key is taken. *)
Definition insert (g : Generated) (d : TransactionData) (t : Table)
  : option (Transaction * Table) :=
  match t !! gen_id g with
  | Some _ => None
  | None => let r := new_row g d in Some (r, <[gen_id g := r]> t)
  end.

(** A row with the columns of an update object overwritten, key by key;
    an error ([None]) when a key names no column or a value does not fit. *)
Fixpoint patch (u : UpdateData) (r : Transaction) : option Transaction :=
  match u with
  | [] => Some r
  | (k, v) :: rest =>
      match column_of k with
      | Some c =>
          match set_column c (json v) r with
          | Some r' => patch rest r'
          | None => None
          end
      | None => None
      end
  end.

(** [from('transactions').update(u).eq('id', i).select().single()]: the
    updated row, or an error ([None]) when no row has that id, when the
    object cannot be applied, or when it moves the row onto a key that is
    taken. *)
Definition update (u : UpdateData) (i : jsstring) (t : Table)
  : option (Transaction * Table) :=
  match t !! i with
  | Some r =>
      match patch u r with
      | Some r' =>
          if decide (id r' = id r) then Some (r', <[i := r']> t)
          else
            match t !! id r' with
            | Some _ => None
            | None => Some (r', <[id r' := r']> (delete i t))
            end
      | None => None
      end
  | None => None
  end.

End Backend.

(** ** Payment: validation, cash change and the write to the database *)

Module Payment.

Inductive TransactionType := bayar_langsung | open_bill.
Inductive PaymentMethod := cash | qris | debit.

(** The string a value of the union type [PaymentMethod] is. *)
Definition method_string (m : PaymentMethod) : jsstring :=
  match m with
  | cash => lit "cash"
  | qris => lit "qris"
  | debit => lit "debit"
  end.

Record Props := {
  cart : list Cashier.CartItem;
  grandTotal : Z;
  cashierName : jsstring;
  userId : jsstring;
  existingTransactionId : option jsstring;
  existingTransactionNumber : option jsstring
}.

Record State := {
  transactionType : TransactionType;
  paymentMethod : PaymentMethod;
  isProcessing : bool;
  cashReceived : jsstring;
  cashChange : number;
  customerName : jsstring;
  notes : jsstring;
  showReceipt : bool;
  transactionData : option Backend.Transaction
}.

(** The state of a freshly mounted payment screen. *)
Definition initial : State :=
  {| transactionType := bayar_langsung;
     paymentMethod := cash;
     isProcessing := false;
     cashReceived := [];
     cashChange := Num 0;
     customerName := [];
     notes := [];
     showReceipt := false;
     transactionData := None |}.

(** [setCashReceived(r); setCashChange(c)] *)
Definition setCash (r : jsstring) (c : number) (st : State) : State :=
  {| transactionType := transactionType st;
     paymentMethod := paymentMethod st;
     isProcessing := isProcessing st;
     cashReceived := r;
     cashChange := c;
     customerName := customerName st;
     notes := notes st;
     showReceipt := showReceipt st;
     transactionData := transactionData st |}.

(** [change >= 0 ? change : 0] *)
Definition nonNegative (change : number) : number :=
  if geb change (Num 0) then change else Num 0.

(** [handleCashReceivedChange] *)
Definition handleCashReceivedChange (p : Props) (value : jsstring) (st : State)
  : State :=
  let numValue := replace_non_digits value in
  if truthy numValue then
    let received := parseFloat numValue in
    let change := sub received (Num (grandTotal p)) in
    setCash numValue (nonNegative change) st
  else
    setCash numValue (Num 0) st.

(** [setQuickCash] *)
Definition setQuickCash (p : Props) (amount : Z) (st : State) : State :=
  let change := sub (Num amount) (Num (grandTotal p)) in
  setCash (toString amount) (nonNegative change) st.

(** The setters the form calls directly. *)
Definition setTransactionType (t : TransactionType) (st : State) : State :=
  {| transactionType := t;
     paymentMethod := paymentMethod st;
     isProcessing := isProcessing st;
     cashReceived := cashReceived st;
     cashChange := cashChange st;
     customerName := customerName st;
     notes := notes st;
     showReceipt := showReceipt st;
     transactionData := transactionData st |}.

Definition setPaymentMethod (m : PaymentMethod) (st : State) : State :=
  {| transactionType := transactionType st;
     paymentMethod := m;
     isProcessing := isProcessing st;
     cashReceived := cashReceived st;
     cashChange := cashChange st;
     customerName := customerName st;
     notes := notes st;
     showReceipt := showReceipt st;
     transactionData := transactionData st |}.

Definition setCustomerName (v : jsstring) (st : State) : State :=
  {| transactionType := transactionType st;
     paymentMethod := paymentMethod st;
     isProcessing := isProcessing st;
     cashReceived := cashReceived st;
     cashChange := cashChange st;
     customerName := v;
     notes := notes st;
     showReceipt := showReceipt st;
     transactionData := transactionData st |}.

Definition setNotes (v : jsstring) (st : State) : State :=
  {| transactionType := transactionType st;
     paymentMethod := paymentMethod st;
     isProcessing := isProcessing st;
     cashReceived := cashReceived st;
     cashChange := cashChange st;
     customerName := customerName st;
     notes := v;
     showReceipt := showReceipt st;
     transactionData := transactionData st |}.

(** What the user can do on the form before the payment is processed. *)
Inductive Event :=
| CashTyped (value : jsstring)
| QuickCash (amount : Z)
| TypeChosen (t : TransactionType)
| MethodChosen (m : PaymentMethod)
| NameTyped (value : jsstring)
| NotesTyped (value : jsstring).

Definition handle (p : Props) (st : State) (e : Event) : State :=
  match e with
  | CashTyped v => handleCashReceivedChange p v st
  | QuickCash a => setQuickCash p a st
  | TypeChosen t => setTransactionType t st
  | MethodChosen m => setPaymentMethod m st
  | NameTyped v => setCustomerName v st
  | NotesTyped v => setNotes v st
  end.

(** The form after a sequence of events, from the freshly mounted one. *)
Definition filled (p : Props) (events : list Event) : State :=
  fold_left (handle p) events initial.

(** [validatePayment]: the error message, or [null]. *)
Definition validatePayment (p : Props) (st : State) : option jsstring :=
  match transactionType st with
  | bayar_langsung =>
      match paymentMethod st with
      | cash =>
          if negb (truthy (cashReceived st)) then
            Some (lit "Masukkan nominal pembayaran")
          else if ltb (parseFloat (cashReceived st)) (Num (grandTotal p)) then
            Some (lit "Nominal pembayaran kurang")
          else None
      | _ => None
      end
  | open_bill =>
      if negb (truthy (trim (customerName st))) then
        Some (lit "Masukkan nama pelanggan")
      else None
  end.

(** [isFormValid] *)
Definition isFormValid (p : Props) (st : State) : bool :=
  match transactionType st with
  | bayar_langsung =>
      match paymentMethod st with
      | cash =>
          if negb (truthy (cashReceived st)) then false
          else if ltb (parseFloat (cashReceived st)) (Num (grandTotal p)) then false
          else true
      | _ => true
      end
  | open_bill => (0 <? length (trim (customerName st)))%nat
  end.

(** The constant [updateData] of [handleProcessPayment]: the object
    literal, key by key. *)
Definition updateData (st : State) : Backend.UpdateData :=
  let isCash := match paymentMethod st with cash => true | _ => false end in
  [ (lit "payment_status", Backend.VString (lit "paid"));
    (lit "payment_method", Backend.VString (method_string (paymentMethod st)));
    (lit "cash_received",
     if isCash then Backend.VNumber (parseFloat (cashReceived st))
     else Backend.VNull);
    (lit "cash_change",
     if isCash then Backend.VNumber (cashChange st) else Backend.VNull) ].

(** [cart.map(item => ({ product_id: item.product.id, ... }))] *)
Definition itemOf (item : Cashier.CartItem) : Backend.Item :=
  {| Backend.product_id := Cashier.id (Cashier.product item);
     Backend.product_name := Cashier.name (Cashier.product item);
     Backend.price := Cashier.price (Cashier.product item);
     Backend.quantity := Cashier.quantity item;
     Backend.variant := Cashier.variant item;
     Backend.addOns := Cashier.addOns item;
     Backend.totalPrice := Cashier.totalPrice item |}.

(** The constant [transactionData] of [handleProcessPayment]. *)
Definition newTransaction (p : Props) (st : State) : Backend.TransactionData :=
  let direct := match transactionType st with bayar_langsung => true | _ => false end in
  let isCash := match paymentMethod st with cash => true | _ => false end in
  {| Backend.new_items := map itemOf (cart p);
     Backend.new_subtotal := grandTotal p;
     Backend.new_total := grandTotal p;
     Backend.new_payment_status :=
       match transactionType st with
       | open_bill => lit "open_bill"
       | bayar_langsung => lit "paid"
       end;
     Backend.new_payment_method :=
       if direct then Some (method_string (paymentMethod st)) else None;
     Backend.new_cash_received :=
       if isCash && direct then Some (parseFloat (cashReceived st)) else None;
     Backend.new_cash_change :=
       if isCash && direct then Some (cashChange st) else None;
     Backend.new_customer_name :=
       match transactionType st with
       | open_bill => Some (trim (customerName st))
       | bayar_langsung => None
       end;
     Backend.new_notes :=
       if truthy (trim (notes st)) then Some (trim (notes st)) else None;
     Backend.new_cashier_name := cashierName p;
     Backend.new_created_by := userId p |}.

(** The state when the handler returns: [isProcessing] is false again
    and, after a write that succeeded, the receipt shows the row. *)
Definition finished (data : option Backend.Transaction) (st : State) : State :=
  {| transactionType := transactionType st;
     paymentMethod := paymentMethod st;
     isProcessing := false;
     cashReceived := cashReceived st;
     cashChange := cashChange st;
     customerName := customerName st;
     notes := notes st;
     showReceipt := match data with Some _ => true | None => showReceipt st end;
     transactionData :=
       match data with Some _ => data | None => transactionData st end |}.

(** What [handleProcessPayment] asks of the database; a validation
    message is a non-empty string, hence truthy, and stops the handler. *)
Inductive Request :=
| Rejected (message : jsstring)
| Update (i : jsstring) (u : Backend.UpdateData)
| Insert (d : Backend.TransactionData).

Definition request (p : Props) (st : State) : Request :=
  match validatePayment p st with
  | Some validationError => Rejected validationError
  | None =>
      match existingTransactionId p with
      | Some i =>
          if truthy i then Update i (updateData st)
          else Insert (newTransaction p st)
      | None => Insert (newTransaction p st)
      end
  end.

(** [handleProcessPayment]: the state of the screen and the table when
    the handler has returned. A validation error leaves both as they
    are; an error of the database is caught and leaves the table as it
    is. *)
Definition handleProcessPayment (p : Props) (g : Backend.Generated)
    (st : State) (t : Backend.Table) : State * Backend.Table :=
  match request p st with
  | Rejected _ => (st, t)
  | Update i u =>
      match Backend.update u i t with
      | Some (data, t') => (finished (Some data) st, t')
      | None => (finished None st, t)
      end
  | Insert d =>
      match Backend.insert g d t with
      | Some (data, t') => (finished (Some data) st, t')
      | None => (finished None st, t)
      end
  end.

End Payment.

(** ** The browser storages and App: the logged-in user *)

Module Browser.

(** A [Storage] object: string keys, string values. *)
Abbreviation Storage := (gmap jsstring jsstring).

Definition getItem (k : jsstring) (s : Storage) : option jsstring := s !! k.
Definition setItem (k v : jsstring) (s : Storage) : Storage := <[k := v]> s.
Definition removeItem (k : jsstring) (s : Storage) : Storage := delete k s.

(** Everything the application can persist into. *)
Record World := {
  database : Backend.Table;
  localStorage : Storage;
  sessionStorage : Storage
}.

Definition withDatabase (t : Backend.Table) (w : World) : World :=
  {| database := t;
     localStorage := localStorage w;
     sessionStorage := sessionStorage w |}.

Definition withLocal (s : Storage) (w : World) : World :=
  {| database := database w;
     localStorage := s;
     sessionStorage := sessionStorage w |}.

Definition withSession (s : Storage) (w : World) : World :=
  {| database := database w;
     localStorage := localStorage w;
     sessionStorage := s |}.

End Browser.

Module App.

Record User := {
  id : jsstring;
  username : jsstring;
  role : jsstring
}.

Record State := {
  user : option User;
  isLoading : bool
}.

Section Handlers.

(** [JSON.stringify] and [JSON.parse] at the type [User]; [None] is
    the SyntaxError of [JSON.parse]. *)
Variable JSON_stringify : User -> jsstring.
Variable JSON_parse : jsstring -> option User.

(** The effect run on mount: the saved user is restored, a saved value
    that does not parse is removed. *)
Definition mount (st : State) (w : Browser.World) : State * Browser.World :=
  match Browser.getItem (lit "goodways_user") (Browser.sessionStorage w) with
  | Some savedUser =>
      if truthy savedUser then
        match JSON_parse savedUser with
        | Some u => ({| user := Some u; isLoading := false |}, w)
        | None =>
            ({| user := user st; isLoading := false |},
             Browser.withSession
               (Browser.removeItem (lit "goodways_user") (Browser.sessionStorage w)) w)
        end
      else ({| user := user st; isLoading := false |}, w)
  | None => ({| user := user st; isLoading := false |}, w)
  end.

(** [handleLogin] *)
Definition handleLogin (userData : User) (st : State) (w : Browser.World)
  : State * Browser.World :=
  ({| user := Some userData; isLoading := isLoading st |},
   Browser.withSession
     (Browser.setItem (lit "goodways_user") (JSON_stringify userData)
        (Browser.sessionStorage w)) w).

(** [handleLogout] *)
Definition handleLogout (st : State) (w : Browser.World)
  : State * Browser.World :=
  ({| user := None; isLoading := isLoading st |},
   Browser.withSession
     (Browser.removeItem (lit "goodways_user") (Browser.sessionStorage w)) w).

End Handlers.

End App.

(** ** Home: the hand-over from the cart to the payment screen *)

Module Home.

(** The state [paymentData]. *)
Record PaymentData := {
  cart : list Cashier.CartItem;
  grandTotal : Z;
  transactionId : option jsstring;
  transactionNumber : option jsstring
}.

(** [handleGoToPayment] *)
Definition handleGoToPayment (c : list Cashier.CartItem) (g : Z) : PaymentData :=
  {| cart := c; grandTotal := g; transactionId := None; transactionNumber := None |}.

(** [transaction.items.map(item => ({ product: {...}, ... }))] of
    [handlePayOpenBill] *)
Definition cartItemOf (item : Backend.Item) : Cashier.CartItem :=
  {| Cashier.product :=
       {| Cashier.id := Backend.product_id item;
          Cashier.name := Backend.product_name item;
          Cashier.price := Backend.price item;
          Cashier.category := [];
          Cashier.recipe := None;
          Cashier.image_url := [];
          Cashier.has_variants := None;
          Cashier.has_addons := None;
          Cashier.created_at := [] |};
     Cashier.quantity := Backend.quantity item;
     Cashier.variant := Backend.variant item;
     Cashier.addOns := Backend.addOns item;
     Cashier.totalPrice := Backend.totalPrice item |}.

(** [handlePayOpenBill] *)
Definition handlePayOpenBill (t : Backend.Transaction) : PaymentData :=
  {| cart := map cartItemOf (Backend.items t);
     grandTotal := Backend.total t;
     transactionId := Some (Backend.id t);
     transactionNumber := Some (Backend.transaction_number t) |}.

(** The props [Home] renders the payment screen with. *)
Definition paymentProps (u : App.User) (d : PaymentData) : Payment.Props :=
  {| Payment.cart := cart d;
     Payment.grandTotal := grandTotal d;
     Payment.cashierName := App.username u;
     Payment.userId := App.id u;
     Payment.existingTransactionId := transactionId d;
     Payment.existingTransactionNumber := transactionNumber d |}.

(** [handlePaymentSuccess]: what it does to the stores (the toast and the
    navigation aside). *)
Definition handlePaymentSuccess (w : Browser.World) : Browser.World :=
  Browser.withLocal
    (Browser.removeItem (lit "goodways-cart") (Browser.localStorage w)) w.

End Home.

(** ** Cashier: the cart kept in [localStorage] *)

Module CartStorage.

Section Effects.

(** [JSON.stringify] and [JSON.parse] at the type of the cart. *)
Variable JSON_stringify : list Cashier.CartItem -> jsstring.
Variable JSON_parse : jsstring -> option (list Cashier.CartItem).

(** The initial value of [cart]: the saved cart, or the empty one.
    [None] stands for the SyntaxError of [JSON.parse]. *)
Definition loadCart (w : Browser.World) : option (list Cashier.CartItem) :=
  match Browser.getItem (lit "goodways-cart") (Browser.localStorage w) with
  | Some savedCart => if truthy savedCart then JSON_parse savedCart else Some []
  | None => Some []
  end.

(** The effect run whenever [cart] changes. *)
Definition saveCart (st : Cashier.State) (w : Browser.World) : Browser.World :=
  Browser.withLocal
    (Browser.setItem (lit "goodways-cart") (JSON_stringify (Cashier.cart st))
       (Browser.localStorage w)) w.

End Effects.

End CartStorage.

(** ** The operations of the application that read or write a store *)

Module Operations.

Inductive Operation :=
| AppMount (st : App.State)
| Login (userData : App.User) (st : App.State)
| Logout (st : App.State)
| CartChanged (st : Cashier.State)
| ProcessPayment (p : Payment.Props) (g : Backend.Generated) (st : Payment.State)
| PaymentSuccess.

Section Run.

Variable stringify_user : App.User -> jsstring.
Variable parse_user : jsstring -> option App.User.
Variable stringify_cart : list Cashier.CartItem -> jsstring.

(** The stores after an operation. *)
Definition run (op : Operation) (w : Browser.World) : Browser.World :=
  match op with
  | AppMount st => snd (App.mount parse_user st w)
  | Login u st => snd (App.handleLogin stringify_user u st w)
  | Logout st => snd (App.handleLogout st w)
  | CartChanged st => CartStorage.saveCart stringify_cart st w
  | ProcessPayment p g st =>
      Browser.withDatabase
        (snd (Payment.handleProcessPayment p g st (Browser.database w))) w
  | PaymentSuccess => Home.handlePaymentSuccess w
  end.

End Run.

End Operations.

(** ** Reports: overview figures and best sellers *)

Module Reports.

Record OverviewStats := {
  totalSales : Z;
  totalTransactions : Z;
  averageTransaction : double;
  openBills : Z;
  todaySales : Z
}.

Record BestSellerProduct := {
  product_name : jsstring;
  total_quantity : Z;
  total_revenue : Z
}.

(** [t.payment_status === s] *)
Definition hasStatus (s : jsstring) (t : Backend.Transaction) : bool :=
  bool_decide (Backend.payment_status t = s).

(** [l.reduce((sum, t) => sum + t.total, 0)] *)
Definition sumTotal (l : list Backend.Transaction) : Z :=
  fold_left (fun sum t => sum + Backend.total t) l 0.

Section Stats.

(** The clock: [today] is the time value of the local midnight that
    began the current day, and [timeOf s] the time value of
    [new Date(s)], [NaN] for a date that does not parse. *)
Variable today : Z.
Variable timeOf : jsstring -> number.

(** [calculateStats]: the record given to [setOverviewStats]. *)
Definition calculateStats (data : list Backend.Transaction) : OverviewStats :=
  let paidTransactions := List.filter (hasStatus (lit "paid")) data in
  let openBillsCount :=
    Z.of_nat (length (List.filter (hasStatus (lit "open_bill")) data)) in
  let totalSales := sumTotal paidTransactions in
  let totalTransactions := Z.of_nat (length paidTransactions) in
  let averageTransaction :=
    if 0 <? totalTransactions
    then divide totalSales totalTransactions
    else Finite 0 in
  let todaySales :=
    sumTotal
      (List.filter
         (fun t => geb (timeOf (Backend.transaction_date t)) (Num today))
         paidTransactions) in
  {| totalSales := totalSales;
     totalTransactions := totalTransactions;
     averageTransaction := averageTransaction;
     openBills := openBillsCount;
     todaySales := todaySales |}.

End Stats.

(** A value [{ quantity, revenue }] of [productMap]. *)
Record Entry := {
  quantity : Z;
  revenue : Z
}.

(** A [Map] keeps its keys in the order of their first insertion. *)
Definition ProductMap := list (jsstring * Entry).

Fixpoint map_get (k : jsstring) (m : ProductMap) : option Entry :=
  match m with
  | [] => None
  | (k', v) :: r => if decide (k = k') then Some v else map_get k r
  end.

Fixpoint map_set (k : jsstring) (v : Entry) (m : ProductMap) : ProductMap :=
  match m with
  | [] => [(k, v)]
  | (k', v') :: r =>
      if decide (k = k') then (k', v) :: r else (k', v') :: map_set k v r
  end.

(** The body of the inner [forEach]. *)
Definition addItem (m : ProductMap) (item : Backend.Item) : ProductMap :=
  let existing :=
    default {| quantity := 0; revenue := 0 |}
            (map_get (Backend.product_name item) m) in
  map_set (Backend.product_name item)
    {| quantity := quantity existing + Backend.quantity item;
       revenue := revenue existing + Backend.totalPrice item |} m.

(** The two nested [forEach] loops. *)
Definition collect (paid : list Backend.Transaction) : ProductMap :=
  fold_left (fun m t => fold_left addItem (Backend.items t) m) paid [].

(** The comparator [(a, b) => b.total_quantity - a.total_quantity]. *)
Definition compare (a b : BestSellerProduct) : Z :=
  total_quantity b - total_quantity a.

(** [Array.prototype.sort] is a stable sort: an element goes in front of
    the first later element the comparator does not put before it. *)
Fixpoint insert (x : BestSellerProduct) (l : list BestSellerProduct)
  : list BestSellerProduct :=
  match l with
  | [] => [x]
  | y :: r => if compare x y <=? 0 then x :: y :: r else y :: insert x r
  end.

Definition sort (l : list BestSellerProduct) : list BestSellerProduct :=
  fold_right insert [] l.

(** [([name, data]) => ({ product_name: name, ... })] *)
Definition toProduct (e : jsstring * Entry) : BestSellerProduct :=
  {| product_name := fst e;
     total_quantity := quantity (snd e);
     total_revenue := revenue (snd e) |}.

(** [calculateBestSellers]: the list given to [setBestSellers]. *)
Definition calculateBestSellers (data : list Backend.Transaction)
  : list BestSellerProduct :=
  let paidTransactions := List.filter (hasStatus (lit "paid")) data in
  let productMap := collect paidTransactions in
  firstn 5 (sort (map toProduct productMap)).

End Reports.

(** ** PrinterService: receipt lines and the chunked write *)

Module PrinterService.

Definition LINE_SINGLE : jsstring := lit "--------------------------------".
Definition LINE_DOUBLE : jsstring := lit "================================".
Definition LINE_DASHED : jsstring := lit "- - - - - - - - - - - - - - - - ".

(** [justifyLine]; [maxLength] is optional and defaults to 32. [None]
    stands for the RangeError of [repeat]. *)
Definition justifyLine (left right : jsstring) (maxLength : option Z)
  : option jsstring :=
  let maxLength := default 32 maxLength in
  let totalLength := Z.of_nat (length left) + Z.of_nat (length right) in
  if maxLength <=? totalLength then
    Some (substring0 left (maxLength - Z.of_nat (length right)) ++ right)
  else
    match repeat_space (maxLength - totalLength) with
    | Some spaces => Some (left ++ spaces ++ right)
    | None => None
    end.

(** *** [TextEncoder.encode]: UTF-16 code units to UTF-8 bytes *)

Definition isHighSurrogate (c : N) : bool := ((55296 <=? c) && (c <=? 56319))%N.
Definition isLowSurrogate (c : N) : bool := ((56320 <=? c) && (c <=? 57343))%N.

(** The code points of a string; a surrogate without its partner is
    replaced by U+FFFD. *)
Fixpoint codePoints (s : jsstring) : list N :=
  match s with
  | [] => []
  | c :: r =>
      if isHighSurrogate c then
        match r with
        | d :: r' =>
            if isLowSurrogate d
            then (65536 + (c - 55296) * 1024 + (d - 56320))%N :: codePoints r'
            else 65533%N :: codePoints r
        | [] => [65533%N]
        end
      else if isLowSurrogate c then 65533%N :: codePoints r
      else c :: codePoints r
  end.

(** The UTF-8 bytes of one code point. *)
Definition utf8 (cp : N) : list N :=
  if (cp <? 128)%N then [cp]
  else if (cp <? 2048)%N then
    [N.lor 192 (N.shiftr cp 6); N.lor 128 (N.land cp 63)]
  else if (cp <? 65536)%N then
    [N.lor 224 (N.shiftr cp 12);
     N.lor 128 (N.land (N.shiftr cp 6) 63);
     N.lor 128 (N.land cp 63)]
  else
    [N.lor 240 (N.shiftr cp 18);
     N.lor 128 (N.land (N.shiftr cp 12) 63);
     N.lor 128 (N.land (N.shiftr cp 6) 63);
     N.lor 128 (N.land cp 63)].

Definition encode (data : jsstring) : list N :=
  flat_map utf8 (codePoints data).

(** [a.slice(b, e)] for indices inside the naturals. *)
Definition slice (a : list N) (b e : nat) : list N :=
  firstn (e - b) (skipn b a).

(** The characteristic of a connected printer: the values written to it,
    oldest first. Every [writeValue] is taken to resolve. *)
Record Characteristic := {
  written : list (list N)
}.

Definition writeValue (chunk : list N) (c : Characteristic) : Characteristic :=
  {| written := written c ++ [chunk] |}.

Definition chunkSize : nat := 20.

(** The [for] loop of [sendData], from index [i] on. *)
Equations? sendFrom (encoded : list N) (i : nat) (c : Characteristic)
  : Characteristic by wf (length encoded - i)%nat lt :=
  sendFrom encoded i c with decide (i < length encoded)%nat := {
    | left _ =>
        sendFrom encoded (i + chunkSize)
          (writeValue (slice encoded i (i + chunkSize)) c);
    | right _ => c }.
Proof. unfold chunkSize. lia. Qed.

(** [sendData]: the characteristic afterwards, or the error thrown when
    there is none. *)
Definition sendData (data : jsstring) (characteristic : option Characteristic)
  : jsstring + Characteristic :=
  match characteristic with
  | None => inl (lit "Printer belum terhubung")
  | Some c => inr (sendFrom (encode data) 0 c)
  end.

End PrinterService.

(** ** Cashier: the handlers of the product modal *)

Module CashierModal.

(** A row of [product_addons]. *)
Record ProductAddon := {
  id : jsstring;
  product_id : jsstring;
  name : jsstring;
  price : Z;
  created_at : jsstring
}.

(** The add-ons a fetch puts into the modal: [data.map(addon => ({ name,
    price, selected }))] for a product with add-ons and a fetch that
    returned rows ([Some]); nothing for a product without add-ons, for a
    fetch that failed and for one without data ([None]). *)
Definition offered (p : Cashier.Product) (fetched : option (list ProductAddon))
    (isSelected : ProductAddon -> bool) : list Cashier.ModalAddOn :=
  match Cashier.has_addons p with
  | Some true =>
      match fetched with
      | Some data =>
          map (fun addon =>
                 {| Cashier.modal_name := name addon;
                    Cashier.modal_price := price addon;
                    Cashier.selected := isSelected addon |})
              data
      | None => []
      end
  | _ => []
  end.

(** [openProductModal] is an [async] function that waits for the add-ons
    of a product that has some. Its first part runs at the click: the
    product, the variant ['Ice'] and the quantity 1 are set. *)
Definition openProductModal_begin (p : Cashier.Product) (st : Cashier.State)
  : Cashier.State :=
  {| Cashier.cart := Cashier.cart st;
     Cashier.selectedProduct := Some p;
     Cashier.modalVariant := lit "Ice";
     Cashier.modalAddOns := Cashier.modalAddOns st;
     Cashier.modalQuantity := 1;
     Cashier.editingCartIndex := Cashier.editingCartIndex st;
     Cashier.isProductModalOpen := Cashier.isProductModalOpen st;
     Cashier.productModalAnimating := Cashier.productModalAnimating st;
     Cashier.isCartModalOpen := Cashier.isCartModalOpen st;
     Cashier.cartModalAnimating := Cashier.cartModalAnimating st |}.

(** Its second part runs when the fetch is answered, on the state the
    screen has by then: the add-ons of the answer are put into the modal
    and the modal is opened (the timer that starts the animation run). For
    a product without add-ons nothing is waited for and the second part
    follows the first at once. *)
Definition openProductModal_end (p : Cashier.Product)
    (fetched : option (list ProductAddon)) (st : Cashier.State) : Cashier.State :=
  {| Cashier.cart := Cashier.cart st;
     Cashier.selectedProduct := Cashier.selectedProduct st;
     Cashier.modalVariant := Cashier.modalVariant st;
     Cashier.modalAddOns := offered p fetched (fun _ => false);
     Cashier.modalQuantity := Cashier.modalQuantity st;
     Cashier.editingCartIndex := Cashier.editingCartIndex st;
     Cashier.isProductModalOpen := true;
     Cashier.productModalAnimating := true;
     Cashier.isCartModalOpen := Cashier.isCartModalOpen st;
     Cashier.cartModalAnimating := Cashier.cartModalAnimating st |}.


(** [item.addOns.some(a => a.name === addon.name)] *)
Definition hasAddOn (item : Cashier.CartItem) (addon : ProductAddon) : bool :=
  existsb (fun a => bool_decide (Cashier.addon_name a = name addon))
          (Cashier.addOns item).

(** [startEditCartItem] is an [async] function of the same shape. Its
    first part runs at the click and yields the item it read, which the
    second part uses: the edit index, the product, the variant and the
    quantity of the item are set. [None] is the TypeError of reading
    [cart[index].product] past the end of the cart. *)
Definition startEditCartItem_begin (index : nat) (st : Cashier.State)
  : option (Cashier.CartItem * Cashier.State) :=
  match Cashier.cart st !! index with
  | None => None
  | Some item =>
      Some
        (item,
         {| Cashier.cart := Cashier.cart st;
            Cashier.selectedProduct := Some (Cashier.product item);
            Cashier.modalVariant :=
              match Cashier.variant item with
              | Some v => if truthy v then v else lit "Ice"
              | None => lit "Ice"
              end;
            Cashier.modalAddOns := Cashier.modalAddOns st;
            Cashier.modalQuantity := Cashier.quantity item;
            Cashier.editingCartIndex := Some index;
            Cashier.isProductModalOpen := Cashier.isProductModalOpen st;
            Cashier.productModalAnimating := Cashier.productModalAnimating st;
            Cashier.isCartModalOpen := Cashier.isCartModalOpen st;
            Cashier.cartModalAnimating := Cashier.cartModalAnimating st |})
  end.

(** Its second part, with its timers run, on the state the screen has
    when the fetch is answered: the add-ons of the answer are put into the
    modal, those of the item selected, the cart modal is closed and the
    product modal opened. *)
Definition startEditCartItem_end (item : Cashier.CartItem)
    (fetched : option (list ProductAddon)) (st : Cashier.State) : Cashier.State :=
  {| Cashier.cart := Cashier.cart st;
     Cashier.selectedProduct := Cashier.selectedProduct st;
     Cashier.modalVariant := Cashier.modalVariant st;
     Cashier.modalAddOns :=
       offered (Cashier.product item) fetched (hasAddOn item);
     Cashier.modalQuantity := Cashier.modalQuantity st;
     Cashier.editingCartIndex := Cashier.editingCartIndex st;
     Cashier.isProductModalOpen := true;
     Cashier.productModalAnimating := true;
     Cashier.isCartModalOpen := false;
     Cashier.cartModalAnimating := false |}.

(** [startEditCartItem] when nothing else happens while the add-ons are
    fetched. *)
Definition startEditCartItem (index : nat) (fetched : option (list ProductAddon))
    (st : Cashier.State) : option Cashier.State :=
  match startEditCartItem_begin index st with
  | Some (item, st') => Some (startEditCartItem_end item fetched st')
  | None => None
  end.

Definition setModalVariant (v : jsstring) (st : Cashier.State) : Cashier.State :=
  {| Cashier.cart := Cashier.cart st;
     Cashier.selectedProduct := Cashier.selectedProduct st;
     Cashier.modalVariant := v;
     Cashier.modalAddOns := Cashier.modalAddOns st;
     Cashier.modalQuantity := Cashier.modalQuantity st;
     Cashier.editingCartIndex := Cashier.editingCartIndex st;
     Cashier.isProductModalOpen := Cashier.isProductModalOpen st;
     Cashier.productModalAnimating := Cashier.productModalAnimating st;
     Cashier.isCartModalOpen := Cashier.isCartModalOpen st;
     Cashier.cartModalAnimating := Cashier.cartModalAnimating st |}.

Definition setModalAddOns (l : list Cashier.ModalAddOn) (st : Cashier.State)
  : Cashier.State :=
  {| Cashier.cart := Cashier.cart st;
     Cashier.selectedProduct := Cashier.selectedProduct st;
     Cashier.modalVariant := Cashier.modalVariant st;
     Cashier.modalAddOns := l;
     Cashier.modalQuantity := Cashier.modalQuantity st;
     Cashier.editingCartIndex := Cashier.editingCartIndex st;
     Cashier.isProductModalOpen := Cashier.isProductModalOpen st;
     Cashier.productModalAnimating := Cashier.productModalAnimating st;
     Cashier.isCartModalOpen := Cashier.isCartModalOpen st;
     Cashier.cartModalAnimating := Cashier.cartModalAnimating st |}.

Definition setModalQuantity (q : Z) (st : Cashier.State) : Cashier.State :=
  {| Cashier.cart := Cashier.cart st;
     Cashier.selectedProduct := Cashier.selectedProduct st;
     Cashier.modalVariant := Cashier.modalVariant st;
     Cashier.modalAddOns := Cashier.modalAddOns st;
     Cashier.modalQuantity := q;
     Cashier.editingCartIndex := Cashier.editingCartIndex st;
     Cashier.isProductModalOpen := Cashier.isProductModalOpen st;
     Cashier.productModalAnimating := Cashier.productModalAnimating st;
     Cashier.isCartModalOpen := Cashier.isCartModalOpen st;
     Cashier.cartModalAnimating := Cashier.cartModalAnimating st |}.

(** The [onChange] of the check box of add-on [index]:
    [newAddOns[index].selected = checked]. [None] is the TypeError of an
    index without an add-on. *)
Definition toggleAddOn (index : nat) (checked : bool) (st : Cashier.State)
  : option Cashier.State :=
  match Cashier.modalAddOns st !! index with
  | None => None
  | Some a =>
      Some (setModalAddOns
              (<[index := {| Cashier.modal_name := Cashier.modal_name a;
                             Cashier.modal_price := Cashier.modal_price a;
                             Cashier.selected := checked |}]>
                 (Cashier.modalAddOns st))
              st)
  end.

(** What the user can do inside the product modal. *)
Inductive Event :=
| Ice
| Hot
| Toggle (index : nat) (checked : bool)
| Minus
| Plus.

Definition handle (st : Cashier.State) (e : Event) : option Cashier.State :=
  match e with
  | Ice => Some (setModalVariant (lit "Ice") st)
  | Hot => Some (setModalVariant (lit "Hot") st)
  | Toggle i checked => toggleAddOn i checked st
  | Minus => Some (setModalQuantity (Z.max 1 (Cashier.modalQuantity st - 1)) st)
  | Plus => Some (setModalQuantity (Cashier.modalQuantity st + 1) st)
  end.


#[export] Instance product_eq_dec : EqDecision Cashier.Product.
Proof. solve_decision. Defined.

(** What happens on the cashier screen while products are chosen: a
    product of the grid is clicked, the fetch that an earlier click on a
    product started is answered, or something is done in the modal. The
    grid stays clickable while a fetch is pending, and answers arrive in
    any order. *)
Inductive Step :=
| Click (p : Cashier.Product)
| Fetched (p : Cashier.Product) (reply : option (list ProductAddon))
| Modal (e : Event).

(** The screen together with the products whose add-ons are being
    fetched. *)
Record Screen := {
  ui : Cashier.State;
  pending : list Cashier.Product
}.

(** The list without the first occurrence of [p]. *)
Fixpoint remove_first (p : Cashier.Product) (l : list Cashier.Product)
  : list Cashier.Product :=
  match l with
  | [] => []
  | q :: r => if decide (q = p) then r else q :: remove_first p r
  end.

(** One step. An answer nobody waits for does not happen, and an error
    of a handler stops the run ([None]). *)
Definition step (s : Screen) (x : Step) : option Screen :=
  match x with
  | Click p =>
      match Cashier.has_addons p with
      | Some true =>
          Some {| ui := openProductModal_begin p (ui s);
                  pending := pending s ++ [p] |}
      | _ =>
          Some {| ui := openProductModal_end p None
                          (openProductModal_begin p (ui s));
                  pending := pending s |}
      end
  | Fetched p reply =>
      if bool_decide (p ∈ pending s) then
        Some {| ui := openProductModal_end p reply (ui s);
                pending := remove_first p (pending s) |}
      else None
  | Modal e =>
      match handle (ui s) e with
      | Some st' => Some {| ui := st'; pending := pending s |}
      | None => None
      end
  end.

Fixpoint run (s : Screen) (steps : list Step) : option Screen :=
  match steps with
  | [] => Some s
  | x :: rest =>
      match step s x with
      | Some s' => run s' rest
      | None => None
      end
  end.

(** The product clicked last, given the one clicked last before. *)
Definition clicked (before : option Cashier.Product) (x : Step)
  : option Cashier.Product :=
  match x with
  | Click p => Some p
  | _ => before
  end.

Definition lastClick (steps : list Step) : option Cashier.Product :=
  fold_left clicked steps None.

(** The product and the answer that filled the add-ons of the modal
    last: the answer to a fetch, or no answer for a product without
    add-ons. *)
Definition filled (before : option (Cashier.Product * option (list ProductAddon)))
    (x : Step) : option (Cashier.Product * option (list ProductAddon)) :=
  match x with
  | Click p =>
      match Cashier.has_addons p with
      | Some true => before
      | _ => Some (p, None)
      end
  | Fetched p reply => Some (p, reply)
  | Modal _ => before
  end.

Definition lastFilled (steps : list Step)
  : option (Cashier.Product * option (list ProductAddon)) :=
  fold_left filled steps None.

End CashierModal.

(** ** Payment: closing the receipt *)

Module PaymentReceipt.

(** [handleReceiptClose]: the receipt is hidden, and [onPaymentSuccess] is
    called with the number and the method of the stored transaction when
    there is one ([Some]). *)
Definition handleReceiptClose (st : Payment.State)
  : Payment.State * option (jsstring * option jsstring) :=
  ({| Payment.transactionType := Payment.transactionType st;
      Payment.paymentMethod := Payment.paymentMethod st;
      Payment.isProcessing := Payment.isProcessing st;
      Payment.cashReceived := Payment.cashReceived st;
      Payment.cashChange := Payment.cashChange st;
      Payment.customerName := Payment.customerName st;
      Payment.notes := Payment.notes st;
      Payment.showReceipt := false;
      Payment.transactionData := Payment.transactionData st |},
   match Payment.transactionData st with
   | Some data =>
       Some (Backend.transaction_number data, Backend.payment_method data)
   | None => None
   end).

End PaymentReceipt.

(** ** Home: which screen is shown, and the badge of open bills *)

Module HomeFlow.

Record State := {
  activeNav : jsstring;
  showPayment : bool;
  paymentData : option Home.PaymentData;
  openBillsCount : Z
}.

(** The state of a freshly mounted [Home], before the first count
    arrived. *)
Definition initial : State :=
  {| activeNav := lit "cashier";
     showPayment := false;
     paymentData := None;
     openBillsCount := 0 |}.

(** The rows a query [.eq('payment_status', 'open_bill')] selects. *)
Definition openBills (t : Backend.Table) : Backend.Table :=
  filter (fun kr => Backend.payment_status (snd kr) = lit "open_bill") t.

(** [fetchOpenBillsCount], for a query that succeeds: the exact count of
    the open bills. *)
Definition fetchOpenBillsCount (t : Backend.Table) (st : State) : State :=
  {| activeNav := activeNav st;
     showPayment := showPayment st;
     paymentData := paymentData st;
     openBillsCount := Z.of_nat (size (openBills t)) |}.

(** [handleGoToPayment], as a change of the state. *)
Definition handleGoToPayment (c : list Cashier.CartItem) (g : Z) (st : State)
  : State :=
  {| activeNav := activeNav st;
     showPayment := true;
     paymentData := Some (Home.handleGoToPayment c g);
     openBillsCount := openBillsCount st |}.

(** [handlePayOpenBill], as a change of the state. *)
Definition handlePayOpenBill (t : Backend.Transaction) (st : State) : State :=
  {| activeNav := activeNav st;
     showPayment := true;
     paymentData := Some (Home.handlePayOpenBill t);
     openBillsCount := openBillsCount st |}.

(** [handleBackFromPayment] *)
Definition handleBackFromPayment (st : State) : State :=
  {| activeNav := activeNav st;
     showPayment := false;
     paymentData := None;
     openBillsCount := openBillsCount st |}.

(** [handlePaymentSuccess]: the saved cart is removed, the payment screen
    left and the count of open bills fetched again. *)
Definition handlePaymentSuccess (st : State) (w : Browser.World)
  : State * Browser.World :=
  (fetchOpenBillsCount (Browser.database w) (handleBackFromPayment st),
   Home.handlePaymentSuccess w).

(** The props of the payment screen, when [Home] renders it. *)
Definition payment (u : App.User) (st : State) : option Payment.Props :=
  if showPayment st then
    match paymentData st with
    | Some d => Some (Home.paymentProps u d)
    | None => None
    end
  else None.

End HomeFlow.

(** ** Login: the six cells of the PIN *)

Module Users.

(** A row of [users]. *)
Record Row := {
  id : jsstring;
  username : jsstring;
  role : jsstring;
  pin : jsstring
}.

End Users.

Module Login.

Record State := {
  pin : list jsstring;
  error : jsstring;
  isLoading : bool;
  success : bool
}.

(** The state of a freshly mounted login screen. *)
Definition initial : State :=
  {| pin := [[]; []; []; []; []; []];
     error := [];
     isLoading := false;
     success := false |}.

(** [/^\d*$/.test(value)] *)
Definition onlyDigits (value : jsstring) : bool := forallb isDigit value.

(** [value.slice(-1)]: the last code unit, or the empty string. *)
Definition lastOf (value : jsstring) : jsstring :=
  skipn (length value - 1) value.

(** [newPin[index] = x] on a copy of the cells; as for the cart, an index
    past the end by more than one would leave a sparse array ([None]). *)
Definition array_set (cells : list jsstring) (i : nat) (x : jsstring)
  : option (list jsstring) :=
  if (i <? length cells)%nat then Some (<[i := x]> cells)
  else if (i =? length cells)%nat then Some (cells ++ [x])
  else None.

(** [handlePinChange]; moving the focus is left out. *)
Definition handlePinChange (index : nat) (value : jsstring) (st : State)
  : option State :=
  if negb (onlyDigits value) then Some st
  else
    match array_set (pin st) index (lastOf value) with
    | Some newPin =>
        Some {| pin := newPin;
                error := [];
                isLoading := isLoading st;
                success := success st |}
    | None => None
    end.

(** Typing into the cells, one [handlePinChange] after the other. *)
Fixpoint typeAll (st : State) (keys : list (nat * jsstring)) : option State :=
  match keys with
  | [] => Some st
  | (index, value) :: rest =>
      match handlePinChange index value st with
      | Some st' => typeAll st' rest
      | None => None
      end
  end.

(** [pin.join('')] *)
Definition pinString (st : State) : jsstring := concat (pin st).

(** [from('users').select('*').eq('pin', s).single()]: the row, or an
    error ([None]) unless exactly one row has that PIN. *)
Definition single (users : list Users.Row) (s : jsstring) : option Users.Row :=
  match List.filter (fun r => bool_decide (Users.pin r = s)) users with
  | [data] => Some data
  | _ => None
  end.

(** What [handleSubmit] does up to its [await]: it returns at once, or it
    sends one query for the rows with a PIN and waits for the answer. *)
Inductive Submit :=
| Refused (st : State)
| Query (s : jsstring) (st : State).

(** [handleSubmit] up to the [await]. *)
Definition handleSubmit (st : State) : Submit :=
  if negb (length (pinString st) =? 6)%nat then
    Refused {| pin := pin st;
               error := lit "Masukkan 6 digit PIN";
               isLoading := isLoading st;
               success := success st |}
  else
    Query (pinString st)
          {| pin := pin st; error := []; isLoading := true; success := success st |}.

(** [handleSubmit] from the answer on, on the state the screen has by
    then: the state when the handler has returned, and the user [onLogin]
    is called with a second later, if it is called. The answer is the row,
    or nothing for an error or for no data. *)
Definition answered (reply : option Users.Row) (st : State)
  : State * option App.User :=
  match reply with
  | Some data =>
      ({| pin := pin st; error := error st; isLoading := false; success := true |},
       Some {| App.id := Users.id data;
               App.username := Users.username data;
               App.role := Users.role data |})
  | None =>
      ({| pin := [[]; []; []; []; []; []];
          error := lit "PIN salah";
          isLoading := false;
          success := success st |}, None)
  end.

(** A submit against the table [users], when nothing is typed while the
    query is on its way. *)
Definition submit (users : list Users.Row) (st : State)
  : State * option App.User :=
  match handleSubmit st with
  | Refused st' => (st', None)
  | Query s st' => answered (single users s) st'
  end.

End Login.

(** ** String search *)

Module JSx.

(** [hay.startsWith(needle)] *)
Fixpoint startsWith (hay needle : jsstring) : bool :=
  match needle, hay with
  | [], _ => true
  | _ :: _, [] => false
  | n :: needle', h :: hay' => (n =? h)%N && startsWith hay' needle'
  end.

(** [hay.includes(needle)] *)
Fixpoint includes (hay needle : jsstring) : bool :=
  match hay with
  | [] => startsWith [] needle
  | _ :: rest => startsWith hay needle || includes rest needle
  end.

End JSx.

(** ** Reports: the list of transactions under the filters *)

Module ReportsFilter.

Section Filter.

(** [s.toLowerCase()] *)
Variable toLowerCase : jsstring -> jsstring.

(** The predicate of the search filter. *)
Definition matches (searchQuery : jsstring) (t : Backend.Transaction) : bool :=
  JSx.includes (toLowerCase (Backend.transaction_number t)) (toLowerCase searchQuery)
  || JSx.includes (toLowerCase (Backend.cashier_name t)) (toLowerCase searchQuery)
  || match Backend.customer_name t with
     | Some n => truthy n && JSx.includes (toLowerCase n) (toLowerCase searchQuery)
     | None => false
     end.

(** The effect that computes [filteredTransactions]. *)
Definition filterTransactions (transactions : list Backend.Transaction)
    (searchQuery statusFilter paymentMethodFilter : jsstring)
  : list Backend.Transaction :=
  let result := transactions in
  let result :=
    if truthy searchQuery then List.filter (matches searchQuery) result
    else result in
  let result :=
    if bool_decide (statusFilter <> lit "all")
    then List.filter (fun t => bool_decide (Backend.payment_status t = statusFilter))
                     result
    else result in
  let result :=
    if bool_decide (paymentMethodFilter <> lit "all")
    then List.filter
           (fun t => bool_decide (Backend.payment_method t = Some paymentMethodFilter))
           result
    else result in
  result.

End Filter.

End ReportsFilter.

(** ** platformDetect: is Web Bluetooth available here *)

Module Navigator.

(** What the detection reads of [navigator]; [inBluetooth] is
    ['bluetooth' in navigator] and [bluetooth] the truthiness of
    [navigator.bluetooth]. *)
Record t := {
  inBluetooth : bool;
  bluetooth : bool;
  userAgent : jsstring;
  platform : jsstring;
  maxTouchPoints : Z
}.

End Navigator.

Module PlatformDetect.

Inductive PlatformType := desktop | android | ios | unknown.

Record PlatformInfo := {
  isSupported : bool;
  platform : PlatformType;
  browser : jsstring;
  message : jsstring
}.

Section Detect.

(** [s.toLowerCase()] *)
Variable toLowerCase : jsstring -> jsstring.

(** [detectWebBluetoothSupport]; a regular expression of alternatives
    tests whether one of them occurs. *)
Definition detectWebBluetoothSupport (nav : Navigator.t) : PlatformInfo :=
  let isBluetoothAvailable := Navigator.inBluetooth nav in
  let userAgent := toLowerCase (Navigator.userAgent nav) in
  let platform := toLowerCase (Navigator.platform nav) in
  let test (word : jsstring) := JSx.includes userAgent word in
  if test (lit "iphone") || test (lit "ipad") || test (lit "ipod")
     || (bool_decide (platform = lit "macintel")
         && (1 <? Navigator.maxTouchPoints nav))
  then
    {| isSupported := false;
       platform := ios;
       browser :=
         if test (lit "safari") then lit "Safari"
         else if test (lit "crios") then lit "Chrome"
         else if test (lit "fxios") then lit "Firefox"
         else lit "Browser";
       message :=
         lit "Web Bluetooth tidak didukung di iOS/iPadOS. Fitur printer Bluetooth tidak dapat digunakan di iPhone atau iPad, gunakan perangkat Android atau Desktop untuk mencetak struk." |}
  else if test (lit "android") then
    {| isSupported := isBluetoothAvailable;
       platform := android;
       browser :=
         if test (lit "chrome") then lit "Chrome"
         else if test (lit "samsung") then lit "Samsung Internet"
         else lit "Browser";
       message :=
         if isBluetoothAvailable
         then lit "Web Bluetooth didukung di perangkat ini."
         else lit "Web Bluetooth tidak didukung di browser ini. Gunakan Chrome atau Samsung Internet untuk fitur printer Bluetooth." |}
  else
    let browserName :=
      if test (lit "edg") then lit "Edge"
      else if test (lit "chrome") then lit "Chrome"
      else if test (lit "opera") || test (lit "opr") then lit "Opera"
      else if test (lit "firefox") then lit "Firefox"
      else if test (lit "safari") then lit "Safari"
      else lit "Unknown" in
    {| isSupported := isBluetoothAvailable;
       platform := desktop;
       browser := browserName;
       message :=
         if isBluetoothAvailable
         then lit "Web Bluetooth didukung di perangkat ini."
         else if bool_decide (browserName = lit "Firefox")
                 || bool_decide (browserName = lit "Safari")
         then lit "Web Bluetooth tidak didukung di " ++ browserName
              ++ lit ". Gunakan Chrome, Edge, atau Opera untuk fitur printer Bluetooth."
         else lit "Web Bluetooth tidak didukung di browser ini. Gunakan Chrome, Edge, atau Opera untuk fitur printer Bluetooth." |}.

End Detect.

(** [getPlatformName] *)
Definition getPlatformName (platform : jsstring) : jsstring :=
  if bool_decide (platform = lit "ios") then lit "iOS"
  else if bool_decide (platform = lit "android") then lit "Android"
  else if bool_decide (platform = lit "desktop") then lit "Desktop"
  else lit "Unknown".

End PlatformDetect.

(** ** PrinterService: connecting, disconnecting and the test page *)

Module PrinterConnection.

Definition CMD_INIT : jsstring := [27; 64]%N.
Definition CMD_CENTER : jsstring := [27; 97; 1]%N.
Definition CMD_LEFT : jsstring := [27; 97; 0]%N.
Definition CMD_BOLD_ON : jsstring := [27; 69; 1]%N.
Definition CMD_BOLD_OFF : jsstring := [27; 69; 0]%N.
Definition CMD_DOUBLE_ON : jsstring := [27; 33; 48]%N.
Definition CMD_DOUBLE_OFF : jsstring := [27; 33; 0]%N.
Definition CMD_SMALL : jsstring := [27; 33; 1]%N.
Definition CMD_FEED : jsstring := [10]%N.
Definition CMD_CUT : jsstring := [29; 86; 0]%N.

(** What the calls on a device answer: an error message, or the next
    object on the way to the characteristic. *)
Definition CharacteristicResult : Type := jsstring + PrinterService.Characteristic.
Definition ServiceResult : Type := jsstring + CharacteristicResult.
Definition ServerResult : Type := jsstring + ServiceResult.

(** A device; [gatt] is absent, or answers [connect()] and then
    [getPrimaryService] and [getCharacteristic]. *)
Record Device := {
  gatt : option ServerResult
}.

(** The browser at the time of a [connect]. *)
Record Env := {
  navigator : Navigator.t;
  requestDevice : jsstring + Device
}.

(** The fields of the service. *)
Record State := {
  device : option Device;
  characteristic : option PrinterService.Characteristic;
  isConnected : bool
}.

Definition initial : State :=
  {| device := None; characteristic := None; isConnected := false |}.

(** The calls [connect] makes on the browser and on the device. *)
Inductive Call :=
| RequestDevice
| GattConnect
| GetPrimaryService
| GetCharacteristic.

(** The [catch] of [connect]: the flag is cleared and the error thrown
    on. *)
Definition failed (e : jsstring) (d : option Device) (st : State)
  : (jsstring + bool) * State :=
  (inl e, {| device := d; characteristic := characteristic st; isConnected := false |}).

Section Connect.

Variable toLowerCase : jsstring -> jsstring.

(** [connect], with the calls it made, in their order. *)
Definition connectCalls (env : Env) (st : State)
  : list Call * ((jsstring + bool) * State) :=
  let platformInfo :=
    PlatformDetect.detectWebBluetoothSupport toLowerCase (navigator env) in
  if negb (PlatformDetect.isSupported platformInfo) then
    ([], failed (PlatformDetect.message platformInfo) (device st) st)
  else if negb (Navigator.bluetooth (navigator env)) then
    ([], failed (lit "Web Bluetooth API tidak tersedia") (device st) st)
  else
    match requestDevice env with
    | inl e => ([RequestDevice], failed e (device st) st)
    | inr d =>
        match gatt d with
        | None => ([RequestDevice], failed (lit "GATT tidak tersedia") (Some d) st)
        | Some (inl e) => ([RequestDevice; GattConnect], failed e (Some d) st)
        | Some (inr (inl e)) =>
            ([RequestDevice; GattConnect; GetPrimaryService], failed e (Some d) st)
        | Some (inr (inr (inl e))) =>
            ([RequestDevice; GattConnect; GetPrimaryService; GetCharacteristic],
             failed e (Some d) st)
        | Some (inr (inr (inr c))) =>
            ([RequestDevice; GattConnect; GetPrimaryService; GetCharacteristic],
             (inr true,
              {| device := Some d; characteristic := Some c; isConnected := true |}))
        end
    end.

(** [connect]: what it returns or throws, and the service afterwards. *)
Definition connect (env : Env) (st : State) : (jsstring + bool) * State :=
  snd (connectCalls env st).

End Connect.

(** [disconnect] *)
Definition disconnect (st : State) : State :=
  match device st with
  | Some d =>
      match gatt d with
      | Some _ => {| device := None; characteristic := None; isConnected := false |}
      | None => st
      end
  | None => st
  end.

(** [getConnectionStatus] *)
Definition getConnectionStatus (st : State) : bool :=
  isConnected st
  && match device st with Some _ => true | None => false end
  && match characteristic st with Some _ => true | None => false end.

(** The page [testPrint] builds; [now] is
    [new Date().toLocaleString('id-ID')]. *)
Definition testPage (now : jsstring) : jsstring :=
  CMD_INIT ++ CMD_CENTER ++ (CMD_DOUBLE_ON ++ CMD_BOLD_ON)
  ++ (lit "TEST PRINT" ++ CMD_FEED)
  ++ (CMD_DOUBLE_OFF ++ CMD_BOLD_OFF)
  ++ (PrinterService.LINE_DOUBLE ++ CMD_FEED)
  ++ (lit "Printer connected!" ++ CMD_FEED)
  ++ CMD_FEED
  ++ (now ++ CMD_FEED)
  ++ CMD_FEED
  ++ (PrinterService.LINE_SINGLE ++ CMD_FEED)
  ++ (CMD_LEFT ++ CMD_SMALL)
  ++ (lit "Good Ways POS System" ++ CMD_FEED)
  ++ CMD_FEED ++ CMD_FEED ++ CMD_CUT.

(** [testPrint]: the error thrown, if any, and the service afterwards. *)
Definition testPrint (now : jsstring) (st : State) : option jsstring * State :=
  if negb (getConnectionStatus st) then (Some (lit "Printer belum terhubung"), st)
  else
    match PrinterService.sendData (testPage now) (characteristic st) with
    | inl e => (Some e, st)
    | inr c =>
        (None,
         {| device := device st;
            characteristic := Some c;
            isConnected := isConnected st |})
    end.

(** What is done with the service. *)
Inductive Operation :=
| Connect (env : Env)
| Disconnect
| TestPrint (now : jsstring).

Section Run.

Variable toLowerCase : jsstring -> jsstring.

Definition step (st : State) (op : Operation) : State :=
  match op with
  | Connect env => snd (connect toLowerCase env st)
  | Disconnect => disconnect st
  | TestPrint now => snd (testPrint now st)
  end.

(** The service after a sequence of operations, from a fresh one. *)
Definition run (ops : list Operation) : State := fold_left step ops initial.

End Run.

End PrinterConnection.

(** ** Vocabulary of the statements *)

Module Spec.

(** The sum of a list of amounts. *)
Definition sumZ (l : list Z) : Z := foldr Z.add 0 l.


(** A list is cut into pieces of width [n], the last one possibly
    shorter: every piece but the last has [n] elements, and no piece is
    empty or longer than [n]. *)
Definition chunked {A} (n : nat) (chunks : list (list A)) : Prop :=
  Forall (fun ch => (0 < length ch <= n)%nat) chunks
  /\ forall pre ch post,
       chunks = pre ++ ch :: post -> post <> [] -> length ch = n.






(** The cash field and the change shown agree: either nothing is entered
    and the change is 0, or the field parses to an amount and the change is
    what exceeds [grandTotal], if anything. *)
Definition cashConsistent (p : Payment.Props) (st : Payment.State) : Prop :=
  (Payment.cashReceived st = [] /\ Payment.cashChange st = Num 0)
  \/ (exists z,
        Payment.cashReceived st <> []
        /\ parseFloat (Payment.cashReceived st) = Num z
        /\ Payment.cashChange st = Num (Z.max 0 (z - Payment.grandTotal p))).

(** The browser storages of two worlds hold the same. *)
Definition browserUntouched (w w' : Browser.World) : Prop :=
  Browser.localStorage w' = Browser.localStorage w
  /\ Browser.sessionStorage w' = Browser.sessionStorage w.

(** An amount every integer up to which is a double. *)
Definition safeInteger (z : Z) : Prop := Z.abs z < 2 ^ 53.

(** An event of the payment form that enters no amount beyond the safe
    integers. *)
Definition safeEvent (e : Payment.Event) : Prop :=
  match e with
  | Payment.CashTyped v => safeInteger (decimalValue (replace_non_digits v))
  | Payment.QuickCash a => safeInteger a
  | _ => True
  end.

(** A rational that a double can hold: a significand of at most 53 bits
    times a power of two (the range of the exponent left aside). *)
Definition isDouble (q : Q) : Prop :=
  exists n f : Z, Z.abs n <= 2 ^ 53 /\ (q == inject_Z n * pow2 f)%Q.

(** [q] is a double, and no double is nearer to [x]. *)
Definition nearestDouble (x q : Q) : Prop :=
  isDouble q /\ forall d, isDouble d -> (Qabs (q - x) <= Qabs (d - x))%Q.

(** The row [r] with the four payment columns as the payment form [st]
    has them at a direct payment. *)
Definition paidRow (st : Payment.State) (r : Backend.Transaction)
  : Backend.Transaction :=
  let isCash :=
    match Payment.paymentMethod st with Payment.cash => true | _ => false end in
  {| Backend.id := Backend.id r;
     Backend.transaction_number := Backend.transaction_number r;
     Backend.transaction_date := Backend.transaction_date r;
     Backend.items := Backend.items r;
     Backend.subtotal := Backend.subtotal r;
     Backend.total := Backend.total r;
     Backend.payment_status := lit "paid";
     Backend.payment_method :=
       Some (Payment.method_string (Payment.paymentMethod st));
     Backend.cash_received :=
       if isCash
       then Backend.json_number (Some (parseFloat (Payment.cashReceived st)))
       else None;
     Backend.cash_change :=
       if isCash then Backend.json_number (Some (Payment.cashChange st))
       else None;
     Backend.customer_name := Backend.customer_name r;
     Backend.notes := Backend.notes r;
     Backend.cashier_name := Backend.cashier_name r;
     Backend.created_by := Backend.created_by r;
     Backend.created_at := Backend.created_at r |}.

End Spec.

(** ** Invariants of the statements *)

Module Inv.



(** A row with consistent payment columns: subtotal and total agree; an
    open bill has a customer and neither method nor cash amounts; a paid
    transaction has one of the three methods, and cash amounts only for
    cash. *)
Definition rowOk (r : Backend.Transaction) : Prop :=
  Backend.subtotal r = Backend.total r
  /\ (Backend.payment_status r = lit "open_bill" ->
      Backend.payment_method r = None
      /\ Backend.cash_received r = None
      /\ Backend.cash_change r = None
      /\ exists n, Backend.customer_name r = Some n /\ n <> [])
  /\ (Backend.payment_status r = lit "paid" ->
      (exists m, Backend.payment_method r = Some (Payment.method_string m))
      /\ (Backend.payment_method r <> Some (lit "cash") ->
          Backend.cash_received r = None /\ Backend.cash_change r = None)).

(** Every row is stored under its id and is consistent. *)
Definition tableOk (t : Backend.Table) : Prop :=
  forall i r, t !! i = Some r -> Backend.id r = i /\ rowOk r.




(** A cell of the PIN is empty or holds one digit. *)
Definition cellOk (cell : jsstring) : Prop :=
  cell = [] \/ exists d, cell = [d] /\ isDigit d = true.

(** The PIN has six such cells. *)
Definition pinOk (st : Login.State) : Prop :=
  length (Login.pin st) = 6%nat /\ Forall cellOk (Login.pin st).

End Inv.

(** ** Concrete inputs the statements are instantiated at *)

Module Examples.

Definition kopiSusu : Cashier.Product :=
  {| Cashier.id := lit "p-1";
     Cashier.name := lit "Kopi Susu";
     Cashier.price := 18000;
     Cashier.category := lit "Kopi";
     Cashier.recipe := None;
     Cashier.image_url := [];
     Cashier.has_variants := Some true;
     Cashier.has_addons := Some true;
     Cashier.created_at := lit "2025-01-01" |}.

(** The product modal: two of Kopi Susu with an extra shot. *)
Definition modal : Cashier.State :=
  {| Cashier.cart := [];
     Cashier.selectedProduct := Some kopiSusu;
     Cashier.modalVariant := lit "Ice";
     Cashier.modalAddOns :=
       [ {| Cashier.modal_name := lit "Extra Shot";
            Cashier.modal_price := 5000;
            Cashier.selected := true |};
         {| Cashier.modal_name := lit "Gula Aren";
            Cashier.modal_price := 3000;
            Cashier.selected := false |} ];
     Cashier.modalQuantity := 2;
     Cashier.editingCartIndex := None;
     Cashier.isProductModalOpen := true;
     Cashier.productModalAnimating := true;
     Cashier.isCartModalOpen := false;
     Cashier.cartModalAnimating := false |}.

Definition cart : list Cashier.CartItem := [Cashier.buildItem kopiSusu modal].

Definition kasir : App.User :=
  {| App.id := lit "u-1"; App.username := lit "sari"; App.role := lit "kasir" |}.

(** The payment screen for that cart. *)
Definition props : Payment.Props :=
  Home.paymentProps kasir (Home.handleGoToPayment cart 46000).

(** The customer hands over 50.000 in cash. *)
Definition cashTyped : Payment.State :=
  Payment.handleCashReceivedChange props (lit "Rp 50.000") Payment.initial.

Definition generated : Backend.Generated :=
  {| Backend.gen_id := lit "t-2";
     Backend.gen_transaction_number := lit "TRX-0002";
     Backend.gen_transaction_date := lit "2025-01-02T10:00:00Z";
     Backend.gen_created_at := lit "2025-01-02T10:00:00Z" |}.

(** An open bill of customer Budi, and the table that holds it. *)
Definition openBill : Backend.Transaction :=
  {| Backend.id := lit "t-1";
     Backend.transaction_number := lit "TRX-0001";
     Backend.transaction_date := lit "2025-01-01T09:00:00Z";
     Backend.items := map Payment.itemOf cart;
     Backend.subtotal := 46000;
     Backend.total := 46000;
     Backend.payment_status := lit "open_bill";
     Backend.payment_method := None;
     Backend.cash_received := None;
     Backend.cash_change := None;
     Backend.customer_name := Some (lit "Budi");
     Backend.notes := None;
     Backend.cashier_name := lit "sari";
     Backend.created_by := lit "u-1";
     Backend.created_at := lit "2025-01-01T09:00:00Z" |}.

Definition table : Backend.Table := {[ lit "t-1" := openBill ]}.

(** The payment screen opened on that open bill. *)
Definition openBillProps : Payment.Props :=
  Home.paymentProps kasir (Home.handlePayOpenBill openBill).

(** The open bill once paid by QRIS, and a later cash sale of three Teh. *)
Definition paidBill : Backend.Transaction :=
  default openBill
    (Backend.patch
       [ (lit "payment_status", Backend.VString (lit "paid"));
         (lit "payment_method", Backend.VString (lit "qris"));
         (lit "cash_received", Backend.VNull);
         (lit "cash_change", Backend.VNull) ]
       openBill).

Definition tehSale : Backend.Transaction :=
  {| Backend.id := lit "t-3";
     Backend.transaction_number := lit "TRX-0003";
     Backend.transaction_date := lit "2025-01-03T09:00:00Z";
     Backend.items :=
       [ {| Backend.product_id := lit "p-2";
            Backend.product_name := lit "Teh";
            Backend.price := 8000;
            Backend.quantity := 3;
            Backend.variant := None;
            Backend.addOns := [];
            Backend.totalPrice := 24000 |};
         {| Backend.product_id := lit "p-1";
            Backend.product_name := lit "Kopi Susu";
            Backend.price := 18000;
            Backend.quantity := 1;
            Backend.variant := Some (lit "Hot");
            Backend.addOns := [];
            Backend.totalPrice := 18000 |} ];
     Backend.subtotal := 42000;
     Backend.total := 42000;
     Backend.payment_status := lit "paid";
     Backend.payment_method := Some (lit "cash");
     Backend.cash_received := Some 50000;
     Backend.cash_change := Some 8000;
     Backend.customer_name := None;
     Backend.notes := None;
     Backend.cashier_name := lit "sari";
     Backend.created_by := lit "u-1";
     Backend.created_at := lit "2025-01-03T09:00:00Z" |}.

(** A clock for the reports: dates are read as the day of January 2025
    they name, and today is the 3rd. *)
Definition dayOf (s : jsstring) : number :=
  parseFloat (firstn 2 (skipn 8 s)).

(** A browser with empty storages, before anybody logged in. *)
Definition emptyWorld : Browser.World :=
  {| Browser.database := table;
     Browser.localStorage := ∅;
     Browser.sessionStorage := ∅ |}.

Definition loggedOut : App.State :=
  {| App.user := None; App.isLoading := false |}.

(** [JSON.stringify] on users whose fields need no escaping; 34 is the
    double quote. *)
Definition stringifyUser (u : App.User) : jsstring :=
  let quoted s := [34%N] ++ s ++ [34%N] in
  lit "{" ++ quoted (lit "id") ++ lit ":" ++ quoted (App.id u) ++ lit ","
  ++ quoted (lit "username") ++ lit ":" ++ quoted (App.username u) ++ lit ","
  ++ quoted (lit "role") ++ lit ":" ++ quoted (App.role u) ++ lit "}".

End Examples.

(** ** Scenarios the further statements are instantiated at *)

Module Scenario.

(** The add-ons on offer for Kopi Susu. *)
Definition addonRows : list CashierModal.ProductAddon :=
  [ {| CashierModal.id := lit "a-1";
       CashierModal.product_id := lit "p-1";
       CashierModal.name := lit "Extra Shot";
       CashierModal.price := 5000;
       CashierModal.created_at := lit "2025-01-01" |};
    {| CashierModal.id := lit "a-2";
       CashierModal.product_id := lit "p-1";
       CashierModal.name := lit "Gula Aren";
       CashierModal.price := 3000;
       CashierModal.created_at := lit "2025-01-01" |} ].

(** The cashier screen with an empty cart and no modal open. *)
Definition emptyCashier : Cashier.State :=
  {| Cashier.cart := [];
     Cashier.selectedProduct := None;
     Cashier.modalVariant := lit "Ice";
     Cashier.modalAddOns := [];
     Cashier.modalQuantity := 1;
     Cashier.editingCartIndex := None;
     Cashier.isProductModalOpen := false;
     Cashier.productModalAnimating := false;
     Cashier.isCartModalOpen := false;
     Cashier.cartModalAnimating := false |}.

(** The customer wants it hot, with an extra shot, and hesitates about the
    quantity. *)
Definition clicks : list CashierModal.Event :=
  [ CashierModal.Hot; CashierModal.Toggle 0 true; CashierModal.Minus;
    CashierModal.Plus; CashierModal.Plus; CashierModal.Minus ].


(** The same as a run: the click on Kopi Susu, the answer with its
    add-ons, and then the clicks in the modal. *)
Definition steps : list CashierModal.Step :=
  CashierModal.Click Examples.kopiSusu
  :: CashierModal.Fetched Examples.kopiSusu (Some addonRows)
  :: map CashierModal.Modal clicks.

(** Teh has one add-on of its own. *)
Definition teh : Cashier.Product :=
  {| Cashier.id := lit "p-2";
     Cashier.name := lit "Teh";
     Cashier.price := 8000;
     Cashier.category := lit "Teh";
     Cashier.recipe := None;
     Cashier.image_url := [];
     Cashier.has_variants := Some true;
     Cashier.has_addons := Some true;
     Cashier.created_at := lit "2025-01-01" |}.

Definition tehRows : list CashierModal.ProductAddon :=
  [ {| CashierModal.id := lit "a-3";
       CashierModal.product_id := lit "p-2";
       CashierModal.name := lit "Lemon";
       CashierModal.price := 2000;
       CashierModal.created_at := lit "2025-01-01" |} ].

(** Kopi Susu is clicked and, before its add-ons arrive, Teh; the answer
    for Teh arrives first and the one for Kopi Susu second; the first
    add-on shown is ticked. *)
Definition race : list CashierModal.Step :=
  [ CashierModal.Click Examples.kopiSusu;
    CashierModal.Click teh;
    CashierModal.Fetched teh (Some tehRows);
    CashierModal.Fetched Examples.kopiSusu (Some addonRows);
    CashierModal.Modal (CashierModal.Toggle 0 true) ].

(** The cashier screen with the cart of the examples, the cart modal
    open. *)
Definition withCart : Cashier.State :=
  {| Cashier.cart := Examples.cart;
     Cashier.selectedProduct := None;
     Cashier.modalVariant := lit "Ice";
     Cashier.modalAddOns := [];
     Cashier.modalQuantity := 1;
     Cashier.editingCartIndex := None;
     Cashier.isProductModalOpen := false;
     Cashier.productModalAnimating := false;
     Cashier.isCartModalOpen := true;
     Cashier.cartModalAnimating := true |}.

(** The users of the shop. *)
Definition users : list Users.Row :=
  [ {| Users.id := lit "u-1"; Users.username := lit "sari";
       Users.role := lit "kasir"; Users.pin := lit "123456" |};
    {| Users.id := lit "u-2"; Users.username := lit "dewi";
       Users.role := lit "admin"; Users.pin := lit "654321" |} ].

(** Sari types her PIN, correcting the third digit, and pastes two
    characters into the last cell. *)
Definition keys : list (nat * jsstring) :=
  [ (0%nat, lit "1"); (1%nat, lit "2"); (2%nat, lit "4"); (2%nat, lit "x");
    (2%nat, lit "43"); (3%nat, lit "4"); (4%nat, lit "5"); (5%nat, lit "96") ].

Definition typed : Login.State :=
  default Login.initial (Login.typeAll Login.initial keys).

(** [JSON.parse] on the one text the examples store. *)
Definition parseKasir (s : jsstring) : option App.User :=
  if decide (s = Examples.stringifyUser Examples.kasir)
  then Some Examples.kasir else None.

(** The state a freshly loaded [App] starts from. *)
Definition loading : App.State :=
  {| App.user := None; App.isLoading := true |}.

End Scenario.

(** * Properties *)

(** ** Strings and numbers *)

Lemma dropWhile_head p c s : p c = false -> dropWhile p (c :: s) = c :: s.
Proof. intros H. simpl. now rewrite H. Qed.

Lemma takeWhile_all p s : forallb p s = true -> takeWhile p s = s.
Proof.
  induction s as [|c r IH]; simpl; [reflexivity|].
  intros H. apply andb_prop in H as [Hc Hr].
  rewrite Hc. f_equal. auto.
Qed.

Lemma forallb_filter_same (p : N -> bool) s : forallb p (List.filter p s) = true.
Proof.
  induction s as [|c r IH]; simpl; [reflexivity|].
  destruct (p c) eqn:E; simpl; [rewrite E|]; auto.
Qed.

Lemma digit_not_space c : isDigit c = true -> isWhiteSpace c = false.
Proof.
  unfold isDigit, isWhiteSpace. intros H.
  apply andb_prop in H as [H1 H2].
  apply N.leb_le in H1, H2.
  repeat match goal with
         | |- context [(c =? ?k)%N] =>
             replace (c =? k)%N with false by (symmetry; apply N.eqb_neq; lia)
         end.
  replace (c <=? 8202)%N with true by (symmetry; apply N.leb_le; lia).
  replace (8192 <=? c)%N with false by (symmetry; apply N.leb_gt; lia).
  reflexivity.
Qed.

Lemma decimalValue_from acc ds :
  0 <= acc ->
  0 <= fold_left (fun a d => 10 * a + digitValue d) ds acc.
Proof.
  revert acc. induction ds as [|d r IH]; simpl; intros acc H; [exact H|].
  apply IH. unfold digitValue. lia.
Qed.

Lemma decimalValue_nonneg ds : 0 <= decimalValue ds.
Proof. apply decimalValue_from. lia. Qed.

(** *** The Number value for an integer *)

Lemma numberOf_safe (z : Z) : Z.abs z < 2 ^ 53 -> numberOf z = Num z.
Proof.
  intros H. unfold numberOf. apply Z.ltb_lt in H. now rewrite H.
Qed.

(** Rounding keeps the sign, and never yields [NaN]. *)
Lemma numberOf_sign (z : Z) :
  match numberOf z with
  | Num m => (0 <= z -> 0 <= m) /\ (z < 0 -> m < 0)
  | Inf s => s = (z <? 0)
  | NaN => False
  end.
Proof.
  unfold numberOf. destruct (Z.abs z <? 2 ^ 53) eqn:E; [lia|].
  apply Z.ltb_ge in E.
  set (a := Z.abs z) in *. set (e := Z.log2 a - 52).
  assert (Hlog : 53 <= Z.log2 a) by (apply Z.log2_le_pow2; lia).
  assert (He : 0 < 2 ^ e) by (apply Z.pow_pos_nonneg; lia).
  assert (Hq : 0 < a / 2 ^ e).
  { apply Z.div_str_pos. split; [lia|].
    transitivity (2 ^ Z.log2 a).
    - apply Z.pow_le_mono_r; lia.
    - apply Z.log2_spec. lia. }
  set (q := a / 2 ^ e) in *.
  assert (Hq' : forall c : bool, 0 < (if c then q + 1 else q))
    by (intros []; lia).
  match goal with
  | |- context [if ?c then q + 1 else q] =>
      specialize (Hq' c); set (q' := if c then q + 1 else q) in *
  end.
  destruct (2 ^ 1024 <=? q' * 2 ^ e); [reflexivity|].
  split; intros Hz.
  - assert (0 <= Z.sgn z) by lia. nia.
  - assert (Z.sgn z = -1) by lia. nia.
Qed.

(** [parseFloat] reads a non-empty run of digits as the Number value for
    its decimal value. *)
Lemma parseFloat_digits ds :
  forallb isDigit ds = true -> ds <> [] ->
  parseFloat ds = numberOf (decimalValue ds).
Proof.
  intros Hall Hne. destruct ds as [|c r]; [congruence|].
  pose proof Hall as Hall'. simpl in Hall'.
  apply andb_prop in Hall' as [Hc _].
  unfold parseFloat. rewrite (dropWhile_head _ _ _ (digit_not_space _ Hc)).
  assert (Hm : (c =? 45)%N = false).
  { unfold isDigit in Hc. apply andb_prop in Hc as [H1 _].
    apply N.leb_le in H1. apply N.eqb_neq. lia. }
  assert (Hp : (c =? 43)%N = false).
  { unfold isDigit in Hc. apply andb_prop in Hc as [H1 _].
    apply N.leb_le in H1. apply N.eqb_neq. lia. }
  rewrite Hm, Hp, (takeWhile_all _ _ Hall).
  now rewrite Z.mul_1_l.
Qed.

Lemma nonNegative_num z :
  Payment.nonNegative (Num z) = Num (if 0 <=? z then z else 0).
Proof. unfold Payment.nonNegative. simpl. destruct (0 <=? z); reflexivity. Qed.

(** What [change >= 0 ? change : 0] yields is not negative, and not
    [NaN]. *)
Lemma nonNegative_geb (c : number) : geb (Payment.nonNegative c) (Num 0) = true.
Proof.
  unfold Payment.nonNegative. destruct (geb c (Num 0)) eqn:E; [exact E|reflexivity].
Qed.

(** The test [change >= 0] on a difference is the test [received >=
    grandTotal]. *)
Lemma change_of (r : number) (g : Z) :
  Payment.nonNegative (sub r (Num g))
  = if geb r (Num g) then sub r (Num g) else Num 0.
Proof.
  unfold Payment.nonNegative. destruct r as [x| |[|]]; try reflexivity.
  cbn [sub geb]. pose proof (numberOf_sign (x - g)) as Hs.
  destruct (numberOf (x - g)) as [m| |s]; [|contradiction|].
  - cbn [geb]. destruct Hs as [Hpos Hneg].
    destruct (g <=? x) eqn:E; [apply Z.leb_le in E|apply Z.leb_gt in E].
    + replace (0 <=? m) with true by (symmetry; apply Z.leb_le; lia).
      reflexivity.
    + replace (0 <=? m) with false by (symmetry; apply Z.leb_gt; lia).
      reflexivity.
  - subst s. cbn [geb].
    destruct (g <=? x) eqn:E; [apply Z.leb_le in E|apply Z.leb_gt in E].
    + replace (x - g <? 0) with false by (symmetry; apply Z.ltb_ge; lia).
      reflexivity.
    + replace (x - g <? 0) with true by (symmetry; apply Z.ltb_lt; lia).
      reflexivity.
Qed.

(** Below [2^53] and against a total that is not negative, the change is
    the exact difference, or 0. *)
Lemma change_exact (x g : Z) :
  0 <= g -> x < 2 ^ 53 ->
  Payment.nonNegative (numberOf (x - g)) = Num (Z.max 0 (x - g)).
Proof.
  intros Hg Hx. destruct (Z_le_gt_dec g x) as [Hle|Hgt].
  - rewrite numberOf_safe by lia. rewrite nonNegative_num.
    replace (0 <=? x - g) with true by (symmetry; apply Z.leb_le; lia).
    f_equal. lia.
  - pose proof (numberOf_sign (x - g)) as Hs. unfold Payment.nonNegative.
    destruct (numberOf (x - g)) as [m| |s]; [|contradiction|].
    + cbn [geb]. destruct Hs as [_ Hneg].
      replace (0 <=? m) with false by (symmetry; apply Z.leb_gt; lia).
      f_equal. lia.
    + subst s. cbn [geb].
      replace (x - g <? 0) with true by (symmetry; apply Z.ltb_lt; lia).
      cbn [negb]. f_equal. lia.
Qed.

(** *** [toString] and [parseFloat] agree on integers *)

Lemma lit_digits (d : Decimal.uint) :
  forallb isDigit (lit (NilEmpty.string_of_uint d)) = true.
Proof. induction d; simpl; auto. Qed.

Lemma lit_value (d : Decimal.uint) :
  forall acc : Decimal.uint,
    fold_left (fun a c => 10 * a + digitValue c)
              (lit (NilEmpty.string_of_uint d))
              (Z.of_N (DecimalPos.Unsigned.of_lu acc))
    = Z.of_N (DecimalPos.Unsigned.of_lu (Decimal.revapp d acc)).
Proof.
  induction d as [|d IH|d IH|d IH|d IH|d IH|d IH|d IH|d IH|d IH|d IH];
    intros acc; [reflexivity|..];
    cbn [NilEmpty.string_of_uint lit list_ascii_of_string map fold_left
         Decimal.revapp];
    rewrite <- IH; f_equal;
    cbn [DecimalPos.Unsigned.of_lu]; unfold digitValue; simpl N_of_ascii; lia.
Qed.

Lemma decimalValue_uint (d : Decimal.uint) :
  decimalValue (lit (NilEmpty.string_of_uint d)) = Z.of_N (Pos.of_uint d).
Proof.
  unfold decimalValue.
  change 0 with (Z.of_N (DecimalPos.Unsigned.of_lu Decimal.Nil)).
  rewrite lit_value, DecimalPos.Unsigned.of_uint_alt. reflexivity.
Qed.

Lemma lit_nonempty (d : Decimal.uint) :
  d <> Decimal.Nil -> lit (NilEmpty.string_of_uint d) <> [].
Proof. destruct d; intros H; [congruence|discriminate..]. Qed.

Lemma string_of_positive (q : positive) :
  NilZero.string_of_uint (Pos.to_uint q) = NilEmpty.string_of_uint (Pos.to_uint q).
Proof.
  pose proof (DecimalPos.Unsigned.to_uint_nonnil q) as H.
  destruct (Pos.to_uint q); [congruence|reflexivity..].
Qed.

(** The decimal form of an integer parses back to its Number value. *)
Lemma parseFloat_toString (n : Z) : parseFloat (toString n) = numberOf n.
Proof.
  destruct n as [|q|q]; [reflexivity|..]; unfold toString; simpl Z.to_int.
  - simpl NilZero.string_of_int. rewrite string_of_positive.
    rewrite parseFloat_digits.
    + now rewrite decimalValue_uint, DecimalPos.Unsigned.of_to.
    + apply lit_digits.
    + apply lit_nonempty, DecimalPos.Unsigned.to_uint_nonnil.
  - simpl NilZero.string_of_int. rewrite string_of_positive.
    unfold parseFloat.
    change (lit (String "-" (NilEmpty.string_of_uint (Pos.to_uint q))))
      with (45%N :: lit (NilEmpty.string_of_uint (Pos.to_uint q))).
    rewrite dropWhile_head by reflexivity.
    change (45 =? 45)%N with true. cbv iota.
    rewrite takeWhile_all by apply lit_digits.
    pose proof (lit_nonempty _ (DecimalPos.Unsigned.to_uint_nonnil q)) as Hne.
    pose proof (decimalValue_uint (Pos.to_uint q)) as Hv.
    rewrite DecimalPos.Unsigned.of_to in Hv.
    destruct (lit (NilEmpty.string_of_uint (Pos.to_uint q))) eqn:E;
      [congruence|].
    rewrite Hv. reflexivity.
Qed.

(** ** Numbers: the nearest double *)

Lemma pow2_pos e : (0 < pow2 e)%Q.
Proof. apply Qpower_0_lt. reflexivity. Qed.

Lemma pow2_nonneg e : 0 <= e -> (pow2 e == inject_Z (2 ^ e))%Q.
Proof. intros H. unfold pow2. now rewrite Zpower_Qpower. Qed.

Lemma pow2_add x y : (pow2 (x + y) == pow2 x * pow2 y)%Q.
Proof. apply Qpower_plus. intros H. discriminate H. Qed.

Lemma pow2_opp e : (pow2 (- e) == / pow2 e)%Q.
Proof. apply Qpower_opp. Qed.

Lemma pow2_cancel e : (pow2 (- e) * pow2 e == 1)%Q.
Proof.
  rewrite <- pow2_add. replace (- e + e) with 0 by lia. reflexivity.
Qed.







(** Inequalities between integers, read on the quotient. *)

Lemma ratio_ge (k c n d : Z) :
  0 < d -> k * d <= c * n ->
  (inject_Z k <= inject_Z c * (inject_Z n / inject_Z d))%Q.
Proof.
  intros Hd H.
  assert (Hd' : (0 < inject_Z d)%Q) by (unfold Qlt; simpl; lia).
  assert (Heq : (inject_Z c * (inject_Z n / inject_Z d)
                 == inject_Z (c * n) / inject_Z d)%Q).
  { rewrite inject_Z_mult. field. lra. }
  rewrite Heq. apply Qle_shift_div_l; [exact Hd'|].
  rewrite <- inject_Z_mult, <- Zle_Qle. exact H.
Qed.

Lemma ratio_le (k c n d : Z) :
  0 < d -> c * n <= k * d ->
  (inject_Z c * (inject_Z n / inject_Z d) <= inject_Z k)%Q.
Proof.
  intros Hd H.
  assert (Hd' : (0 < inject_Z d)%Q) by (unfold Qlt; simpl; lia).
  assert (Heq : (inject_Z c * (inject_Z n / inject_Z d)
                 == inject_Z (c * n) / inject_Z d)%Q).
  { rewrite inject_Z_mult. field. lra. }
  rewrite Heq. apply Qle_shift_div_r; [exact Hd'|].
  rewrite <- inject_Z_mult, <- Zle_Qle. exact H.
Qed.

(** No double lies strictly between two neighbouring significands of 53
    bits. *)
Lemma double_gap (n g m : Z) :
  Z.abs n <= 2 ^ 53 -> 2 ^ 52 <= m ->
  (inject_Z n * pow2 g <= inject_Z m
   \/ inject_Z m + 1 <= inject_Z n * pow2 g)%Q.
Proof.
  intros Hn Hm.
  destruct (Z_le_gt_dec 0 g) as [Hg|Hg].
  - rewrite pow2_nonneg by exact Hg. rewrite <- inject_Z_mult.
    destruct (Z_le_gt_dec (n * 2 ^ g) m) as [H|H].
    + left. rewrite <- Zle_Qle. exact H.
    + right. change 1%Q with (inject_Z 1). rewrite <- inject_Z_plus.
      rewrite <- Zle_Qle. lia.
  - left. replace g with (- (- g)) by lia. rewrite pow2_opp.
    rewrite pow2_nonneg by lia.
    assert (HP : 2 <= 2 ^ (- g)).
    { change 2 with (2 ^ 1) at 1. apply Z.pow_le_mono_r; lia. }
    assert (HP' : (0 < inject_Z (2 ^ (- g)))%Q) by (unfold Qlt; simpl; lia).
    apply Qle_shift_div_r; [exact HP'|].
    rewrite <- inject_Z_mult, <- Zle_Qle.
    change (2 ^ 52) with 4503599627370496 in *.
    change (2 ^ 53) with 9007199254740992 in *. nia.
Qed.

Lemma Qabs_le_scaled (u v s : Q) :
  (0 < s -> Qabs u <= Qabs v -> Qabs (u * s) <= Qabs (v * s))%Q.
Proof.
  intros Hs H. rewrite !Qabs_Qmult. rewrite (Qabs_pos s) by lra.
  apply Qmult_le_compat_r; [exact H|lra].
Qed.

Lemma isDouble_opp (q : Q) : Spec.isDouble q -> Spec.isDouble (- q).
Proof.
  intros (n & f & Hn & Hq). exists (- n), f. split; [lia|].
  rewrite Hq, inject_Z_opp. ring.
Qed.

Lemma nearestDouble_opp (x q : Q) :
  Spec.nearestDouble x q -> Spec.nearestDouble (- x) (- q).
Proof.
  intros [Hd Hnear]. split; [now apply isDouble_opp|].
  intros d Hdd. specialize (Hnear (- d)%Q (isDouble_opp d Hdd)).
  assert (E1 : (- q - - x == - (q - x))%Q) by ring.
  assert (E2 : (d - - x == - (- d - x))%Q) by ring.
  now rewrite E1, E2, !Qabs_opp.
Qed.

Lemma nearestDouble_wd (x x' q q' : Q) :
  (x == x')%Q -> (q == q')%Q ->
  Spec.nearestDouble x q -> Spec.nearestDouble x' q'.
Proof.
  intros Hx Hq [(n & f & Hn & Hd) Hnear]. split.
  - exists n, f. split; [exact Hn|]. now rewrite <- Hq.
  - intros d Hdd. rewrite <- Hx, <- Hq. now apply Hnear.
Qed.


(** Rounding the scaled quotient to the nearer of the two neighbouring
    significands, a tie either way, gives a nearest double. *)
Lemma round_nearest (n d m m' e : Z) :
  0 < d -> m * d <= n < (m + 1) * d -> 2 ^ 52 <= m < 2 ^ 53 ->
  (m' = m /\ 2 * n <= (2 * m + 1) * d)
  \/ (m' = m + 1 /\ (2 * m + 1) * d <= 2 * n) ->
  Spec.nearestDouble (inject_Z n / inject_Z d * pow2 e) (inject_Z m' * pow2 e).
Proof.
  intros Hd Hm Hrange Hround.
  split.
  { exists m', e. split; [|reflexivity].
    change (2 ^ 52) with 4503599627370496 in *.
    change (2 ^ 53) with 9007199254740992 in *.
    destruct Hround as [[-> _]|[-> _]]; lia. }
  assert (Hlo : (inject_Z m <= inject_Z 1 * (inject_Z n / inject_Z d))%Q)
    by (apply ratio_ge; lia).
  assert (Hhi : (inject_Z 1 * (inject_Z n / inject_Z d) <= inject_Z (m + 1))%Q)
    by (apply ratio_le; lia).
  assert (Hr : (m' = m
                /\ (inject_Z 2 * (inject_Z n / inject_Z d) <= inject_Z (2 * m + 1))%Q)
               \/ (m' = m + 1
                   /\ (inject_Z (2 * m + 1)
                       <= inject_Z 2 * (inject_Z n / inject_Z d))%Q)).
  { destruct Hround as [[-> H]|[-> H]]; [left|right]; split; try reflexivity.
    - now apply ratio_le.
    - now apply ratio_ge. }
  rewrite !inject_Z_plus, !inject_Z_mult in *.
  change (inject_Z 1) with 1%Q in *. change (inject_Z 2) with 2%Q in *.
  set (X := (inject_Z n / inject_Z d)%Q) in *. clearbody X.
  intros y (k & f & Hk & Hy).
  set (Y := (inject_Z k * pow2 (f - e))%Q).
  assert (Hy' : (y == Y * pow2 e)%Q).
  { rewrite Hy. subst Y. rewrite <- Qmult_assoc, <- pow2_add.
    now replace (f - e + e) with f by lia. }
  rewrite Hy'.
  assert (E1 : (inject_Z m' * pow2 e - X * pow2 e
                == (inject_Z m' - X) * pow2 e)%Q) by ring.
  assert (E2 : (Y * pow2 e - X * pow2 e == (Y - X) * pow2 e)%Q) by ring.
  rewrite E1, E2. apply Qabs_le_scaled; [apply pow2_pos|].
  assert (Hgap : (Y <= inject_Z m \/ inject_Z m + 1 <= Y)%Q).
  { apply double_gap; [exact Hk|lia]. }
  clearbody Y.
  destruct Hr as [[-> Hdown]|[-> Hup]].
  - apply Qabs_case; intros H1; apply Qabs_case; intros H2;
      destruct Hgap; lra.
  - rewrite inject_Z_plus. change (inject_Z 1) with 1%Q.
    apply Qabs_case; intros H1; apply Qabs_case; intros H2;
      destruct Hgap; lra.
Qed.


(** The Number value for a positive integer beyond the safe ones. *)
Lemma numberOf_large (a : Z) :
  2 ^ 53 <= a ->
  let e := Z.log2 a - 52 in
  let q := a / 2 ^ e in
  let r := a mod 2 ^ e in
  let half := 2 ^ (e - 1) in
  let q' := if (half <? r) || ((r =? half) && Z.odd q) then q + 1 else q in
  Spec.nearestDouble (inject_Z a) (inject_Z (q' * 2 ^ e)).
Proof.
  intros Ha e q r half q'.
  assert (Hpos : 0 < a) by (change (2 ^ 53) with 9007199254740992 in Ha; lia).
  assert (Hlog : 53 <= Z.log2 a) by (apply Z.log2_le_pow2; lia).
  assert (He : 1 <= e) by (subst e; lia).
  pose proof (Z.log2_spec a Hpos) as [Hl1 Hl2].
  assert (Hd : 0 < 2 ^ e) by (apply Z.pow_pos_nonneg; lia).
  assert (Hhalf : 2 ^ e = 2 * half).
  { subst half. rewrite <- Z.pow_succ_r by lia. f_equal. lia. }
  assert (E52 : 2 ^ Z.log2 a = 2 ^ 52 * 2 ^ e).
  { rewrite <- Z.pow_add_r by lia. f_equal. subst e. lia. }
  assert (E53 : 2 ^ Z.succ (Z.log2 a) = 2 ^ 53 * 2 ^ e).
  { rewrite <- Z.pow_add_r by lia. f_equal. subst e. lia. }
  rewrite E52 in Hl1. rewrite E53 in Hl2.
  pose proof (Z.div_mod a (2 ^ e) ltac:(lia)) as Hdm.
  pose proof (Z.mod_pos_bound a (2 ^ e) Hd) as Hr. fold q r in Hdm, Hr.
  assert (Hq : 2 ^ 52 <= q < 2 ^ 53).
  { split.
    - apply Z.div_le_lower_bound; lia.
    - apply Z.div_lt_upper_bound; lia. }
  set (d := 2 ^ e) in *.
  assert (Hround : (q' = q /\ 2 * a <= (2 * q + 1) * d)
                   \/ (q' = q + 1 /\ (2 * q + 1) * d <= 2 * a)).
  { subst q'. 
    destruct (half <? r) eqn:E1; cbn [orb andb].
    - apply Z.ltb_lt in E1. right. split; [reflexivity|lia].
    - apply Z.ltb_ge in E1.
      destruct (r =? half) eqn:E2; cbn [orb andb].
      + apply Z.eqb_eq in E2. destruct (Z.odd q).
        * right. split; [reflexivity|lia].
        * left. split; [reflexivity|lia].
      + apply Z.eqb_neq in E2. left. split; [reflexivity|lia]. }
  clearbody q'.
  apply (nearestDouble_wd (inject_Z a / inject_Z d * pow2 e) _
                          (inject_Z q' * pow2 e)).
  - subst d. rewrite (pow2_nonneg e) by lia.
    assert (Hnz : ~ (inject_Z (2 ^ e) == 0)%Q).
    { intros H. unfold Qeq in H. simpl in H. lia. }
    field. exact Hnz.
  - subst d. rewrite (pow2_nonneg e) by lia. now rewrite inject_Z_mult.
  - apply (round_nearest a d q q' e); [exact Hd|nia|exact Hq|exact Hround].
Qed.

(** The Number value for an integer is the double nearest to it. *)
Lemma numberOf_nearest (z m : Z) :
  numberOf z = Num m -> Spec.nearestDouble (inject_Z z) (inject_Z m).
Proof.
  unfold numberOf. destruct (Z.abs z <? 2 ^ 53) eqn:E.
  - intros H. injection H as <-. apply Z.ltb_lt in E. split.
    + exists z, 0. split; [lia|]. change (pow2 0) with 1%Q. ring.
    + intros d _. assert (E0 : (inject_Z z - inject_Z z == 0)%Q) by ring.
      rewrite E0. apply Qabs_nonneg.
  - apply Z.ltb_ge in E.
    pose proof (numberOf_large (Z.abs z) E) as Hnear. cbv zeta in Hnear.
    match goal with
    | |- context [if ?c then ?q + 1 else ?q] =>
        set (q' := if c then q + 1 else q) in *
    end.
    destruct (2 ^ 1024 <=? _); [discriminate|].
    intros H. injection H as <-.
    change (2 ^ 53) with 9007199254740992 in E.
    destruct (Z_lt_le_dec 0 z) as [Hz|Hz].
    + replace (Z.sgn z) with 1 by lia. replace (Z.abs z) with z in * by lia.
      now rewrite Z.mul_1_l.
    + replace (Z.sgn z) with (-1) by lia.
      apply (nearestDouble_wd (- inject_Z (Z.abs z))
                              _ (- inject_Z (q' * 2 ^ (Z.log2 (Z.abs z) - 52)))).
      * rewrite <- inject_Z_opp. f_equiv. lia.
      * rewrite <- inject_Z_opp. f_equiv. lia.
      * now apply nearestDouble_opp.
Qed.




(** Below [2^1024 - 2^970] in magnitude the Number value is finite. *)
Lemma numberOf_finite (z : Z) :
  Z.abs z < 2 ^ 1024 - 2 ^ 970 -> exists m, numberOf z = Num m.
Proof.
  intros Hz. unfold numberOf. destruct (Z.abs z <? 2 ^ 53) eqn:E; [eauto|].
  apply Z.ltb_ge in E. set (a := Z.abs z) in *.
  assert (Hpos : 0 < a) by (change (2 ^ 53) with 9007199254740992 in E; lia).
  assert (Hlog : 53 <= Z.log2 a) by (apply Z.log2_le_pow2; lia).
  assert (Hlog' : Z.log2 a < 1024).
  { apply Z.log2_lt_pow2; [exact Hpos|].
    assert (0 < 2 ^ 970) by (apply Z.pow_pos_nonneg; lia). lia. }
  set (e := Z.log2 a - 52) in *.
  assert (Hd : 0 < 2 ^ e) by (apply Z.pow_pos_nonneg; lia).
  assert (Hhalf : 2 ^ e = 2 * 2 ^ (e - 1)).
  { rewrite <- Z.pow_succ_r by lia. f_equal. lia. }
  assert (Hle : 2 ^ (e - 1) <= 2 ^ 970) by (apply Z.pow_le_mono_r; lia).
  pose proof (Z.div_mod a (2 ^ e) ltac:(lia)) as Hdm.
  pose proof (Z.mod_pos_bound a (2 ^ e) Hd) as Hr.
  set (q := a / 2 ^ e) in *. set (r := a mod 2 ^ e) in *.
  set (half := 2 ^ (e - 1)) in *. set (d := 2 ^ e) in *.
  assert (Hm : (if (half <? r) || ((r =? half) && Z.odd q) then q + 1 else q) * d
               <= a + half).
  { destruct (half <? r) eqn:E1; cbn [orb andb].
    - apply Z.ltb_lt in E1. lia.
    - destruct (r =? half) eqn:E2; cbn [orb andb]; [|lia].
      apply Z.eqb_eq in E2. destruct (Z.odd q); lia. }
  match goal with
  | |- context [2 ^ 1024 <=? ?m] =>
      destruct (Z.leb_spec (2 ^ 1024) m) as [Hbig|_]; [|eauto]
  end.
  exfalso. clearbody d half r q. set (top := 2 ^ 1024) in *.
  set (low := 2 ^ 970) in *. clearbody top low. lia.
Qed.

(** ** Payment: the cash change *)

Lemma cash_typed (p : Payment.Props) (v : jsstring) (st : Payment.State) :
  let typed := Payment.handleCashReceivedChange p v st in
  let digits := List.filter isDigit v in
  Payment.cashReceived typed = digits
  /\ Payment.cashChange typed
     = match digits with
       | [] => Num 0
       | _ :: _ =>
           Payment.nonNegative
             (sub (numberOf (decimalValue digits)) (Num (Payment.grandTotal p)))
       end.
Proof.
  intros typed digits.
  subst typed. unfold Payment.handleCashReceivedChange, replace_non_digits.
  fold digits. destruct digits as [|d r] eqn:E; simpl; [auto|].
  split; [reflexivity|].
  rewrite <- E. subst digits. rewrite parseFloat_digits.
  - reflexivity.
  - apply forallb_filter_same.
  - congruence.
Qed.

Lemma cash_quick (p : Payment.Props) (a : Z) (st : Payment.State) :
  Payment.cashChange (Payment.setQuickCash p a st)
  = Payment.nonNegative (numberOf (a - Payment.grandTotal p)).
Proof. reflexivity. Qed.

(** C5. After [handleCashReceivedChange(v)] the stored [cashReceived] is
    the digits of [v] in their order. [cashChange] is 0 when no digit
    remains; otherwise, with [received] the number [parseFloat] reads from
    the digits, which is a double nearest to what they spell and is finite
    below [2^1024 - 2^970], it is [received - grandTotal] when
    [received >= grandTotal] and 0 when not, the difference being a double
    nearest to the exact one. For an amount below [2^53] and a total that
    is not negative this is the exact difference. After [setQuickCash(a)],
    [cashChange] is [a - grandTotal] when [a >= grandTotal] and 0 when not,
    which is [max(0, a - grandTotal)] for such amounts. In both cases
    [cashChange] is not negative (and not [NaN]). *)
Theorem cash_change_correct (p : Payment.Props) (v : jsstring) (a : Z)
    (st : Payment.State) :
  let typed := Payment.handleCashReceivedChange p v st in
  let quick := Payment.setQuickCash p a st in
  let digits := List.filter isDigit v in
  let received := parseFloat digits in
  let grandTotal := Payment.grandTotal p in
  Payment.cashReceived typed = digits
  /\ (digits = [] -> Payment.cashChange typed = Num 0)
  /\ (digits <> [] ->
      received = numberOf (decimalValue digits)
      /\ (forall m, received = Num m ->
          Spec.nearestDouble (inject_Z (decimalValue digits)) (inject_Z m))
      /\ (decimalValue digits < 2 ^ 1024 - 2 ^ 970 ->
          exists m, received = Num m)
      /\ Payment.cashChange typed
         = (if geb received (Num grandTotal)
            then sub received (Num grandTotal) else Num 0)
      /\ (forall m c, received = Num m -> grandTotal <= m ->
          Payment.cashChange typed = Num c ->
          Spec.nearestDouble (inject_Z (m - grandTotal)) (inject_Z c)))
  /\ (digits <> [] -> 0 <= grandTotal -> decimalValue digits < 2 ^ 53 ->
      received = Num (decimalValue digits)
      /\ Payment.cashChange typed
         = Num (if grandTotal <=? decimalValue digits
                then decimalValue digits - grandTotal else 0))
  /\ Payment.cashChange quick
     = (if geb (Num a) (Num grandTotal)
        then sub (Num a) (Num grandTotal) else Num 0)
  /\ (forall c, grandTotal <= a -> Payment.cashChange quick = Num c ->
      Spec.nearestDouble (inject_Z (a - grandTotal)) (inject_Z c))
  /\ (0 <= grandTotal -> a < 2 ^ 53 ->
      Payment.cashChange quick = Num (Z.max 0 (a - grandTotal)))
  /\ geb (Payment.cashChange typed) (Num 0) = true
  /\ geb (Payment.cashChange quick) (Num 0) = true.
Proof.
  intros typed quick digits received grandTotal.
  destruct (cash_typed p v st) as [Hr Hc]. fold typed digits in Hr, Hc.
  fold grandTotal in Hc.
  pose proof (cash_quick p a st) as Hquick. fold quick grandTotal in Hquick.
  assert (Hparse : digits <> [] -> received = numberOf (decimalValue digits)).
  { intros Hne. apply parseFloat_digits; [apply forallb_filter_same|exact Hne]. }
  assert (Hdiff : forall x c,
    grandTotal <= x -> Payment.nonNegative (numberOf (x - grandTotal)) = Num c ->
    Spec.nearestDouble (inject_Z (x - grandTotal)) (inject_Z c)).
  { intros x c Hx Hn. apply numberOf_nearest.
    rewrite <- Hn. symmetry. change (numberOf (x - grandTotal)) with
      (sub (Num x) (Num grandTotal)).
    rewrite (change_of (Num x) grandTotal). cbn [geb].
    now replace (grandTotal <=? x) with true by (symmetry; apply Z.leb_le; lia). }
  split; [exact Hr|]. split.
  { intros E. rewrite Hc, E. reflexivity. }
  split.
  { intros Hne. pose proof (Hparse Hne) as Hrec.
    split; [exact Hrec|]. split.
    { intros m Hm. apply numberOf_nearest. now rewrite <- Hrec. }
    split.
    { intros Hfin. rewrite Hrec. apply numberOf_finite.
      pose proof (decimalValue_nonneg digits). lia. }
    split.
    { rewrite Hc, Hrec. destruct digits; [congruence|]. apply change_of. }
    intros m c Hm Hle Hchange. apply (Hdiff m c Hle).
    rewrite <- Hchange, Hc. destruct digits as [|d0 r0] eqn:E; [congruence|].
    rewrite <- Hrec, Hm. reflexivity. }
  split.
  { intros Hne Hg Hsafe.
    pose proof (decimalValue_nonneg digits) as Hpos.
    rewrite (Hparse Hne), numberOf_safe by lia. split; [reflexivity|].
    rewrite Hc. destruct digits as [|d r] eqn:E; [congruence|].
    rewrite numberOf_safe by lia. cbn [sub].
    rewrite change_exact by assumption. f_equal.
    destruct (grandTotal <=? decimalValue (d :: r)) eqn:El;
      [apply Z.leb_le in El|apply Z.leb_gt in El]; lia. }
  split.
  { rewrite Hquick. exact (change_of (Num a) grandTotal). }
  split.
  { intros c Hle Hchange. apply (Hdiff a c Hle). now rewrite <- Hchange, Hquick. }
  split.
  { intros Hg Ha. rewrite Hquick. now apply change_exact. }
  split.
  - rewrite Hc. destruct digits; [reflexivity|apply nonNegative_geb].
  - rewrite Hquick. apply nonNegative_geb.
Qed.

Lemma toString_nonempty (n : Z) : toString n <> [].
Proof.
  destruct n as [|q|q]; unfold toString; simpl Z.to_int;
    simpl NilZero.string_of_int; [discriminate|..];
    rewrite string_of_positive.
  - apply lit_nonempty, DecimalPos.Unsigned.to_uint_nonnil.
  - discriminate.
Qed.

Lemma handle_cashConsistent (p : Payment.Props) (st : Payment.State)
    (e : Payment.Event) :
  0 <= Payment.grandTotal p -> Spec.safeEvent e ->
  Spec.cashConsistent p st -> Spec.cashConsistent p (Payment.handle p st e).
Proof.
  intros Hg Hsafe Hst. destruct e as [v|a|t|m|v|v]; try exact Hst;
    cbn [Payment.handle].
  - destruct (cash_typed p v st) as [Hr Hc]. cbv zeta in Hr, Hc.
    simpl in Hsafe. unfold Spec.safeInteger, replace_non_digits in Hsafe.
    destruct (List.filter isDigit v) as [|d r] eqn:E.
    + left. split; [now rewrite Hr|exact Hc].
    + right. exists (decimalValue (d :: r)). rewrite Hr.
      split; [discriminate|]. split.
      * rewrite parseFloat_digits; [|rewrite <- E; apply forallb_filter_same
                                    |discriminate].
        now apply numberOf_safe.
      * rewrite Hc, numberOf_safe by exact Hsafe. cbn [sub].
        apply change_exact; [exact Hg|lia].
  - simpl in Hsafe. unfold Spec.safeInteger in Hsafe.
    right. exists a.
    change (Payment.cashReceived (Payment.setQuickCash p a st)) with (toString a).
    split; [apply toString_nonempty|]. split.
    + rewrite parseFloat_toString. now apply numberOf_safe.
    + rewrite cash_quick. apply change_exact; [exact Hg|lia].
Qed.

(** Whatever the user did on the form, with amounts below [2^53] against
    a total that is not negative, the cash field and the change agree. *)
Lemma filled_cashConsistent (p : Payment.Props) (events : list Payment.Event) :
  0 <= Payment.grandTotal p -> Forall Spec.safeEvent events ->
  Spec.cashConsistent p (Payment.filled p events).
Proof.
  intros Hg Hsafe. unfold Payment.filled.
  assert (H : forall st, Spec.cashConsistent p st ->
                         Spec.cashConsistent p (fold_left (Payment.handle p) events st)).
  { induction Hsafe as [|e r He Hr IH]; intros st Hst; simpl; [exact Hst|].
    apply IH, handle_cashConsistent; assumption. }
  apply H. left. split; reflexivity.
Qed.

(** ** Payment: validation *)

(** C3. For a direct payment in cash [validatePayment] returns an error
    exactly when the cash field is empty or the parsed amount is less than
    [grandTotal]; for a direct payment by QRIS or debit it returns [null];
    for an open bill it returns an error exactly when the trimmed customer
    name is empty. [isFormValid] is true exactly when [validatePayment]
    returns [null]. *)
Theorem validatePayment_correct (p : Payment.Props) (st : Payment.State) :
  (Payment.transactionType st = Payment.bayar_langsung ->
   Payment.paymentMethod st = Payment.cash ->
   (is_Some (Payment.validatePayment p st) <->
    Payment.cashReceived st = []
    \/ ltb (parseFloat (Payment.cashReceived st)) (Num (Payment.grandTotal p)) = true))
  /\ (Payment.transactionType st = Payment.bayar_langsung ->
      Payment.paymentMethod st <> Payment.cash ->
      Payment.validatePayment p st = None)
  /\ (Payment.transactionType st = Payment.open_bill ->
      (is_Some (Payment.validatePayment p st) <->
       trim (Payment.customerName st) = []))
  /\ (Payment.isFormValid p st = true <-> Payment.validatePayment p st = None).
Proof.
  unfold Payment.validatePayment, Payment.isFormValid.
  destruct (Payment.transactionType st), (Payment.paymentMethod st).
  all: destruct (Payment.cashReceived st) as [|c r]; simpl.
  all: try destruct (ltb (parseFloat (c :: r)) (Num (Payment.grandTotal p))).
  all: destruct (trim (Payment.customerName st)) as [|c' r']; simpl.
  all: rewrite ?is_Some_alt.
  all: repeat split; intros; try congruence; try discriminate; auto;
    try contradiction.
  all: try match goal with
           | H : _ \/ _ |- _ => destruct H as [H|H]; discriminate H
           end.
Qed.

(** ** Payment: the record written for a new transaction *)

(** C2. When no existing transaction is being paid and the form is valid,
    the handler inserts one record whose subtotal and total are
    [grandTotal]. For an open bill the record has status ['open_bill'], no
    payment method, no cash amounts, and the trimmed customer name. For a
    direct payment it has status ['paid'], the selected method, and cash
    amounts exactly when the method is cash. The row the database stores
    carries the same columns, a cash amount that is not finite arriving as
    [null]; for a cash payment entered through the form with amounts below
    [2^53], against a total that is not negative, it holds the amount
    received, which is at least [grandTotal], and the difference as the
    change. *)
Theorem new_transaction_record (p : Payment.Props) (g : Backend.Generated)
    (st : Payment.State) (t : Backend.Table) :
  truthy_opt (Payment.existingTransactionId p) = false ->
  Payment.validatePayment p st = None ->
  let d := Payment.newTransaction p st in
  let r := Backend.new_row g d in
  Payment.request p st = Payment.Insert d
  /\ (t !! Backend.gen_id g = None ->
      Payment.handleProcessPayment p g st t
      = (Payment.finished (Some r) st, <[Backend.gen_id g := r]> t))
  /\ Backend.new_subtotal d = Payment.grandTotal p
  /\ Backend.new_total d = Payment.grandTotal p
  /\ Backend.subtotal r = Payment.grandTotal p
  /\ Backend.total r = Payment.grandTotal p
  /\ match Payment.transactionType st with
     | Payment.open_bill =>
         Backend.new_payment_status d = lit "open_bill"
         /\ Backend.new_payment_method d = None
         /\ Backend.new_cash_received d = None
         /\ Backend.new_cash_change d = None
         /\ Backend.new_customer_name d = Some (trim (Payment.customerName st))
         /\ Backend.payment_status r = lit "open_bill"
         /\ Backend.payment_method r = None
         /\ Backend.cash_received r = None
         /\ Backend.cash_change r = None
         /\ Backend.customer_name r = Some (trim (Payment.customerName st))
     | Payment.bayar_langsung =>
         Backend.new_payment_status d = lit "paid"
         /\ Backend.new_payment_method d
            = Some (Payment.method_string (Payment.paymentMethod st))
         /\ Backend.payment_status r = lit "paid"
         /\ Backend.payment_method r
            = Some (Payment.method_string (Payment.paymentMethod st))
         /\ match Payment.paymentMethod st with
            | Payment.cash =>
                Backend.new_cash_received d
                = Some (parseFloat (Payment.cashReceived st))
                /\ Backend.new_cash_change d = Some (Payment.cashChange st)
                /\ Backend.cash_received r
                   = Backend.json_number
                       (Some (parseFloat (Payment.cashReceived st)))
                /\ Backend.cash_change r
                   = Backend.json_number (Some (Payment.cashChange st))
            | _ =>
                Backend.new_cash_received d = None
                /\ Backend.new_cash_change d = None
                /\ Backend.cash_received r = None
                /\ Backend.cash_change r = None
            end
     end
  /\ (forall events,
      st = Payment.filled p events ->
      Forall Spec.safeEvent events ->
      0 <= Payment.grandTotal p ->
      Payment.transactionType st = Payment.bayar_langsung ->
      Payment.paymentMethod st = Payment.cash ->
      exists z, Payment.grandTotal p <= z
                /\ Backend.cash_received r = Some z
                /\ Backend.cash_change r = Some (z - Payment.grandTotal p)).
Proof.
  intros Hnew Hvalid d r.
  assert (Hreq : Payment.request p st = Payment.Insert d).
  { unfold Payment.request. rewrite Hvalid.
    destruct (Payment.existingTransactionId p) as [i|]; [|reflexivity].
    simpl in Hnew. now rewrite Hnew. }
  split; [exact Hreq|]. split.
  { intros Hfree. unfold Payment.handleProcessPayment. rewrite Hreq.
    unfold Backend.insert. now rewrite Hfree. }
  assert (Hcash : forall events,
    st = Payment.filled p events ->
    Forall Spec.safeEvent events ->
    0 <= Payment.grandTotal p ->
    Payment.transactionType st = Payment.bayar_langsung ->
    Payment.paymentMethod st = Payment.cash ->
    exists z, Payment.grandTotal p <= z
              /\ Backend.cash_received r = Some z
              /\ Backend.cash_change r = Some (z - Payment.grandTotal p)).
  { intros events Hst Hsafe Hg Htype Hmethod.
    pose proof (filled_cashConsistent p events Hg Hsafe) as Hcons.
    rewrite <- Hst in Hcons.
    unfold Payment.validatePayment in Hvalid. rewrite Htype, Hmethod in Hvalid.
    destruct Hcons as [[Hempty _]|(z & Hne & Hparse & Hchange)].
    - rewrite Hempty in Hvalid. discriminate Hvalid.
    - destruct (Payment.cashReceived st) as [|c0 r0] eqn:Er; [congruence|].
      simpl in Hvalid. rewrite Hparse in Hvalid. simpl in Hvalid.
      destruct (z <? Payment.grandTotal p) eqn:El; [discriminate|].
      apply Z.ltb_ge in El. exists z. split; [exact El|].
      subst r d. unfold Payment.newTransaction. simpl.
      rewrite Htype, Hmethod, Er, Hparse, Hchange. simpl.
      split; [reflexivity|]. f_equal. lia. }
  subst r d. unfold Payment.newTransaction in *. simpl in *.
  destruct (Payment.transactionType st), (Payment.paymentMethod st);
    simpl; repeat split; try reflexivity; exact Hcash.
Qed.

Lemma new_transaction_record_witness :
  truthy_opt (Payment.existingTransactionId Examples.props) = false
  /\ Payment.validatePayment Examples.props Examples.cashTyped = None
  /\ Payment.request Examples.props Examples.cashTyped
     = Payment.Insert (Payment.newTransaction Examples.props Examples.cashTyped).
Proof.
  assert (H1 : truthy_opt (Payment.existingTransactionId Examples.props) = false)
    by reflexivity.
  assert (H2 : Payment.validatePayment Examples.props Examples.cashTyped = None)
    by reflexivity.
  split; [exact H1|]. split; [exact H2|].
  exact (proj1 (new_transaction_record Examples.props Examples.generated
                  Examples.cashTyped Examples.table H1 H2)).
Defined.

(** ** Payment: paying an open bill *)

(** A key names at most one column, and every column has its name. *)
Lemma column_of_name (c : Backend.Column) :
  Backend.column_of (Backend.column_name c) = Some c.
Proof. destruct c; vm_compute; reflexivity. Qed.

Lemma column_of_Some (k : jsstring) (c : Backend.Column) :
  Backend.column_of k = Some c -> Backend.column_name c = k.
Proof.
  unfold Backend.column_of. intros H. apply find_some in H as [_ H].
  now apply bool_decide_eq_true in H.
Qed.

(** Writing one column leaves the others as they are. *)
Lemma set_column_frame (c c' : Backend.Column) (v : Backend.Value)
    (r r' : Backend.Transaction) :
  Backend.set_column c v r = Some r' -> c' <> c ->
  Backend.column c' r' = Backend.column c' r.
Proof.
  intros Hset Hne.
  destruct c; destruct v as [|s|[z| |b]|l]; simpl in Hset;
    try discriminate Hset; injection Hset as <-;
    destruct c'; try reflexivity; congruence.
Qed.

(** An update object leaves alone every column it has no key for. *)
Lemma patch_frame (u : Backend.UpdateData) :
  forall r r' : Backend.Transaction,
    Backend.patch u r = Some r' ->
    forall c, Backend.column_name c ∉ map fst u ->
              Backend.column c r' = Backend.column c r.
Proof.
  induction u as [|[k v] rest IH]; intros r r' Hpatch c Hout; simpl in Hpatch.
  - now injection Hpatch as <-.
  - destruct (Backend.column_of k) as [ck|] eqn:Ek; [|discriminate].
    destruct (Backend.set_column ck (Backend.json v) r) as [r1|] eqn:Eset;
      [|discriminate].
    simpl in Hout. apply not_elem_of_cons in Hout as [Hk Hrest].
    rewrite (IH r1 r' Hpatch c Hrest).
    apply (set_column_frame ck c _ r r1 Eset).
    intros ->. apply Hk. now apply column_of_Some.
Qed.

(** The object [updateData] can always be applied, and yields the row with
    the four payment columns of the form. *)
Lemma patch_updateData (st : Payment.State) (r : Backend.Transaction) :
  Backend.patch (Payment.updateData st) r = Some (Spec.paidRow st r).
Proof.
  unfold Payment.updateData, Spec.paidRow.
  destruct (Payment.paymentMethod st); cbn [Backend.patch].
  - change (Backend.column_of (lit "payment_status"))
      with (Some Backend.c_payment_status).
    change (Backend.column_of (lit "payment_method"))
      with (Some Backend.c_payment_method).
    change (Backend.column_of (lit "cash_received"))
      with (Some Backend.c_cash_received).
    change (Backend.column_of (lit "cash_change"))
      with (Some Backend.c_cash_change).
    destruct (parseFloat (Payment.cashReceived st)) as [z| |b];
      destruct (Payment.cashChange st) as [z'| |b']; reflexivity.
  - reflexivity.
  - reflexivity.
Qed.

Lemma update_paid (st : Payment.State) (i : jsstring) (t : Backend.Table) :
  Backend.update (Payment.updateData st) i t
  = match t !! i with
    | Some r => Some (Spec.paidRow st r, <[i := Spec.paidRow st r]> t)
    | None => None
    end.
Proof.
  unfold Backend.update. destruct (t !! i) as [r|]; [|reflexivity].
  rewrite patch_updateData.
  destruct (decide (Backend.id (Spec.paidRow st r) = Backend.id r)) as [_|H];
    [reflexivity|].
  exfalso. apply H. reflexivity.
Qed.

(** C4. When an existing transaction is being paid, the handler asks the
    database for one update, of the row with that id, with an object whose
    keys are [payment_status], [payment_method], [cash_received] and
    [cash_change] and no others. With the database behaving as described
    in [Backend], nothing in the table changes but these four columns of
    that row: no row appears or disappears, every other row is as before,
    and in the row itself every column that is not a key of the object,
    so the items, subtotal, total, customer name, notes, transaction
    number and the remaining ones, is as before. Applied to a row, the
    object sets its status to ['paid'], its method to the selected one, and
    its cash columns to what the form holds for cash and to [null]
    otherwise; when the form is valid and the database performs the update,
    the row with that id is the row so changed. *)
Theorem pay_open_bill_frame (p : Payment.Props) (g : Backend.Generated)
    (st : Payment.State) (t : Backend.Table) (i : jsstring) :
  Payment.existingTransactionId p = Some i ->
  truthy i = true ->
  let t' := snd (Payment.handleProcessPayment p g st t) in
  let u := Payment.updateData st in
  (Payment.validatePayment p st = None ->
   Payment.request p st = Payment.Update i u)
  /\ map fst u
     = [lit "payment_status"; lit "payment_method"; lit "cash_received";
        lit "cash_change"]
  /\ (forall j, j <> i -> t' !! j = t !! j)
  /\ (t' !! i = None <-> t !! i = None)
  /\ (forall r r', t !! i = Some r -> t' !! i = Some r' ->
      (forall c, Backend.column_name c ∉ map fst u ->
                 Backend.column c r' = Backend.column c r)
      /\ Backend.items r' = Backend.items r
      /\ Backend.subtotal r' = Backend.subtotal r
      /\ Backend.total r' = Backend.total r
      /\ Backend.customer_name r' = Backend.customer_name r
      /\ Backend.notes r' = Backend.notes r
      /\ Backend.transaction_number r' = Backend.transaction_number r
      /\ Backend.id r' = Backend.id r
      /\ Backend.transaction_date r' = Backend.transaction_date r
      /\ Backend.cashier_name r' = Backend.cashier_name r
      /\ Backend.created_by r' = Backend.created_by r
      /\ Backend.created_at r' = Backend.created_at r)
  /\ (forall r, exists r',
        Backend.patch u r = Some r'
        /\ Backend.payment_status r' = lit "paid"
        /\ Backend.payment_method r'
           = Some (Payment.method_string (Payment.paymentMethod st))
        /\ match Payment.paymentMethod st with
           | Payment.cash =>
               Backend.cash_received r'
               = Backend.json_number (Some (parseFloat (Payment.cashReceived st)))
               /\ Backend.cash_change r'
                  = Backend.json_number (Some (Payment.cashChange st))
           | _ =>
               Backend.cash_received r' = None /\ Backend.cash_change r' = None
           end)
  /\ (forall r' t1, Payment.validatePayment p st = None ->
      Backend.update u i t = Some (r', t1) ->
      t' = t1
      /\ t' !! i = Some r'
      /\ exists r, t !! i = Some r /\ Backend.patch u r = Some r').
Proof.
  intros Hid Htruthy t' u.
  assert (Hreq : Payment.validatePayment p st = None ->
                 Payment.request p st = Payment.Update i u).
  { intros Hv. unfold Payment.request. now rewrite Hv, Hid, Htruthy. }
  assert (Ht' : t' = match Payment.validatePayment p st, t !! i with
                     | None, Some r => <[i := Spec.paidRow st r]> t
                     | _, _ => t
                     end).
  { subst t'. unfold Payment.handleProcessPayment.
    destruct (Payment.validatePayment p st) eqn:Hv.
    - unfold Payment.request. now rewrite Hv.
    - rewrite (Hreq eq_refl). subst u. rewrite update_paid.
      destruct (t !! i); reflexivity. }
  clearbody t'. subst t'.
  split; [exact Hreq|]. split; [reflexivity|].
  assert (Hframe : forall r c,
    Backend.column_name c ∉ map fst u ->
    Backend.column c (Spec.paidRow st r) = Backend.column c r).
  { intros r c Hc. exact (patch_frame u r _ (patch_updateData st r) c Hc). }
  assert (Hobject : forall r, exists r',
    Backend.patch u r = Some r'
    /\ Backend.payment_status r' = lit "paid"
    /\ Backend.payment_method r'
       = Some (Payment.method_string (Payment.paymentMethod st))
    /\ match Payment.paymentMethod st with
       | Payment.cash =>
           Backend.cash_received r'
           = Backend.json_number (Some (parseFloat (Payment.cashReceived st)))
           /\ Backend.cash_change r'
              = Backend.json_number (Some (Payment.cashChange st))
       | _ =>
           Backend.cash_received r' = None /\ Backend.cash_change r' = None
       end).
  { intros r. exists (Spec.paidRow st r).
    split; [apply patch_updateData|].
    split; [reflexivity|]. split; [reflexivity|].
    unfold Spec.paidRow. destruct (Payment.paymentMethod st); simpl; auto. }
  assert (Hdone : forall r' t1,
    Backend.update u i t = Some (r', t1) ->
    exists r, t !! i = Some r /\ r' = Spec.paidRow st r
              /\ t1 = <[i := Spec.paidRow st r]> t).
  { intros r' t1 H. subst u. rewrite update_paid in H.
    destruct (t !! i) as [r|]; [|discriminate H].
    injection H as <- <-. now exists r. }
  destruct (Payment.validatePayment p st) as [e|] eqn:Hv;
    destruct (t !! i) as [r0|] eqn:Hr0.
  - split; [reflexivity|]. split; [tauto|]. split.
    + intros r r' H1 H2.
      assert (r' = r) by congruence. subst r'.
      repeat split; reflexivity.
    + split; [exact Hobject|]. intros r' t1 H. discriminate H.
  - split; [reflexivity|]. split; [tauto|]. split.
    + intros r r' H1 H2. discriminate H1.
    + split; [exact Hobject|]. intros r' t1 H. discriminate H.
  - split; [intros j Hj; now rewrite lookup_insert_ne|].
    split; [rewrite lookup_insert_eq; split; intros H; discriminate H|].
    split.
    + intros r r' H1 H2. rewrite lookup_insert_eq in H2.
      injection H1 as <-. injection H2 as <-.
      split; [apply Hframe|]. repeat split; reflexivity.
    + split; [exact Hobject|]. intros r' t1 _ H.
      destruct (Hdone r' t1 H) as (r & Hr & -> & ->).
      injection Hr as <-.
      split; [reflexivity|]. split; [apply lookup_insert_eq|].
      exists r0. split; [reflexivity|apply patch_updateData].
  - split; [reflexivity|]. split; [tauto|]. split.
    + intros r r' H1 H2. discriminate H1.
    + split; [exact Hobject|]. intros r' t1 _ H.
      destruct (Hdone r' t1 H) as (r & Hr & _). discriminate Hr.
Qed.

Lemma pay_open_bill_frame_witness :
  Payment.existingTransactionId Examples.openBillProps = Some (lit "t-1")
  /\ truthy (lit "t-1") = true
  /\ Payment.request Examples.openBillProps Examples.cashTyped
     = Payment.Update (lit "t-1") (Payment.updateData Examples.cashTyped)
  /\ forall j, j <> lit "t-1" ->
       snd (Payment.handleProcessPayment Examples.openBillProps Examples.generated
              Examples.cashTyped Examples.table) !! j
       = Examples.table !! j.
Proof.
  assert (H1 : Payment.existingTransactionId Examples.openBillProps
               = Some (lit "t-1")) by reflexivity.
  assert (H2 : truthy (lit "t-1") = true) by reflexivity.
  assert (H3 : Payment.validatePayment Examples.openBillProps Examples.cashTyped
               = None) by reflexivity.
  split; [exact H1|]. split; [exact H2|].
  pose proof (pay_open_bill_frame Examples.openBillProps Examples.generated
                Examples.cashTyped Examples.table (lit "t-1") H1 H2) as H.
  cbv zeta in H. destruct H as (Hreq & _ & Hothers & _).
  split; [exact (Hreq H3)|exact Hothers].
Defined.

(** ** Cashier: item prices and the grand total *)








(** ** Where state is persisted *)

(** Against C1 as stated: logging in writes the user into
    [sessionStorage], so the browser storages do not stay as they were. *)
Lemma login_persists_outside_database :
  ~ Spec.browserUntouched Examples.emptyWorld
      (snd (App.handleLogin Examples.stringifyUser Examples.kasir
              Examples.loggedOut Examples.emptyWorld)).
Proof.
  intros [_ H]. simpl in H.
  apply (f_equal (fun s => s !! lit "goodways_user")) in H.
  unfold Browser.setItem in H. rewrite lookup_insert_eq in H.
  rewrite lookup_empty in H. discriminate H.
Qed.

(** C1, as the code has it. Of the browser storages the operations write
    one key each: [localStorage] holds the cart under ['goodways-cart']
    (written on every change of the cart, removed after a payment) and
    [sessionStorage] holds the logged-in user under ['goodways_user']
    (written at login, removed at logout, and removed by the mount exactly
    when a saved value is there, is not empty and does not parse; the
    mount leaves the storage as it is otherwise). No other key of either
    storage changes, these operations leave the database alone, and
    processing a payment writes the database only. *)
Theorem storage_footprint (stringify_user : App.User -> jsstring)
    (parse_user : jsstring -> option App.User)
    (stringify_cart : list Cashier.CartItem -> jsstring)
    (op : Operations.Operation) (w : Browser.World) :
  let w' := Operations.run stringify_user parse_user stringify_cart op w in
  (forall k, k <> lit "goodways-cart" ->
     Browser.localStorage w' !! k = Browser.localStorage w !! k)
  /\ (forall k, k <> lit "goodways_user" ->
        Browser.sessionStorage w' !! k = Browser.sessionStorage w !! k)
  /\ match op with
     | Operations.ProcessPayment p g st =>
         Spec.browserUntouched w w'
         /\ Browser.database w'
            = snd (Payment.handleProcessPayment p g st (Browser.database w))
     | Operations.Login u _ =>
         Browser.database w' = Browser.database w
         /\ Browser.localStorage w' = Browser.localStorage w
         /\ Browser.sessionStorage w' !! lit "goodways_user"
            = Some (stringify_user u)
     | Operations.Logout _ =>
         Browser.database w' = Browser.database w
         /\ Browser.localStorage w' = Browser.localStorage w
         /\ Browser.sessionStorage w' !! lit "goodways_user" = None
     | Operations.AppMount _ =>
         Browser.database w' = Browser.database w
         /\ Browser.localStorage w' = Browser.localStorage w
         /\ (forall saved,
             Browser.sessionStorage w !! lit "goodways_user" = Some saved ->
             saved <> [] -> parse_user saved = None ->
             Browser.sessionStorage w'
             = delete (lit "goodways_user") (Browser.sessionStorage w)
             /\ Browser.sessionStorage w' !! lit "goodways_user" = None)
         /\ (Browser.sessionStorage w !! lit "goodways_user" = None
             \/ Browser.sessionStorage w !! lit "goodways_user" = Some []
             \/ (exists saved u,
                   Browser.sessionStorage w !! lit "goodways_user" = Some saved
                   /\ parse_user saved = Some u) ->
             Browser.sessionStorage w' = Browser.sessionStorage w)
     | Operations.CartChanged st =>
         Browser.database w' = Browser.database w
         /\ Browser.sessionStorage w' = Browser.sessionStorage w
         /\ Browser.localStorage w' !! lit "goodways-cart"
            = Some (stringify_cart (Cashier.cart st))
     | Operations.PaymentSuccess =>
         Browser.database w' = Browser.database w
         /\ Browser.sessionStorage w' = Browser.sessionStorage w
         /\ Browser.localStorage w' !! lit "goodways-cart" = None
     end.
Proof.
  intros w'. subst w'. destruct op; simpl.
  - (* AppMount *)
    unfold App.mount, Browser.getItem, Browser.removeItem.
    destruct (Browser.sessionStorage w !! lit "goodways_user") as [saved|]
      eqn:Esaved.
    + destruct saved as [|c rest]; cbn [truthy].
      * simpl. split; [auto|]. split; [auto|].
        split; [reflexivity|]. split; [reflexivity|]. split.
        -- intros s0 [= <-] Hne. congruence.
        -- intros _. reflexivity.
      * destruct (parse_user (c :: rest)) as [u|] eqn:Eparse; simpl.
        -- split; [auto|]. split; [auto|].
           split; [reflexivity|]. split; [reflexivity|]. split.
           ++ intros s0 [= <-] _ H. congruence.
           ++ intros _. reflexivity.
        -- split; [auto|]. split; [intros k Hk; now rewrite lookup_delete_ne|].
           split; [reflexivity|]. split; [reflexivity|]. split.
           ++ intros s0 [= <-] _ _. split; [reflexivity|].
              apply lookup_delete_eq.
           ++ intros [H|[H|(s0 & u & H & Hp)]]; try discriminate H.
              injection H as <-. congruence.
    + simpl. split; [auto|]. split; [auto|].
      split; [reflexivity|]. split; [reflexivity|]. split.
      * intros s0 H. discriminate H.
      * intros _. reflexivity.
  - (* Login *)
    unfold Browser.setItem. repeat split; auto.
    + intros k Hk. now rewrite lookup_insert_ne.
    + apply lookup_insert_eq.
  - (* Logout *)
    unfold Browser.removeItem. repeat split; auto.
    + intros k Hk. now rewrite lookup_delete_ne.
    + apply lookup_delete_eq.
  - (* CartChanged *)
    unfold Browser.setItem. repeat split; auto.
    + intros k Hk. now rewrite lookup_insert_ne.
    + apply lookup_insert_eq.
  - (* ProcessPayment *)
    repeat split; auto.
  - (* PaymentSuccess *)
    unfold Browser.removeItem. repeat split; auto.
    + intros k Hk. now rewrite lookup_delete_ne.
    + apply lookup_delete_eq.
Qed.

(** ** PrinterService: justified lines *)

Lemma length_lit_separators :
  length PrinterService.LINE_SINGLE = 32%nat
  /\ length PrinterService.LINE_DOUBLE = 32%nat
  /\ length PrinterService.LINE_DASHED = 32%nat.
Proof. repeat split; reflexivity. Qed.

(** C6. When [right] is no longer than the width (32 by default),
    [justifyLine] returns a string, of exactly that width, that ends with
    [right]: [left], spaces and [right] when the two are shorter than the
    width together, and otherwise [left] cut to the width minus the length
    of [right], followed by [right]. The three separator lines are 32
    characters wide. *)
Theorem justifyLine_width (left right : jsstring) (maxLength : option Z) :
  let width := default 32 maxLength in
  let total := Z.of_nat (length left) + Z.of_nat (length right) in
  Z.of_nat (length right) <= width ->
  exists line,
    PrinterService.justifyLine left right maxLength = Some line
    /\ Z.of_nat (length line) = width
    /\ (exists front, line = front ++ right)
    /\ (total < width ->
        line = left ++ replicate (Z.to_nat (width - total)) 32%N ++ right)
    /\ (width <= total ->
        line = firstn (Z.to_nat (width - Z.of_nat (length right))) left ++ right)
    /\ length PrinterService.LINE_SINGLE = 32%nat
    /\ length PrinterService.LINE_DOUBLE = 32%nat
    /\ length PrinterService.LINE_DASHED = 32%nat.
Proof.
  intros width total Hright.
  unfold PrinterService.justifyLine. fold width. fold total.
  destruct (width <=? total) eqn:E.
  - apply Z.leb_le in E. eexists. split; [reflexivity|].
    unfold substring0. split.
    { rewrite length_app, length_take. subst total. lia. }
    split; [eexists; reflexivity|]. split; [intros; lia|].
    split; [reflexivity|]. exact length_lit_separators.
  - apply Z.leb_gt in E. unfold repeat_space.
    destruct (width - total <? 0) eqn:E'; [apply Z.ltb_lt in E'; lia|].
    eexists. split; [reflexivity|]. split.
    { rewrite !length_app, length_replicate. subst total. lia. }
    split; [exists (left ++ replicate (Z.to_nat (width - total)) 32%N);
            now rewrite <- app_assoc|].
    split; [reflexivity|]. split; [intros; lia|].
    exact length_lit_separators.
Qed.

Lemma justifyLine_width_witness :
  Z.of_nat (length (lit "Rp 46.000")) <= default 32 None
  /\ exists line,
       PrinterService.justifyLine (lit "TOTAL:") (lit "Rp 46.000") None = Some line
       /\ Z.of_nat (length line) = 32.
Proof.
  assert (H : Z.of_nat (length (lit "Rp 46.000")) <= default 32 None)
    by (vm_compute; discriminate).
  split; [exact H|].
  destruct (justifyLine_width (lit "TOTAL:") (lit "Rp 46.000") None H)
    as (line & Hline & Hlen & _).
  exists line. split; [exact Hline|exact Hlen].
Defined.

(** ** PrinterService: the chunked write *)

(** One turn of the loop of [sendData]. *)
Lemma sendFrom_unfold (encoded : list N) (i : nat) (c : PrinterService.Characteristic) :
  PrinterService.sendFrom encoded i c
  = if decide (i < length encoded)%nat
    then PrinterService.sendFrom encoded (i + PrinterService.chunkSize)
           (PrinterService.writeValue
              (PrinterService.slice encoded i (i + PrinterService.chunkSize)) c)
    else c.
Proof.
  rewrite PrinterService.sendFrom_equation_1.
  destruct (decide (i < length encoded)%nat); reflexivity.
Qed.

Lemma chunked_nonempty_concat {A} (n : nat) (chunks : list (list A)) :
  Spec.chunked n chunks -> chunks <> [] -> concat chunks <> [].
Proof.
  intros [Hall _] Hne. destruct chunks as [|ch r]; [congruence|].
  inversion Hall as [|? ? Hch _]; subst. simpl.
  destruct ch; simpl in *; [lia|discriminate].
Qed.

(** From index [i] on, the loop appends to the log the pieces of the rest
    of the payload. *)
Lemma sendFrom_chunks (encoded : list N) (n : nat) :
  forall (i : nat) (c : PrinterService.Characteristic),
    (length encoded - i <= n)%nat ->
    exists chunks,
      PrinterService.written (PrinterService.sendFrom encoded i c)
      = PrinterService.written c ++ chunks
      /\ concat chunks = skipn i encoded
      /\ Spec.chunked PrinterService.chunkSize chunks.
Proof.
  induction n as [|n IH]; intros i c Hn; rewrite sendFrom_unfold;
    destruct (decide (i < length encoded)%nat) as [Hlt|Hge]; try lia.
  - exists []. rewrite app_nil_r, skipn_all2 by lia.
    repeat split; [constructor|]. intros [|] ? ? ?; discriminate.
  - set (chunk := PrinterService.slice encoded i (i + PrinterService.chunkSize)).
    destruct (IH (i + PrinterService.chunkSize)%nat
                (PrinterService.writeValue chunk c))
      as (rest & Hlog & Hcat & Hchunked).
    { unfold PrinterService.chunkSize. lia. }
    assert (Hchunk : chunk = firstn PrinterService.chunkSize (skipn i encoded)).
    { subst chunk. unfold PrinterService.slice. f_equal. lia. }
    assert (Hlen : length chunk
                   = Nat.min PrinterService.chunkSize (length encoded - i)).
    { rewrite Hchunk, length_take, length_skipn. reflexivity. }
    exists (chunk :: rest). split; [|split].
    + rewrite Hlog. simpl. now rewrite <- app_assoc.
    + simpl. rewrite Hcat, Hchunk.
      replace (i + PrinterService.chunkSize)%nat
        with (PrinterService.chunkSize + i)%nat by lia.
      rewrite <- skipn_skipn. apply firstn_skipn.
    + destruct Hchunked as [Hall Hlast]. split.
      * constructor; [|exact Hall].
        rewrite Hlen. unfold PrinterService.chunkSize. lia.
      * intros pre ch post Heq Hpost. destruct pre as [|x pre]; simpl in Heq.
        -- injection Heq as <- <-.
           assert (Hrest : concat rest <> [])
             by (apply (chunked_nonempty_concat PrinterService.chunkSize);
                 [split; assumption|exact Hpost]).
           rewrite Hcat in Hrest.
           assert (i + PrinterService.chunkSize < length encoded)%nat.
           { destruct (decide (i + PrinterService.chunkSize < length encoded)%nat);
               [assumption|]. exfalso. apply Hrest. apply skipn_all2. lia. }
           rewrite Hlen. lia.
        -- injection Heq as _ Heq. exact (Hlast pre ch post Heq Hpost).
  - exists []. rewrite app_nil_r, skipn_all2 by lia.
    repeat split; [constructor|]. intros [|] ? ? ?; discriminate.
Qed.

(** C10. On a connected printer [sendData] appends to what was written a
    sequence of chunks, in order, none empty and none longer than 20 bytes,
    all but the last of exactly 20 bytes, whose concatenation is the UTF-8
    encoding of the string: the bytes written are those of one write of
    the whole payload. Without a characteristic it throws and writes
    nothing. *)
Theorem sendData_chunks (data : jsstring) (c : PrinterService.Characteristic) :
  (exists chunks c',
     PrinterService.sendData data (Some c) = inr c'
     /\ PrinterService.written c' = PrinterService.written c ++ chunks
     /\ concat chunks = PrinterService.encode data
     /\ Forall (fun ch => (0 < length ch <= 20)%nat) chunks
     /\ (forall pre ch post,
           chunks = pre ++ ch :: post -> post <> [] -> length ch = 20%nat)
     /\ concat (PrinterService.written c')
        = concat (PrinterService.written
                    (PrinterService.writeValue (PrinterService.encode data) c)))
  /\ PrinterService.sendData data None = inl (lit "Printer belum terhubung").
Proof.
  split; [|reflexivity].
  destruct (sendFrom_chunks (PrinterService.encode data)
              (length (PrinterService.encode data)) 0 c)
    as (chunks & Hlog & Hcat & Hall & Hlast); [lia|].
  exists chunks, (PrinterService.sendFrom (PrinterService.encode data) 0 c).
  split; [reflexivity|]. split; [exact Hlog|]. split; [exact Hcat|].
  split; [exact Hall|]. split; [exact Hlast|].
  rewrite Hlog. simpl. rewrite !concat_app, Hcat. simpl.
  now rewrite app_nil_r.
Qed.

(** ** Reports: the overview figures *)




(** ** Reports: the product map *)




Lemma map_get_None (k : jsstring) (m : Reports.ProductMap) :
  Reports.map_get k m = None <-> k ∉ map fst m.
Proof.
  induction m as [|[k0 v0] r IH]; simpl.
  - split; [intros _ H; inversion H|reflexivity].
  - destruct (decide (k = k0)) as [->|Hne].
    + split; [discriminate|]. intros H. exfalso. apply H. left.
    + rewrite IH. rewrite not_elem_of_cons. tauto.
Qed.








(** ** Reports: the sort *)





(** ** Reports: best sellers *)






(** * The code run on the examples *)

Example cart_of_two_kopi :
  option_map Cashier.cart (Cashier.addToCart Examples.modal) = Some Examples.cart
  /\ option_map Cashier.grandTotal (Cashier.addToCart Examples.modal) = Some 46000.
Proof. split; reflexivity. Qed.

Example empty_cash_field_rejected :
  Payment.validatePayment Examples.props Payment.initial
  = Some (lit "Masukkan nominal pembayaran").
Proof. reflexivity. Qed.

Example short_cash_rejected :
  Payment.validatePayment Examples.props
    (Payment.filled Examples.props [Payment.CashTyped (lit "Rp 40.000")])
  = Some (lit "Nominal pembayaran kurang").
Proof. reflexivity. Qed.

Example quick_cash_accepted :
  let st := Payment.filled Examples.props [Payment.QuickCash 50000] in
  Payment.cashReceived st = lit "50000"
  /\ Payment.cashChange st = Num 4000
  /\ Payment.isFormValid Examples.props st = true.
Proof. repeat split; reflexivity. Qed.

Example open_bill_needs_a_name :
  Payment.validatePayment Examples.props
    (Payment.filled Examples.props
       [Payment.TypeChosen Payment.open_bill; Payment.NameTyped (lit "   ")])
  = Some (lit "Masukkan nama pelanggan").
Proof. reflexivity. Qed.

Example stats_of_three_transactions :
  Reports.calculateStats 3 Examples.dayOf
    [Examples.tehSale; Examples.openBill; Examples.paidBill]
  = {| Reports.totalSales := 88000;
       Reports.totalTransactions := 2;
       Reports.averageTransaction := Finite (inject_Z 44000);
       Reports.openBills := 1;
       Reports.todaySales := 42000 |}.
Proof. reflexivity. Qed.

Example best_sellers_of_three_transactions :
  Reports.calculateBestSellers
    [Examples.tehSale; Examples.openBill; Examples.paidBill]
  = [ {| Reports.product_name := lit "Teh";
         Reports.total_quantity := 3;
         Reports.total_revenue := 24000 |};
      {| Reports.product_name := lit "Kopi Susu";
         Reports.total_quantity := 3;
         Reports.total_revenue := 64000 |} ].
Proof. reflexivity. Qed.

Example long_name_is_cut :
  PrinterService.justifyLine (lit "Kopi Susu Gula Aren Jumbo Extra") (lit "Rp 46.000")
    None
  = Some (lit "Kopi Susu Gula Aren JumRp 46.000").
Proof. reflexivity. Qed.

Example receipt_line_in_three_chunks :
  match PrinterService.sendData
          (lit "TOTAL:                 Rp 46.000" ++ [10%N] ++ lit "Terima kasih")
          (Some {| PrinterService.written := [] |}) with
  | inr c => map length (PrinterService.written c) = [20; 20; 5]%nat
  | inl _ => False
  end.
Proof. reflexivity. Qed.

(** Beyond [2^53] the cash field is read as the nearest double: the odd
    amount below is read as its even neighbour, and the change is counted
    from there. *)
Example cash_beyond_the_safe_integers :
  let st := Payment.handleCashReceivedChange Examples.props
              (lit "9007199254740993") Payment.initial in
  Payment.cashReceived st = lit "9007199254740993"
  /\ parseFloat (Payment.cashReceived st) = Num 9007199254740992
  /\ Payment.cashChange st = Num 9007199254694992.
Proof. vm_compute. repeat split; reflexivity. Qed.

(** A difference that no double holds is rounded, a tie to the even
    significand. *)
Example change_is_rounded :
  sub (parseFloat (lit "18014398509481984")) (Num 46001)
  = Num 18014398509435984.
Proof. vm_compute. reflexivity. Qed.

(** An entry of 310 digits is [Infinity]; the form accepts it, and the
    database receives [null] for both cash amounts. *)
Example cash_of_310_digits :
  let st := Payment.handleCashReceivedChange Examples.props
              (replicate 310 57%N) Payment.initial in
  let row := Backend.new_row Examples.generated
               (Payment.newTransaction Examples.props st) in
  parseFloat (Payment.cashReceived st) = Inf false
  /\ Payment.cashChange st = Inf false
  /\ Payment.validatePayment Examples.props st = None
  /\ Backend.cash_received row = None
  /\ Backend.cash_change row = None.
Proof. vm_compute. repeat split; reflexivity. Qed.

(** A third of 100000 is not a double: the average is the double next to
    it, 33333.333333333336 when printed. *)
Example average_of_three :
  divide 100000 3 = Finite (4581298449066667 # 137438953472)
  /\ ~ ((4581298449066667 # 137438953472) * inject_Z 3 == inject_Z 100000)%Q.
Proof. split; [vm_compute; reflexivity|]. intros H. vm_compute in H. discriminate H. Qed.

(** * Further properties of the code *)

(** ** Cashier: removing an item *)



(** ** Cashier: what the product modal puts into the cart *)







(** Answers out of order: Teh is clicked while the add-ons of Kopi Susu
    are fetched, and the answer for Kopi Susu arrives last. The modal then
    shows Teh with the add-ons of Kopi Susu, and the item added is a Teh
    with an extra shot. *)
Example answers_out_of_order :
  match CashierModal.run
          {| CashierModal.ui := Scenario.emptyCashier; CashierModal.pending := [] |}
          Scenario.race with
  | Some s =>
      CashierModal.lastClick Scenario.race = Some Scenario.teh
      /\ CashierModal.lastFilled Scenario.race
         = Some (Examples.kopiSusu, Some Scenario.addonRows)
      /\ option_map
           (fun st => map (fun it => (Cashier.name (Cashier.product it),
                                      Cashier.addOns it, Cashier.totalPrice it))
                          (Cashier.cart st))
           (Cashier.addToCart (CashierModal.ui s))
         = Some [ (lit "Teh",
                   [ {| Cashier.addon_name := lit "Extra Shot";
                        Cashier.addon_price := 5000 |} ],
                   13000) ]
  | None => False
  end.
Proof. vm_compute. repeat split; reflexivity. Qed.

(** ** Cashier: editing an item and saving it unchanged *)

Lemma same_name_same_row (data : list CashierModal.ProductAddon)
    (r r' : CashierModal.ProductAddon) :
  NoDup (map CashierModal.name data) ->
  r ∈ data -> r' ∈ data -> CashierModal.name r = CashierModal.name r' -> r = r'.
Proof.
  induction data as [|x l IH]; simpl; intros Hnd Hr Hr' Hname; [inversion Hr|].
  apply NoDup_cons in Hnd as [Hx Hnd].
  apply elem_of_cons in Hr as [->|Hr]; apply elem_of_cons in Hr' as [->|Hr'];
    auto.
  - exfalso. apply Hx. rewrite Hname. apply list_elem_of_fmap. eauto.
  - exfalso. apply Hx. rewrite <- Hname. apply list_elem_of_fmap. eauto.
Qed.

(** The add-ons selected among the rows [data] by [sel]. *)
Lemma selected_of_rows (data : list CashierModal.ProductAddon)
    (sel : CashierModal.ProductAddon -> bool) :
  Cashier.selectedAddOns
    (map (fun addon =>
            {| Cashier.modal_name := CashierModal.name addon;
               Cashier.modal_price := CashierModal.price addon;
               Cashier.selected := sel addon |}) data)
  = map (fun addon =>
           {| Cashier.addon_name := CashierModal.name addon;
              Cashier.addon_price := CashierModal.price addon |})
        (List.filter sel data).
Proof.
  unfold Cashier.selectedAddOns.
  induction data as [|x l IH]; simpl; [reflexivity|].
  destruct (sel x); simpl; now rewrite IH.
Qed.

Lemma filter_agree {A} (f g : A -> bool) (l : list A) :
  (forall x, x ∈ l -> f x = g x) -> List.filter f l = List.filter g l.
Proof.
  induction l as [|x r IH]; intros H; simpl; [reflexivity|].
  rewrite (H x) by left. rewrite IH; [reflexivity|].
  intros y Hy. apply H. now right.
Qed.

(** With distinct names among the rows, the rows whose name is among the
    selected add-ons are the selected rows. *)
Lemma reselect_rows (data : list CashierModal.ProductAddon)
    (sel : CashierModal.ProductAddon -> bool) (row : CashierModal.ProductAddon) :
  NoDup (map CashierModal.name data) ->
  row ∈ data ->
  existsb (fun a => bool_decide (Cashier.addon_name a = CashierModal.name row))
          (map (fun addon =>
                  {| Cashier.addon_name := CashierModal.name addon;
                     Cashier.addon_price := CashierModal.price addon |})
               (List.filter sel data))
  = sel row.
Proof.
  intros Hnd Hrow. destruct (sel row) eqn:Hsel.
  - apply existsb_exists. eexists. split.
    + apply in_map. apply filter_In. split; [|exact Hsel].
      now apply list_elem_of_In.
    + simpl. now apply bool_decide_eq_true.
  - apply not_true_is_false. intros H.
    apply existsb_exists in H as (a & Ha & Hname).
    apply in_map_iff in Ha as (r' & <- & Hr').
    apply filter_In in Hr' as [Hr' Hsel']. simpl in Hname.
    apply bool_decide_eq_true in Hname.
    assert (r' = row)
      by (apply (same_name_same_row data); auto; now apply list_elem_of_In).
    congruence.
Qed.

(** X3. An item of the cart is edited and saved without a change, and
    nothing else happens on the screen in between: the click on edit, the
    answer to the fetch it started, and the save follow one another. The
    cart is then as it was, when the item had been built in the product
    modal from the add-ons that are fetched again now, these have distinct
    names, and the variant chosen then was not empty. *)
Theorem edit_and_save_unchanged (st m : Cashier.State) (index : nat)
    (p : Cashier.Product) (fetched : option (list CashierModal.ProductAddon))
    (sel : CashierModal.ProductAddon -> bool) :
  Cashier.cart st !! index = Some (Cashier.buildItem p m) ->
  Cashier.modalAddOns m = CashierModal.offered p fetched sel ->
  truthy (Cashier.modalVariant m) = true ->
  (forall data, fetched = Some data -> NoDup (map CashierModal.name data)) ->
  exists clicked st2,
    CashierModal.startEditCartItem_begin index st
    = Some (Cashier.buildItem p m, clicked)
    /\ CashierModal.startEditCartItem index fetched st
       = Some (CashierModal.startEditCartItem_end (Cashier.buildItem p m)
                 fetched clicked)
    /\ Cashier.addToCart
         (CashierModal.startEditCartItem_end (Cashier.buildItem p m)
            fetched clicked)
       = Some st2
    /\ Cashier.cart st2 = Cashier.cart st
    /\ Cashier.editingCartIndex st2 = None
    /\ Cashier.isProductModalOpen st2 = false.
Proof.
  intros Hitem Hoffered Hvariant Hnames.
  set (item := Cashier.buildItem p m) in *.
  assert (Hadd : Cashier.selectedAddOns
                   (CashierModal.offered p fetched (CashierModal.hasAddOn item))
                 = Cashier.addOns item).
  { assert (Hitems : Cashier.addOns item
                     = Cashier.selectedAddOns (CashierModal.offered p fetched sel))
      by (subst item; simpl; now rewrite Hoffered).
    rewrite Hitems. unfold CashierModal.offered at 1 2.
    destruct (Cashier.has_addons p) as [[|]|] eqn:E; try reflexivity.
    destruct fetched as [data|]; [|reflexivity].
    rewrite !selected_of_rows. f_equal. apply filter_agree.
    intros row Hrow. unfold CashierModal.hasAddOn. rewrite Hitems.
    unfold CashierModal.offered. rewrite E, selected_of_rows.
    apply reselect_rows; auto. }
  eexists. eexists. split.
  { unfold CashierModal.startEditCartItem_begin. rewrite Hitem. reflexivity. }
  split.
  { unfold CashierModal.startEditCartItem, CashierModal.startEditCartItem_begin.
    rewrite Hitem. reflexivity. }
  unfold CashierModal.startEditCartItem_end.
  cbn [Cashier.cart Cashier.selectedProduct Cashier.modalVariant
       Cashier.modalQuantity Cashier.editingCartIndex].
  assert (Hsame : Cashier.buildItem (Cashier.product item)
    {| Cashier.cart := Cashier.cart st;
       Cashier.selectedProduct := Some (Cashier.product item);
       Cashier.modalVariant :=
         match Cashier.variant item with
         | Some v => if truthy v then v else lit "Ice"
         | None => lit "Ice"
         end;
       Cashier.modalAddOns :=
         CashierModal.offered (Cashier.product item) fetched
           (CashierModal.hasAddOn item);
       Cashier.modalQuantity := Cashier.quantity item;
       Cashier.editingCartIndex := Some index;
       Cashier.isProductModalOpen := true;
       Cashier.productModalAnimating := true;
       Cashier.isCartModalOpen := false;
       Cashier.cartModalAnimating := false |} = item).
  { unfold Cashier.buildItem at 1. simpl Cashier.modalAddOns.
    simpl Cashier.modalQuantity. simpl Cashier.modalVariant.
    change (Cashier.product item) with p. rewrite Hadd.
    subst item. unfold Cashier.buildItem. simpl. f_equal.
    destruct (Cashier.has_variants p) as [[|]|]; try reflexivity.
    now rewrite Hvariant. }
  pose proof (lookup_lt_Some _ _ _ Hitem) as Hlt.
  split.
  { unfold Cashier.addToCart, Cashier.updateCartItem.
    cbn [Cashier.selectedProduct Cashier.editingCartIndex Cashier.cart].
    rewrite Hsame. unfold Cashier.array_set.
    apply Nat.ltb_lt in Hlt. rewrite Hlt. reflexivity. }
  simpl. split; [|split; reflexivity].
  now apply list_insert_id.
Qed.

Lemma edit_and_save_unchanged_witness :
  Cashier.cart Scenario.withCart !! 0%nat
  = Some (Cashier.buildItem Examples.kopiSusu Examples.modal)
  /\ Cashier.modalAddOns Examples.modal
     = CashierModal.offered Examples.kopiSusu (Some Scenario.addonRows)
         (fun row => bool_decide (CashierModal.name row = lit "Extra Shot"))
  /\ truthy (Cashier.modalVariant Examples.modal) = true
  /\ (forall data, Some Scenario.addonRows = Some data ->
                   NoDup (map CashierModal.name data))
  /\ exists st1 st2,
       CashierModal.startEditCartItem 0 (Some Scenario.addonRows) Scenario.withCart
       = Some st1
       /\ Cashier.addToCart st1 = Some st2
       /\ Cashier.cart st2 = Cashier.cart Scenario.withCart.
Proof.
  assert (H1 : Cashier.cart Scenario.withCart !! 0%nat
               = Some (Cashier.buildItem Examples.kopiSusu Examples.modal))
    by reflexivity.
  assert (H2 : Cashier.modalAddOns Examples.modal
               = CashierModal.offered Examples.kopiSusu (Some Scenario.addonRows)
                   (fun row => bool_decide (CashierModal.name row = lit "Extra Shot")))
    by reflexivity.
  assert (H3 : truthy (Cashier.modalVariant Examples.modal) = true)
    by reflexivity.
  assert (H4 : forall data, Some Scenario.addonRows = Some data ->
                            NoDup (map CashierModal.name data)).
  { intros data [= <-]. apply (bool_decide_unpack _). vm_compute. reflexivity. }
  split; [exact H1|]. split; [exact H2|]. split; [exact H3|].
  split; [exact H4|].
  destruct (edit_and_save_unchanged Scenario.withCart Examples.modal 0
              Examples.kopiSusu (Some Scenario.addonRows) _ H1 H2 H3 H4)
    as (clicked & st2 & _ & Hedit & Hsave & Hcart & _).
  eexists. exists st2. split; [exact Hedit|]. split; [exact Hsave|exact Hcart].
Defined.

(** ** Payment: what a processed payment does to the table *)

Lemma request_cases (p : Payment.Props) (st : Payment.State) :
  match Payment.request p st with
  | Payment.Rejected e => Payment.validatePayment p st = Some e
  | Payment.Update i u =>
      Payment.validatePayment p st = None
      /\ Payment.existingTransactionId p = Some i /\ truthy i = true
      /\ u = Payment.updateData st
  | Payment.Insert d =>
      Payment.validatePayment p st = None
      /\ truthy_opt (Payment.existingTransactionId p) = false
      /\ d = Payment.newTransaction p st
  end.
Proof.
  unfold Payment.request.
  destruct (Payment.validatePayment p st); [reflexivity|].
  destruct (Payment.existingTransactionId p) as [i|]; simpl; [|auto].
  destruct (truthy i) eqn:E; auto.
Qed.

Lemma processed (p : Payment.Props) (g : Backend.Generated)
    (st : Payment.State) (t : Backend.Table) :
  Payment.handleProcessPayment p g st t
  = match Payment.request p st with
    | Payment.Rejected _ => (st, t)
    | Payment.Update i u =>
        match t !! i with
        | Some r => (Payment.finished (Some (Spec.paidRow st r)) st,
                     <[i := Spec.paidRow st r]> t)
        | None => (Payment.finished None st, t)
        end
    | Payment.Insert d =>
        match t !! Backend.gen_id g with
        | Some _ => (Payment.finished None st, t)
        | None => (Payment.finished (Some (Backend.new_row g d)) st,
                   <[Backend.gen_id g := Backend.new_row g d]> t)
        end
    end.
Proof.
  unfold Payment.handleProcessPayment, Backend.insert.
  pose proof (request_cases p st) as Hreq.
  destruct (Payment.request p st) as [e|i u|d]; [reflexivity|..].
  - destruct Hreq as (_ & _ & _ & ->). rewrite update_paid.
    destruct (t !! i); reflexivity.
  - destruct (t !! Backend.gen_id g); reflexivity.
Qed.

Lemma method_string_cash (m : Payment.PaymentMethod) :
  Payment.method_string m = lit "cash" <-> m = Payment.cash.
Proof. destruct m; split; intros H; try reflexivity; discriminate H. Qed.

Lemma patched_rowOk (st : Payment.State) (r : Backend.Transaction) :
  Inv.rowOk r -> Inv.rowOk (Spec.paidRow st r).
Proof.
  intros (Htot & _ & _). unfold Inv.rowOk. simpl.
  split; [exact Htot|]. split; [intros H; discriminate H|].
  intros _. split; [eauto|]. intros Hm.
  destruct (Payment.paymentMethod st); simpl; auto.
  exfalso. apply Hm. reflexivity.
Qed.

Lemma inserted_rowOk (p : Payment.Props) (g : Backend.Generated)
    (st : Payment.State) :
  Payment.validatePayment p st = None ->
  Inv.rowOk (Backend.new_row g (Payment.newTransaction p st)).
Proof.
  intros Hvalid. unfold Inv.rowOk, Payment.validatePayment in *. simpl.
  split; [reflexivity|].
  destruct (Payment.transactionType st); simpl.
  - split; [intros H; discriminate H|]. intros _. split; [eauto|].
    intros Hm. destruct (Payment.paymentMethod st); simpl; auto.
    exfalso. apply Hm. reflexivity.
  - split; [|intros H; discriminate H]. intros _.
    repeat split; try reflexivity.
    + destruct (Payment.paymentMethod st); reflexivity.
    + destruct (Payment.paymentMethod st); reflexivity.
    + exists (trim (Payment.customerName st)). split; [reflexivity|].
      destruct (trim (Payment.customerName st)); [discriminate|congruence].
Qed.

(** X4. Processing a payment keeps the table consistent: if every row is
    stored under its id, has subtotal equal to total, is an open bill only
    with a customer name and without method and cash amounts, and is paid
    only with one of the three methods and with cash amounts only for
    cash, then the same holds afterwards, whatever the form held. *)
Theorem processing_keeps_table_consistent (p : Payment.Props)
    (g : Backend.Generated) (st : Payment.State) (t : Backend.Table) :
  Inv.tableOk t ->
  Inv.tableOk (snd (Payment.handleProcessPayment p g st t)).
Proof.
  intros Ht. rewrite processed. pose proof (request_cases p st) as Hreq.
  destruct (Payment.request p st) as [e|i u|d]; simpl; [exact Ht|..].
  - destruct Hreq as (_ & _ & _ & ->).
    destruct (t !! i) as [r|] eqn:Er; simpl; [|exact Ht].
    intros j r' Hj. destruct (decide (i = j)) as [<-|Hne].
    + rewrite lookup_insert_eq in Hj. injection Hj as <-.
      destruct (Ht i r Er) as [Hid Hok].
      split; [exact Hid|now apply patched_rowOk].
    + rewrite lookup_insert_ne in Hj by exact Hne. now apply Ht.
  - destruct Hreq as (Hvalid & _ & ->).
    destruct (t !! Backend.gen_id g) eqn:Eg; simpl; [exact Ht|].
    intros j r' Hj. destruct (decide (Backend.gen_id g = j)) as [<-|Hne].
    + rewrite lookup_insert_eq in Hj. injection Hj as <-.
      split; [reflexivity|now apply inserted_rowOk].
    + rewrite lookup_insert_ne in Hj by exact Hne. now apply Ht.
Qed.

Lemma examples_table_ok : Inv.tableOk Examples.table.
Proof.
  intros i r Hr. unfold Examples.table in Hr.
  apply lookup_singleton_Some in Hr as [<- <-].
  split; [reflexivity|]. unfold Inv.rowOk. simpl.
  split; [reflexivity|]. split.
  - intros _. repeat split. exists (lit "Budi"). split; [reflexivity|discriminate].
  - intros H. discriminate H.
Qed.

Lemma processing_keeps_table_consistent_witness :
  Inv.tableOk Examples.table
  /\ Inv.tableOk
       (snd (Payment.handleProcessPayment Examples.openBillProps
               Examples.generated Examples.cashTyped Examples.table)).
Proof.
  split; [exact examples_table_ok|].
  exact (processing_keeps_table_consistent Examples.openBillProps
           Examples.generated Examples.cashTyped Examples.table
           examples_table_ok).
Defined.

(** ** Home and Payment: totals are sums of items *)

(** An item of a transaction survives the way through the cart of the
    payment screen. *)
Lemma itemOf_cartItemOf (its : list Backend.Item) :
  map Payment.itemOf (map Home.cartItemOf its) = its.
Proof.
  induction its as [|[] r IH]; simpl; [reflexivity|].
  now rewrite IH.
Qed.

Lemma cartItemOf_totalPrice (its : list Backend.Item) :
  map Cashier.totalPrice (map Home.cartItemOf its) = map Backend.totalPrice its.
Proof. rewrite map_map. reflexivity. Qed.





(** ** Home and Payment: paying an open bill *)

(** X6. An open bill opened from the list is paid on its own row: with a
    valid form for a direct payment, the payment screen [Home] opens on
    row [r] shows the items and the total of [r], and processing the
    payment asks the database to update the row with the id of [r]. When
    the database performs the update, [r] is replaced by the same row
    marked ['paid'] with the selected method; items, total and customer
    stay. Paid in cash, the row records what the form holds, an amount that
    is not finite arriving as [null]; entered with amounts below [2^53]
    against a total that is not negative, it records an amount received
    that is at least the total and the difference as change. Paid by QRIS
    or debit it records no cash amounts. The receipt shows the stored
    row. *)
Theorem open_bill_paid_on_its_row (u : App.User) (g : Backend.Generated)
    (events : list Payment.Event) (t : Backend.Table) (i : jsstring)
    (r : Backend.Transaction) :
  let p := Home.paymentProps u (Home.handlePayOpenBill r) in
  let st := Payment.filled p events in
  t !! i = Some r ->
  Backend.id r = i ->
  truthy i = true ->
  Payment.transactionType st = Payment.bayar_langsung ->
  Payment.validatePayment p st = None ->
  Payment.request p st = Payment.Update i (Payment.updateData st)
  /\ map Payment.itemOf (Payment.cart p) = Backend.items r
  /\ Payment.grandTotal p = Backend.total r
  /\ forall r' t',
       Backend.update (Payment.updateData st) i t = Some (r', t') ->
       Payment.handleProcessPayment p g st t = (Payment.finished (Some r') st, t')
       /\ t' = <[i := r']> t
       /\ Backend.items r' = Backend.items r
       /\ Backend.total r' = Backend.total r
       /\ Backend.customer_name r' = Backend.customer_name r
       /\ Backend.payment_status r' = lit "paid"
       /\ Backend.payment_method r'
          = Some (Payment.method_string (Payment.paymentMethod st))
       /\ match Payment.paymentMethod st with
          | Payment.cash =>
              Backend.cash_received r'
              = Backend.json_number (Some (parseFloat (Payment.cashReceived st)))
              /\ Backend.cash_change r'
                 = Backend.json_number (Some (Payment.cashChange st))
              /\ (Forall Spec.safeEvent events -> 0 <= Backend.total r ->
                  exists z, Backend.total r <= z
                            /\ Backend.cash_received r' = Some z
                            /\ Backend.cash_change r' = Some (z - Backend.total r))
          | _ => Backend.cash_received r' = None /\ Backend.cash_change r' = None
          end
       /\ Payment.showReceipt (Payment.finished (Some r') st) = true
       /\ Payment.transactionData (Payment.finished (Some r') st) = Some r'.
Proof.
  intros p st Hr Hid Htruthy Htype Hvalid.
  assert (Hreq : Payment.request p st = Payment.Update i (Payment.updateData st)).
  { unfold Payment.request. rewrite Hvalid. subst p. simpl.
    now rewrite Hid, Htruthy. }
  split; [exact Hreq|]. split; [apply itemOf_cartItemOf|].
  split; [reflexivity|].
  intros r' t' Hupdate. rewrite update_paid, Hr in Hupdate.
  injection Hupdate as <- <-.
  split.
  { rewrite processed, Hreq, Hr. reflexivity. }
  repeat (split; [reflexivity|]). split; [|split; reflexivity].
  unfold Spec.paidRow.
  destruct (Payment.paymentMethod st) eqn:Hm;
    cbn [Backend.cash_received Backend.cash_change]; auto.
  split; [reflexivity|]. split; [reflexivity|].
  intros Hsafe Hg.
  pose proof (filled_cashConsistent p events Hg Hsafe) as Hcons. fold st in Hcons.
  unfold Payment.validatePayment in Hvalid. rewrite Htype, Hm in Hvalid.
  destruct Hcons as [[Hempty _]|(z & Hne & Hparse & Hchange)].
  - rewrite Hempty in Hvalid. discriminate Hvalid.
  - destruct (Payment.cashReceived st) as [|c0 r0] eqn:Er; [congruence|].
    simpl in Hvalid. rewrite Hparse in Hvalid. simpl in Hvalid.
    change (Payment.grandTotal p) with (Backend.total r) in *.
    destruct (z <? Backend.total r) eqn:El; [discriminate|].
    apply Z.ltb_ge in El. exists z. split; [exact El|].
    rewrite Hparse, Hchange. simpl. split; [reflexivity|]. f_equal. lia.
Qed.

Lemma open_bill_paid_on_its_row_witness :
  Examples.table !! lit "t-1" = Some Examples.openBill
  /\ Payment.validatePayment Examples.openBillProps
       (Payment.filled Examples.openBillProps [Payment.CashTyped (lit "Rp 50.000")])
     = None
  /\ exists r' t',
       Backend.update
         (Payment.updateData
            (Payment.filled Examples.openBillProps
               [Payment.CashTyped (lit "Rp 50.000")]))
         (lit "t-1") Examples.table
       = Some (r', t')
       /\ t' = <[lit "t-1" := r']> Examples.table
       /\ Backend.payment_status r' = lit "paid"
       /\ Backend.total r' = Backend.total Examples.openBill.
Proof.
  assert (H1 : Examples.table !! lit "t-1" = Some Examples.openBill)
    by reflexivity.
  assert (H2 : Payment.validatePayment Examples.openBillProps
                 (Payment.filled Examples.openBillProps
                    [Payment.CashTyped (lit "Rp 50.000")])
               = None) by reflexivity.
  split; [exact H1|]. split; [exact H2|].
  destruct (open_bill_paid_on_its_row Examples.kasir Examples.generated
              [Payment.CashTyped (lit "Rp 50.000")] Examples.table (lit "t-1")
              Examples.openBill H1 eq_refl eq_refl eq_refl H2)
    as (_ & _ & _ & Hdone).
  cbv zeta in Hdone.
  destruct (Backend.update
              (Payment.updateData
                 (Payment.filled Examples.openBillProps
                    [Payment.CashTyped (lit "Rp 50.000")]))
              (lit "t-1") Examples.table) as [[r' t']|] eqn:E;
    [|vm_compute in E; discriminate E].
  exists r', t'. split; [reflexivity|].
  destruct (Hdone r' t' E) as (_ & Ht' & _ & Htotal & _ & Hstatus & _).
  split; [exact Ht'|]. split; [exact Hstatus|exact Htotal].
Defined.

(** ** Home: the count of open bills *)

Lemma openBills_lookup (t : Backend.Table) (i : jsstring) (r : Backend.Transaction) :
  HomeFlow.openBills t !! i = Some r
  <-> t !! i = Some r /\ Backend.payment_status r = lit "open_bill".
Proof. unfold HomeFlow.openBills. now rewrite map_lookup_filter_Some. Qed.

Lemma openBills_insert (t : Backend.Table) (i : jsstring) (r : Backend.Transaction) :
  size (HomeFlow.openBills (<[i := r]> t))
  = ((if decide (Backend.payment_status r = lit "open_bill") then 1 else 0)
     + size (HomeFlow.openBills (delete i t)))%nat.
Proof.
  unfold HomeFlow.openBills. rewrite map_filter_insert. simpl.
  destruct (decide (Backend.payment_status r = lit "open_bill")) as [Hs|Hs].
  - rewrite map_filter_delete, <- insert_delete_eq.
    rewrite map_size_insert_None by apply lookup_delete_eq. reflexivity.
  - reflexivity.
Qed.

Lemma openBills_delete (t : Backend.Table) (i : jsstring) :
  (size (HomeFlow.openBills (delete i t))
   + match t !! i with
     | Some r => if decide (Backend.payment_status r = lit "open_bill") then 1 else 0
     | None => 0
     end = size (HomeFlow.openBills t))%nat.
Proof.
  unfold HomeFlow.openBills. rewrite map_filter_delete, map_size_delete.
  destruct (t !! i) as [r|] eqn:Er.
  - destruct (decide (Backend.payment_status r = lit "open_bill")) as [Hs|Hs].
    + assert (Hin : filter (fun kr => Backend.payment_status (snd kr) = lit "open_bill")
                      t !! i = Some r)
        by (apply map_lookup_filter_Some; auto).
      rewrite Hin. simpl.
      assert (size (filter (fun kr : jsstring * Backend.Transaction =>
                              Backend.payment_status (snd kr) = lit "open_bill") t)
              <> 0%nat)
        by (apply map_size_ne_0_lookup; eauto).
      lia.
    + assert (Hout : filter (fun kr => Backend.payment_status (snd kr) = lit "open_bill")
                       t !! i = None).
      { apply map_lookup_filter_None. right. intros x Hx. simpl. congruence. }
      rewrite Hout. simpl. lia.
  - assert (Hout : filter (fun kr => Backend.payment_status (snd kr) = lit "open_bill")
                     t !! i = None)
      by (apply map_lookup_filter_None; auto).
    rewrite Hout. simpl. lia.
Qed.

(** X7. The count of open bills that [Home] fetches follows the payments:
    a new open bill raises it by one and a new direct payment leaves it;
    paying an existing transaction lowers it by one when that was an open
    bill and leaves it otherwise; a form that is not valid, or an error of
    the database, leaves it. *)
Theorem open_bills_count_follows (p : Payment.Props) (g : Backend.Generated)
    (st : Payment.State) (t : Backend.Table) (home : HomeFlow.State) :
  let t' := snd (Payment.handleProcessPayment p g st t) in
  let count x := HomeFlow.openBillsCount (HomeFlow.fetchOpenBillsCount x home) in
  (Payment.validatePayment p st <> None -> count t' = count t)
  /\ (Payment.validatePayment p st = None ->
      truthy_opt (Payment.existingTransactionId p) = false ->
      count t'
      = match t !! Backend.gen_id g, Payment.transactionType st with
        | None, Payment.open_bill => count t + 1
        | _, _ => count t
        end)
  /\ (forall i,
      Payment.validatePayment p st = None ->
      Payment.existingTransactionId p = Some i -> truthy i = true ->
      count t
      = match t !! i with
        | Some r =>
            if decide (Backend.payment_status r = lit "open_bill")
            then count t' + 1 else count t'
        | None => count t'
        end).
Proof.
  intros t' count. subst t' count. simpl. rewrite processed.
  pose proof (request_cases p st) as Hreq. split; [|split].
  - intros Hinvalid.
    destruct (Payment.request p st) as [e|i u|d]; [reflexivity|..];
      destruct Hreq as [Hv _]; congruence.
  - intros Hvalid Hnew.
    destruct (Payment.request p st) as [e|i u|d].
    + congruence.
    + destruct Hreq as (_ & Hid & Htr & _). rewrite Hid in Hnew. simpl in Hnew.
      congruence.
    + destruct Hreq as (_ & _ & ->).
      destruct (t !! Backend.gen_id g) eqn:Eg; simpl; [reflexivity|].
      rewrite openBills_insert, delete_id by exact Eg. simpl.
      destruct (Payment.transactionType st); simpl.
      * destruct (decide (lit "paid" = lit "open_bill")) as [H|_];
          [discriminate H|]. reflexivity.
      * destruct (decide (lit "open_bill" = lit "open_bill")) as [_|H];
          [lia|congruence].
  - intros i Hvalid Hid Htruthy.
    destruct (Payment.request p st) as [e|j u|d].
    + congruence.
    + destruct Hreq as (_ & Hid' & _ & ->). rewrite Hid in Hid'.
      injection Hid' as <-.
      destruct (t !! i) as [r|] eqn:Er; simpl; [|reflexivity].
      rewrite openBills_insert. simpl.
      destruct (decide (lit "paid" = lit "open_bill")) as [H|_];
        [discriminate H|].
      pose proof (openBills_delete t i) as Hdel. rewrite Er in Hdel.
      destruct (decide (Backend.payment_status r = lit "open_bill")); lia.
    + destruct Hreq as (_ & Hnew & _). rewrite Hid in Hnew. simpl in Hnew.
      congruence.
Qed.

(** ** From the receipt back to the cashier screen *)

Lemma handle_keeps_receipt (p : Payment.Props) (st : Payment.State)
    (e : Payment.Event) :
  Payment.showReceipt (Payment.handle p st e) = Payment.showReceipt st
  /\ Payment.transactionData (Payment.handle p st e) = Payment.transactionData st.
Proof.
  destruct e; simpl; auto.
  unfold Payment.handleCashReceivedChange.
  destruct (truthy (replace_non_digits value)); auto.
Qed.

Lemma filled_no_receipt (p : Payment.Props) (events : list Payment.Event) :
  Payment.showReceipt (Payment.filled p events) = false
  /\ Payment.transactionData (Payment.filled p events) = None.
Proof.
  unfold Payment.filled.
  assert (H : forall st,
    Payment.showReceipt (fold_left (Payment.handle p) events st)
    = Payment.showReceipt st
    /\ Payment.transactionData (fold_left (Payment.handle p) events st)
       = Payment.transactionData st).
  { induction events as [|e r IH]; intros st; simpl; [auto|].
    destruct (IH (Payment.handle p st e)) as [H1 H2].
    destruct (handle_keeps_receipt p st e) as [H3 H4]. split; congruence. }
  apply H.
Qed.

(** X8. [onPaymentSuccess] is called exactly when the payment was stored.
    For a form filled on a fresh payment screen: if the write succeeded,
    the receipt is shown with a row of the table, closing it reports that
    row's number and method to [Home], which leaves the payment screen,
    fetches the count of open bills again and removes the saved cart, so
    that the cashier screen then starts from an empty cart. If the form
    was rejected or the database failed, the table is as before, no receipt
    is shown and closing reports nothing. *)
Theorem receipt_closes_the_sale
    (parse : jsstring -> option (list Cashier.CartItem))
    (u : App.User) (p : Payment.Props) (g : Backend.Generated)
    (events : list Payment.Event) (home : HomeFlow.State) (w : Browser.World) :
  let result :=
    Payment.handleProcessPayment p g (Payment.filled p events) (Browser.database w) in
  let st1 := fst result in
  let t1 := snd result in
  match snd (PaymentReceipt.handleReceiptClose st1) with
  | Some (number, method) =>
      Payment.showReceipt st1 = true
      /\ (exists k row,
            t1 !! k = Some row
            /\ Payment.transactionData st1 = Some row
            /\ number = Backend.transaction_number row
            /\ method = Backend.payment_method row)
      /\ let after :=
           HomeFlow.handlePaymentSuccess home (Browser.withDatabase t1 w) in
         CartStorage.loadCart parse (snd after) = Some []
         /\ HomeFlow.payment u (fst after) = None
         /\ HomeFlow.openBillsCount (fst after)
            = Z.of_nat (size (HomeFlow.openBills t1))
         /\ Browser.database (snd after) = t1
         /\ Browser.sessionStorage (snd after) = Browser.sessionStorage w
  | None =>
      t1 = Browser.database w
      /\ Payment.showReceipt st1 = false
      /\ Payment.transactionData st1 = None
  end.
Proof.
  intros result st1 t1. subst st1 t1 result. rewrite processed.
  destruct (filled_no_receipt p events) as [Hshow Hdata].
  set (st := Payment.filled p events) in *.
  assert (Hafter : forall t1,
    let after := HomeFlow.handlePaymentSuccess home (Browser.withDatabase t1 w) in
    CartStorage.loadCart parse (snd after) = Some []
    /\ HomeFlow.payment u (fst after) = None
    /\ HomeFlow.openBillsCount (fst after) = Z.of_nat (size (HomeFlow.openBills t1))
    /\ Browser.database (snd after) = t1
    /\ Browser.sessionStorage (snd after) = Browser.sessionStorage w).
  { intros t1. split; [|repeat split].
    unfold HomeFlow.handlePaymentSuccess, Home.handlePaymentSuccess,
      CartStorage.loadCart, Browser.getItem, Browser.removeItem.
    cbn [snd Browser.localStorage Browser.withLocal Browser.withDatabase].
    now rewrite lookup_delete_eq. }
  destruct (Payment.request p st) as [e|i upd|d]; simpl.
  - rewrite Hdata. auto.
  - destruct (Browser.database w !! i) as [r|] eqn:Er; simpl.
    + split; [reflexivity|]. split; [|apply Hafter].
      exists i, (Spec.paidRow st r). rewrite lookup_insert_eq. auto.
    + rewrite Hdata, Hshow. auto.
  - destruct (Browser.database w !! Backend.gen_id g) eqn:Eg; simpl.
    + rewrite Hdata, Hshow. auto.
    + split; [reflexivity|]. split; [|apply Hafter].
      exists (Backend.gen_id g), (Backend.new_row g d).
      rewrite lookup_insert_eq. auto.
Qed.

(** ** Login: the PIN *)

Lemma lastOf_cell (value : jsstring) :
  Login.onlyDigits value = true -> Inv.cellOk (Login.lastOf value).
Proof.
  unfold Login.onlyDigits, Login.lastOf, Inv.cellOk.
  induction value as [|c r IH] using rev_ind; intros H; [left; reflexivity|].
  right. exists c. rewrite forallb_app in H.
  apply andb_prop in H as [_ Hc]. simpl in Hc. rewrite andb_true_r in Hc.
  split; [|exact Hc].
  rewrite length_app. simpl.
  replace (length r + 1 - 1)%nat with (length r) by lia.
  now rewrite drop_app_length.
Qed.

Lemma handlePinChange_keeps (index : nat) (value : jsstring) (st st' : Login.State) :
  (index < 6)%nat -> Inv.pinOk st ->
  Login.handlePinChange index value st = Some st' -> Inv.pinOk st'.
Proof.
  intros Hi [Hlen Hcells]. unfold Login.handlePinChange, Login.array_set.
  destruct (Login.onlyDigits value) eqn:Hd; simpl;
    [|intros [= <-]; split; assumption].
  rewrite Hlen. apply Nat.ltb_lt in Hi. rewrite Hi. intros [= <-].
  unfold Inv.pinOk. simpl. rewrite length_insert. split; [exact Hlen|].
  apply Forall_insert; [exact Hcells|now apply lastOf_cell].
Qed.

Lemma handlePinChange_defined (index : nat) (value : jsstring) (st : Login.State) :
  (index < 6)%nat -> Inv.pinOk st ->
  is_Some (Login.handlePinChange index value st).
Proof.
  intros Hi [Hlen _]. unfold Login.handlePinChange, Login.array_set.
  destruct (Login.onlyDigits value); simpl; [|eauto].
  rewrite Hlen. apply Nat.ltb_lt in Hi. rewrite Hi. eauto.
Qed.

Lemma cells_length (cells : list jsstring) :
  Forall Inv.cellOk cells ->
  (length (concat cells) <= length cells)%nat
  /\ (length (concat cells) = length cells -> Forall (fun c => c <> []) cells)
  /\ forallb isDigit (concat cells) = true.
Proof.
  induction 1 as [|c r Hc Hr IH]; simpl; [auto|].
  destruct IH as (Hle & Hfull & Hdig).
  destruct Hc as [->|(d & -> & Hd)]; simpl.
  - split; [lia|]. split; [intros; lia|exact Hdig].
  - split; [lia|]. split.
    + intros Heq. constructor; [discriminate|]. apply Hfull. lia.
    + now rewrite Hd.
Qed.

(** Typing within the six cells is defined and keeps the cells. *)
Lemma pin_cells_typed (keys : list (nat * jsstring)) :
  Forall (fun k => (fst k < 6)%nat) keys ->
  exists st,
    Login.typeAll Login.initial keys = Some st
    /\ length (Login.pin st) = 6%nat
    /\ Forall Inv.cellOk (Login.pin st)
    /\ (length (Login.pinString st) = 6%nat ->
        Forall (fun c => c <> []) (Login.pin st)).
Proof.
  intros Hkeys.
  assert (H : forall st0, Inv.pinOk st0 ->
    exists st, Login.typeAll st0 keys = Some st /\ Inv.pinOk st).
  { induction Hkeys as [|[i v] r Hi Hr IH]; intros st0 Hst0; simpl; [eauto|].
    destruct (handlePinChange_defined i v st0 Hi Hst0) as [st1 Hst1].
    rewrite Hst1. apply IH. eapply handlePinChange_keeps; eauto. }
  destruct (H Login.initial) as (st & Hrun & Hlen & Hcells).
  { split; [reflexivity|]. repeat constructor; left; reflexivity. }
  exists st. split; [exact Hrun|]. split; [exact Hlen|].
  split; [exact Hcells|].
  destruct (cells_length _ Hcells) as (_ & Hfull & _).
  unfold Login.pinString. rewrite Hlen in *. auto.
Qed.

(** X9. Typing into the six cells of the PIN, whatever is typed or pasted,
    never fails and leaves six cells, each empty or holding one digit; the
    PIN put together from them consists of digits only, and it has six
    characters only when no cell is empty. *)
Theorem pin_cells_hold_digits (keys : list (nat * jsstring)) :
  Forall (fun k => (fst k < 6)%nat) keys ->
  exists st,
    Login.typeAll Login.initial keys = Some st
    /\ length (Login.pin st) = 6%nat
    /\ Forall Inv.cellOk (Login.pin st)
    /\ forallb isDigit (Login.pinString st) = true
    /\ (length (Login.pinString st) <= 6)%nat
    /\ (length (Login.pinString st) = 6%nat ->
        Forall (fun c => c <> []) (Login.pin st)).
Proof.
  intros Hkeys.
  destruct (pin_cells_typed keys Hkeys) as (st & Hrun & Hlen & Hcells & _).
  exists st. split; [exact Hrun|]. split; [exact Hlen|].
  split; [exact Hcells|].
  destruct (cells_length _ Hcells) as (Hle & Hfull & Hdig).
  unfold Login.pinString. rewrite Hlen in *. auto.
Qed.

Lemma pin_cells_hold_digits_witness :
  Forall (fun k => (fst k < 6)%nat) Scenario.keys
  /\ exists st,
       Login.typeAll Login.initial Scenario.keys = Some st
       /\ forallb isDigit (Login.pinString st) = true.
Proof.
  assert (H : Forall (fun k => (fst k < 6)%nat) Scenario.keys)
    by (repeat constructor; simpl; lia).
  split; [exact H|].
  destruct (pin_cells_hold_digits Scenario.keys H) as (st & Hrun & _ & _ & Hd & _).
  exists st. auto.
Defined.

(** X10. Submitting a PIN typed into the cells: with a cell still empty
    the handler returns before it sends a query ([Refused]), whatever the
    table of users holds; the PIN is kept and completing it is asked for,
    and nobody is logged in. With six digits it sends one query, for the
    rows with that PIN, and shows itself loading. [onLogin] is called only
    when exactly one user has the PIN, and then with the id, name and role
    of that user; with no user, or more than one, the cells are emptied,
    the PIN is reported wrong and nobody is logged in. *)
Theorem submit_logs_in_the_owner_of_the_pin (users : list Users.Row)
    (keys : list (nat * jsstring)) (st : Login.State) :
  Forall (fun k => (fst k < 6)%nat) keys ->
  Login.typeAll Login.initial keys = Some st ->
  let after := fst (Login.submit users st) in
  match Login.handleSubmit st with
  | Login.Refused refused =>
      length (Login.pinString st) <> 6%nat
      /\ (forall users', Login.submit users' st = (refused, None))
      /\ Login.pin refused = Login.pin st
      /\ Login.error refused = lit "Masukkan 6 digit PIN"
  | Login.Query s waiting =>
      s = Login.pinString st
      /\ length s = 6%nat
      /\ Forall (fun c => exists d, c = [d] /\ isDigit d = true) (Login.pin st)
      /\ Login.isLoading waiting = true
      /\ Login.submit users st = Login.answered (Login.single users s) waiting
      /\ match snd (Login.submit users st) with
         | Some u =>
             (exists row,
                List.filter (fun r => bool_decide (Users.pin r = s)) users = [row]
                /\ Users.pin row = s
                /\ u = {| App.id := Users.id row;
                          App.username := Users.username row;
                          App.role := Users.role row |})
             /\ Login.success after = true
             /\ Login.error after = []
             /\ Login.isLoading after = false
         | None =>
             (forall row,
                List.filter (fun r => bool_decide (Users.pin r = s)) users <> [row])
             /\ Login.pin after = Login.pin Login.initial
             /\ Login.error after = lit "PIN salah"
             /\ Login.isLoading after = false
         end
  end.
Proof.
  intros Hkeys Hrun after. subst after.
  destruct (pin_cells_typed keys Hkeys) as (st' & Hrun' & Hlen & Hcells & Hfull).
  rewrite Hrun in Hrun'. injection Hrun' as <-.
  unfold Login.submit, Login.handleSubmit.
  destruct (length (Login.pinString st) =? 6)%nat eqn:E; cbn [negb].
  - apply Nat.eqb_eq in E.
    split; [reflexivity|]. split; [exact E|]. split.
    { pose proof (Hfull E) as Hne.
      apply Forall_forall. intros c Hc.
      rewrite Forall_forall in Hcells, Hne.
      destruct (Hcells c Hc) as [->|H]; [|exact H].
      now destruct (Hne [] Hc). }
    split; [reflexivity|]. split; [reflexivity|].
    unfold Login.single, Login.answered.
    destruct (List.filter (fun r => bool_decide (Users.pin r = Login.pinString st))
                          users) as [|row [|row' rest]] eqn:Ef; simpl.
    + repeat split; auto; intros row H; discriminate H.
    + split; [|auto]. exists row. split; [reflexivity|]. split; [|reflexivity].
      assert (Hin : In row (List.filter
                (fun r => bool_decide (Users.pin r = Login.pinString st)) users))
        by (rewrite Ef; now left).
      apply filter_In in Hin as [_ Hp]. now apply bool_decide_eq_true in Hp.
    + repeat split; auto; intros row0 H; discriminate H.
  - apply Nat.eqb_neq in E. repeat split; auto.
Qed.

Lemma submit_logs_in_the_owner_of_the_pin_witness :
  Forall (fun k => (fst k < 6)%nat) Scenario.keys
  /\ Login.typeAll Login.initial Scenario.keys = Some Scenario.typed
  /\ exists waiting,
       Login.handleSubmit Scenario.typed = Login.Query (lit "123456") waiting
       /\ Login.submit Scenario.users Scenario.typed
          = Login.answered (Login.single Scenario.users (lit "123456")) waiting.
Proof.
  assert (H1 : Forall (fun k => (fst k < 6)%nat) Scenario.keys)
    by (repeat constructor; simpl; lia).
  assert (H2 : Login.typeAll Login.initial Scenario.keys = Some Scenario.typed)
    by reflexivity.
  split; [exact H1|]. split; [exact H2|].
  pose proof (submit_logs_in_the_owner_of_the_pin Scenario.users Scenario.keys
                Scenario.typed H1 H2) as H.
  cbv zeta in H.
  destruct (Login.handleSubmit Scenario.typed) as [refused|s waiting] eqn:E.
  - exfalso. destruct H as (Hlen & _). apply Hlen. reflexivity.
  - destruct H as (Hs & _ & _ & _ & Hsubmit & _).
    exists waiting. rewrite Hs in *. split; [reflexivity|exact Hsubmit].
Defined.

Example sari_logs_in :
  snd (Login.submit Scenario.users Scenario.typed) = Some Examples.kasir.
Proof. reflexivity. Qed.

(** ** App: the session across a reload *)

(** X11. The session survives a reload and ends at logout: when the saved
    text of a user is not empty and parses back to that user, mounting the
    application after [handleLogin] restores the user and leaves the
    storages alone; after [handleLogout] nothing is saved and mounting
    restores nobody. A saved text that does not parse is removed by the
    mount, which restores nobody. *)
Theorem session_survives_reload (stringify : App.User -> jsstring)
    (parse : jsstring -> option App.User) (u : App.User)
    (st fresh : App.State) (w : Browser.World) :
  truthy (stringify u) = true ->
  parse (stringify u) = Some u ->
  let logged := App.handleLogin stringify u st w in
  let out := App.handleLogout (fst logged) (snd logged) in
  App.user (fst logged) = Some u
  /\ App.mount parse fresh (snd logged)
     = ({| App.user := Some u; App.isLoading := false |}, snd logged)
  /\ App.user (fst out) = None
  /\ Browser.sessionStorage (snd out) !! lit "goodways_user" = None
  /\ App.mount parse fresh (snd out)
     = ({| App.user := App.user fresh; App.isLoading := false |}, snd out)
  /\ (forall saved,
      Browser.sessionStorage w !! lit "goodways_user" = Some saved ->
      truthy saved = true -> parse saved = None ->
      App.user (fst (App.mount parse fresh w)) = App.user fresh
      /\ Browser.sessionStorage (snd (App.mount parse fresh w))
         !! lit "goodways_user" = None
      /\ App.mount parse fresh (snd (App.mount parse fresh w))
         = ({| App.user := App.user fresh; App.isLoading := false |},
            snd (App.mount parse fresh w))).
Proof.
  intros Htruthy Hparse logged out. subst logged out.
  split; [reflexivity|]. split.
  { unfold App.mount, App.handleLogin, Browser.getItem, Browser.setItem. simpl.
    now rewrite lookup_insert_eq, Htruthy, Hparse. }
  split; [reflexivity|]. split.
  { simpl. unfold Browser.removeItem. apply lookup_delete_eq. }
  split.
  { unfold App.mount, App.handleLogout, Browser.getItem, Browser.removeItem.
    simpl. now rewrite lookup_delete_eq. }
  intros saved Hsaved Hts Hnone.
  assert (Hm : App.mount parse fresh w
    = ({| App.user := App.user fresh; App.isLoading := false |},
       Browser.withSession
         (Browser.removeItem (lit "goodways_user") (Browser.sessionStorage w)) w)).
  { unfold App.mount, Browser.getItem. now rewrite Hsaved, Hts, Hnone. }
  rewrite Hm. simpl. split; [reflexivity|]. split.
  { unfold Browser.removeItem. apply lookup_delete_eq. }
  unfold App.mount, Browser.getItem, Browser.removeItem. simpl.
  now rewrite lookup_delete_eq.
Qed.

Lemma session_survives_reload_witness :
  truthy (Examples.stringifyUser Examples.kasir) = true
  /\ Scenario.parseKasir (Examples.stringifyUser Examples.kasir) = Some Examples.kasir
  /\ App.user
       (fst (App.mount Scenario.parseKasir Scenario.loading
               (snd (App.handleLogin Examples.stringifyUser Examples.kasir
                       Examples.loggedOut Examples.emptyWorld))))
     = Some Examples.kasir.
Proof.
  assert (H1 : truthy (Examples.stringifyUser Examples.kasir) = true)
    by reflexivity.
  assert (H2 : Scenario.parseKasir (Examples.stringifyUser Examples.kasir)
               = Some Examples.kasir) by reflexivity.
  split; [exact H1|]. split; [exact H2|].
  destruct (session_survives_reload Examples.stringifyUser Scenario.parseKasir
              Examples.kasir Examples.loggedOut Scenario.loading
              Examples.emptyWorld H1 H2) as (_ & Hmount & _).
  cbv zeta in Hmount. rewrite Hmount. reflexivity.
Defined.

(** ** Reports: best sellers against the sales *)









(** ** Reports: bounds on the overview *)

Lemma sumZ_nonneg (l : list Z) : Forall (fun z => 0 <= z) l -> 0 <= Spec.sumZ l.
Proof. induction 1; simpl; lia. Qed.




(** ** Reports: the filters of the list *)

Lemma filter_sublist {A} (q : A -> bool) (l : list A) :
  List.filter q l `sublist_of` l.
Proof.
  induction l as [|x r IH]; simpl; [constructor|].
  destruct (q x); [now constructor|now apply sublist_cons].
Qed.

(** X14. The filtered list of the reports is the loaded list with rows
    left out, in the same order. Without a search, the rows listed under
    the status ['paid'] are as many as the card of total transactions
    shows, and those under ['open_bill'] as many as the card of open
    bills. Among consistent rows, an open bill never appears once a
    payment method is selected. With an empty search and both filters on
    ['all'] the whole list is shown. *)
Theorem report_filters (toLowerCase : jsstring -> jsstring)
    (today : Z) (timeOf : jsstring -> number)
    (data : list Backend.Transaction) (query status method : jsstring) :
  let shown := ReportsFilter.filterTransactions toLowerCase data query status method in
  let stats := Reports.calculateStats today timeOf data in
  shown `sublist_of` data
  /\ Z.of_nat (length (ReportsFilter.filterTransactions toLowerCase data []
                         (lit "paid") (lit "all")))
     = Reports.totalTransactions stats
  /\ Z.of_nat (length (ReportsFilter.filterTransactions toLowerCase data []
                         (lit "open_bill") (lit "all")))
     = Reports.openBills stats
  /\ (method <> lit "all" ->
      (forall t, t ∈ data -> Inv.rowOk t) ->
      forall t, t ∈ shown -> Backend.payment_status t <> lit "open_bill")
  /\ ReportsFilter.filterTransactions toLowerCase data [] (lit "all") (lit "all")
     = data.
Proof.
  intros shown stats. split; [|split; [|split; [|split]]].
  - subst shown. unfold ReportsFilter.filterTransactions.
    repeat match goal with
           | |- context [if ?b then _ else _] => destruct b
           end;
      repeat (etransitivity; [apply filter_sublist|]); reflexivity.
  - reflexivity.
  - reflexivity.
  - intros Hmethod Hok t Ht Hstatus. subst shown.
    unfold ReportsFilter.filterTransactions in Ht.
    rewrite bool_decide_eq_true_2 in Ht by exact Hmethod.
    apply list_elem_of_In, filter_In in Ht as [Ht Hm].
    apply bool_decide_eq_true in Hm.
    assert (Hin : t ∈ data).
    { apply list_elem_of_In.
      repeat match type of Ht with
             | context [if ?b then _ else _] => destruct b
             end;
        repeat (apply filter_In in Ht as [Ht _]); exact Ht. }
    destruct (Hok t Hin) as (_ & Hopen & _).
    destruct (Hopen Hstatus) as (Hnone & _). congruence.
  - reflexivity.
Qed.

(** ** platformDetect *)

(** X15. [detectWebBluetoothSupport] reports support exactly when
    ['bluetooth' in navigator] holds and the device is not taken for an
    iPhone or iPad; it always decides on a platform (never ['unknown']) and
    always gives a message; an iPad that presents itself as a Mac with a
    touch screen is refused even when the browser offers Bluetooth. *)
Theorem bluetooth_support (toLowerCase : jsstring -> jsstring) (nav : Navigator.t) :
  let info := PlatformDetect.detectWebBluetoothSupport toLowerCase nav in
  (PlatformDetect.isSupported info = true <->
   Navigator.inBluetooth nav = true
   /\ PlatformDetect.platform info <> PlatformDetect.ios)
  /\ PlatformDetect.platform info <> PlatformDetect.unknown
  /\ PlatformDetect.message info <> []
  /\ PlatformDetect.browser info <> []
  /\ (toLowerCase (Navigator.platform nav) = lit "macintel" ->
      1 < Navigator.maxTouchPoints nav ->
      PlatformDetect.isSupported info = false
      /\ PlatformDetect.platform info = PlatformDetect.ios).
Proof.
  intros info. subst info. unfold PlatformDetect.detectWebBluetoothSupport.
  set (ua := toLowerCase (Navigator.userAgent nav)).
  destruct (Navigator.inBluetooth nav) eqn:Hbt.
  all: destruct (JSx.includes ua (lit "iphone")
                 || JSx.includes ua (lit "ipad") || JSx.includes ua (lit "ipod")
                 || bool_decide (toLowerCase (Navigator.platform nav) = lit "macintel")
                    && (1 <? Navigator.maxTouchPoints nav)) eqn:Hios.
  all: try destruct (JSx.includes ua (lit "android")) eqn:Handroid.
  all: cbn [PlatformDetect.isSupported PlatformDetect.platform
            PlatformDetect.message PlatformDetect.browser].
  all: repeat match goal with
              | |- context [if ?b then _ else _] => destruct b
              end.
  all: repeat match goal with |- _ /\ _ => split end.
  all: try (intros; discriminate).
  all: try (split; [intros H; discriminate H|intros [H1 H2]; congruence]).
  all: try (split; [intros _; split; [reflexivity|discriminate]|reflexivity]).
  all: try (intros Hmac Htouch; split; reflexivity).
  all: intros Hmac Htouch; exfalso;
    rewrite Hmac, bool_decide_eq_true_2 in Hios by reflexivity;
    apply Z.ltb_lt in Htouch; rewrite Htouch in Hios;
    rewrite !orb_true_r in Hios; discriminate Hios.
Qed.

(** ** PrinterService: connecting *)


(** ** PrinterService: the service over time *)

Lemma step_keeps_connected (toLowerCase : jsstring -> jsstring)
    (st : PrinterConnection.State) (op : PrinterConnection.Operation) :
  (PrinterConnection.isConnected st = true ->
   (exists d s, PrinterConnection.device st = Some d
                /\ PrinterConnection.gatt d = Some s)
   /\ exists c, PrinterConnection.characteristic st = Some c) ->
  let st' := PrinterConnection.step toLowerCase st op in
  PrinterConnection.isConnected st' = true ->
  (exists d s, PrinterConnection.device st' = Some d
               /\ PrinterConnection.gatt d = Some s)
  /\ exists c, PrinterConnection.characteristic st' = Some c.
Proof.
  intros Hst st'. subst st'. destruct op as [env| |now]; simpl.
  - unfold PrinterConnection.connect, PrinterConnection.connectCalls.
    destruct (PlatformDetect.isSupported _); simpl; [|discriminate].
    destruct (Navigator.bluetooth _); simpl; [|discriminate].
    destruct (PrinterConnection.requestDevice env) as [e|d]; simpl;
      [discriminate|].
    destruct (PrinterConnection.gatt d) as [[e|[e|[e|c]]]|] eqn:Hg; simpl;
      try discriminate.
    intros _. split; eauto.
  - unfold PrinterConnection.disconnect.
    destruct (PrinterConnection.device st) as [d|] eqn:Hd;
      [|rewrite <- Hd in Hst; exact Hst].
    destruct (PrinterConnection.gatt d) eqn:Hg; [discriminate|].
    rewrite <- Hd in Hst. exact Hst.
  - unfold PrinterConnection.testPrint.
    destruct (PrinterConnection.getConnectionStatus st); simpl; [|exact Hst].
    destruct (PrinterService.sendData _ _) as [e|c]; simpl; [exact Hst|].
    intros Hc. destruct (Hst Hc) as [Hdev _]. split; eauto.
Qed.

Lemma run_keeps_connected (toLowerCase : jsstring -> jsstring)
    (ops : list PrinterConnection.Operation) :
  let st := PrinterConnection.run toLowerCase ops in
  PrinterConnection.isConnected st = true ->
  (exists d s, PrinterConnection.device st = Some d
               /\ PrinterConnection.gatt d = Some s)
  /\ exists c, PrinterConnection.characteristic st = Some c.
Proof.
  unfold PrinterConnection.run.
  assert (H : forall st0,
    (PrinterConnection.isConnected st0 = true ->
     (exists d s, PrinterConnection.device st0 = Some d
                  /\ PrinterConnection.gatt d = Some s)
     /\ exists c, PrinterConnection.characteristic st0 = Some c) ->
    let st := fold_left (PrinterConnection.step toLowerCase) ops st0 in
    PrinterConnection.isConnected st = true ->
    (exists d s, PrinterConnection.device st = Some d
                 /\ PrinterConnection.gatt d = Some s)
    /\ exists c, PrinterConnection.characteristic st = Some c).
  { induction ops as [|op r IH]; intros st0 Hst0; simpl; [exact Hst0|].
    apply IH. exact (step_keeps_connected toLowerCase st0 op Hst0). }
  apply H. discriminate.
Qed.

(** X17. Whatever was done with the service before (connecting,
    disconnecting, printing test pages), its flag alone tells whether it is
    connected; [disconnect] leaves it not connected; [testPrint] on a
    service that is not connected throws and changes nothing, and on a
    connected one it throws nothing, stays connected and adds to the bytes
    written exactly the UTF-8 encoding of the test page. *)
Theorem service_over_time (toLowerCase : jsstring -> jsstring)
    (ops : list PrinterConnection.Operation) (now : jsstring) :
  let st := PrinterConnection.run toLowerCase ops in
  let printed := PrinterConnection.testPrint now st in
  PrinterConnection.getConnectionStatus st = PrinterConnection.isConnected st
  /\ PrinterConnection.getConnectionStatus (PrinterConnection.disconnect st) = false
  /\ match PrinterConnection.characteristic st, PrinterConnection.isConnected st with
     | Some c, true =>
         fst printed = None
         /\ PrinterConnection.getConnectionStatus (snd printed) = true
         /\ PrinterConnection.device (snd printed) = PrinterConnection.device st
         /\ exists c',
              PrinterConnection.characteristic (snd printed) = Some c'
              /\ concat (PrinterService.written c')
                 = concat (PrinterService.written c)
                   ++ PrinterService.encode (PrinterConnection.testPage now)
     | _, _ => printed = (Some (lit "Printer belum terhubung"), st)
     end.
Proof.
  intros st printed.
  pose proof (run_keeps_connected toLowerCase ops) as Hinv.
  cbv zeta in Hinv. fold st in Hinv.
  assert (Hstatus : PrinterConnection.getConnectionStatus st
                    = PrinterConnection.isConnected st).
  { unfold PrinterConnection.getConnectionStatus.
    destruct (PrinterConnection.isConnected st) eqn:Hc; [|reflexivity].
    destruct (Hinv eq_refl) as ((d & s & -> & _) & (c & ->)). reflexivity. }
  split; [exact Hstatus|]. split.
  { unfold PrinterConnection.disconnect.
    destruct (PrinterConnection.device st) as [d|] eqn:Hd;
      [destruct (PrinterConnection.gatt d) eqn:Hg; [reflexivity|]|];
      rewrite Hstatus;
      (destruct (PrinterConnection.isConnected st) eqn:Hc; [|reflexivity]);
      destruct (Hinv eq_refl) as ((d' & s & Hd' & Hg') & _); congruence. }
  subst printed. unfold PrinterConnection.testPrint. rewrite Hstatus.
  destruct (PrinterConnection.isConnected st) eqn:Hc; simpl.
  - destruct (Hinv eq_refl) as ((d & s & Hd & _) & (c & Hch)).
    rewrite Hch. simpl. split; [reflexivity|]. split.
    { unfold PrinterConnection.getConnectionStatus. simpl.
      rewrite ?Hc, ?Hd. reflexivity. }
    split; [reflexivity|]. eexists. split; [reflexivity|].
    destruct (sendFrom_chunks (PrinterService.encode (PrinterConnection.testPage now))
                (length (PrinterService.encode (PrinterConnection.testPage now)))
                0 c) as (chunks & Hlog & Hcat & _); [lia|].
    rewrite Hlog, concat_app, Hcat. reflexivity.
  - destruct (PrinterConnection.characteristic st); reflexivity.
Qed.

(** ** PrinterService: how many writes, and of which bytes *)

Lemma chunked_count {A} (n : nat) (chunks : list (list A)) :
  (0 < n)%nat -> Spec.chunked n chunks ->
  length chunks = ((length (concat chunks) + (n - 1)) / n)%nat.
Proof.
  intros Hn. induction chunks as [|ch rest IH]; intros [Hall Hlast]; simpl.
  - symmetry. apply Nat.div_small. lia.
  - inversion Hall as [|? ? Hch Hrest]; subst.
    rewrite length_app. destruct rest as [|ch' rest'].
    + simpl. rewrite Nat.add_0_r.
      replace (length ch + (n - 1))%nat with (1 * n + (length ch - 1))%nat by lia.
      rewrite Nat.div_add_l by lia. rewrite Nat.div_small by lia. reflexivity.
    + assert (Hfull : length ch = n)
        by (apply (Hlast [] ch (ch' :: rest')); [reflexivity|discriminate]).
      rewrite IH.
      * rewrite Hfull.
        replace (n + length (concat (ch' :: rest')) + (n - 1))%nat
          with (1 * n + (length (concat (ch' :: rest')) + (n - 1)))%nat by lia.
        now rewrite Nat.div_add_l by lia.
      * split; [exact Hrest|]. intros pre c post Heq Hpost.
        apply (Hlast (ch :: pre) c post); [now rewrite Heq|exact Hpost].
Qed.

Lemma codePoints_ascii (s : jsstring) :
  Forall (fun c => (c < 128)%N) s -> PrinterService.codePoints s = s.
Proof.
  induction 1 as [|c r Hc Hr IH]; [reflexivity|].
  cbn [PrinterService.codePoints].
  unfold PrinterService.isHighSurrogate, PrinterService.isLowSurrogate.
  replace (55296 <=? c)%N with false by (symmetry; apply N.leb_gt; lia).
  replace (56320 <=? c)%N with false by (symmetry; apply N.leb_gt; lia).
  simpl. now rewrite IH.
Qed.

(** A string of ASCII characters, the printer commands among them, is
    encoded as it is. *)
Lemma encode_ascii (s : jsstring) :
  Forall (fun c => (c < 128)%N) s -> PrinterService.encode s = s.
Proof.
  intros Hs. unfold PrinterService.encode. rewrite codePoints_ascii by exact Hs.
  induction Hs as [|c r Hc Hr IH]; simpl; [reflexivity|].
  unfold PrinterService.utf8 at 1.
  replace (c <? 128)%N with true by (symmetry; apply N.ltb_lt; lia).
  simpl. now rewrite IH.
Qed.

(** X18. [sendData] on a connected printer makes as many writes as the
    encoded payload has pieces of 20 bytes, the last one possibly shorter:
    [ceil(bytes / 20)], and none for the empty string. A string of ASCII
    characters (the printer commands are such) arrives byte for byte as
    its code units. *)
Theorem sendData_write_count (data : jsstring) (c : PrinterService.Characteristic) :
  exists c',
    PrinterService.sendData data (Some c) = inr c'
    /\ length (PrinterService.written c')
       = (length (PrinterService.written c)
          + (length (PrinterService.encode data) + 19) / 20)%nat
    /\ (data = [] -> PrinterService.written c' = PrinterService.written c)
    /\ (Forall (fun u => (u < 128)%N) data ->
        concat (PrinterService.written c')
        = concat (PrinterService.written c) ++ data
        /\ length (PrinterService.written c')
           = (length (PrinterService.written c) + (length data + 19) / 20)%nat).
Proof.
  destruct (sendFrom_chunks (PrinterService.encode data)
              (length (PrinterService.encode data)) 0 c)
    as (chunks & Hlog & Hcat & Hchunked); [lia|].
  pose proof (chunked_count PrinterService.chunkSize chunks) as Hcount.
  unfold PrinterService.chunkSize in Hcount at 1 2 4. simpl in Hcount.
  specialize (Hcount ltac:(lia) Hchunked). rewrite Hcat in Hcount. simpl in Hcount.
  exists (PrinterService.sendFrom (PrinterService.encode data) 0 c).
  split; [reflexivity|].
  assert (Hlen : length (PrinterService.written
                           (PrinterService.sendFrom (PrinterService.encode data) 0 c))
                 = (length (PrinterService.written c)
                    + (length (PrinterService.encode data) + 19) / 20)%nat).
  { rewrite Hlog, length_app, Hcount. reflexivity. }
  split; [exact Hlen|]. split.
  - intros ->. rewrite Hlog. simpl in Hcount.
    destruct chunks; [apply app_nil_r|discriminate Hcount].
  - intros Hascii. rewrite Hlen, Hlog, concat_app, Hcat.
    now rewrite (encode_ascii data Hascii).
Qed.

Lemma lor_byte (a b : N) : (a < 256 -> b < 256 -> N.lor a b < 256)%N.
Proof.
  intros Ha Hb.
  assert (Hlog : forall x, (x < 256)%N -> (N.log2 x < 8)%N).
  { intros x Hx. destruct (N.eq_dec x 0%N) as [->|Hne]; [reflexivity|].
    apply N.log2_lt_pow2; [lia|exact Hx]. }
  destruct (N.eq_dec (N.lor a b) 0%N) as [->|Hne]; [reflexivity|].
  change 256%N with (2 ^ 8)%N. apply N.log2_lt_pow2; [lia|].
  rewrite N.log2_lor. apply N.max_lub_lt; auto.
Qed.

Lemma shiftr_bound (cp k q : N) : (cp < 2 ^ k * q -> N.shiftr cp k < q)%N.
Proof.
  intros H. rewrite N.shiftr_div_pow2.
  apply N.Div0.div_lt_upper_bound. exact H.
Qed.

Lemma land_63 (x : N) : (N.land x 63 < 256)%N.
Proof. pose proof (N.land_le_r x 63). lia. Qed.

(** The bytes of a code point: between one and four, each below 256. *)
Lemma utf8_bytes (cp : N) :
  (cp < 1114112)%N ->
  Forall (fun b => (b < 256)%N) (PrinterService.utf8 cp)
  /\ (1 <= length (PrinterService.utf8 cp) <= 4)%nat
  /\ ((cp < 65536)%N -> (length (PrinterService.utf8 cp) <= 3)%nat).
Proof.
  intros Hcp. unfold PrinterService.utf8.
  destruct (cp <? 128)%N eqn:E1; [apply N.ltb_lt in E1|apply N.ltb_ge in E1].
  { simpl. repeat split; try lia. repeat constructor. lia. }
  destruct (cp <? 2048)%N eqn:E2; [apply N.ltb_lt in E2|apply N.ltb_ge in E2].
  { simpl. repeat split; try lia.
    repeat constructor; apply lor_byte; try lia; try apply land_63.
    assert (N.shiftr cp 6 < 32)%N by (apply shiftr_bound; simpl; lia). lia. }
  destruct (cp <? 65536)%N eqn:E3; [apply N.ltb_lt in E3|apply N.ltb_ge in E3].
  { simpl. repeat split; try lia.
    repeat constructor; apply lor_byte; try lia; try apply land_63.
    assert (N.shiftr cp 12 < 16)%N by (apply shiftr_bound; simpl; lia). lia. }
  simpl. repeat split; try lia.
  repeat constructor; apply lor_byte; try lia; try apply land_63.
  assert (N.shiftr cp 18 < 8)%N by (apply shiftr_bound; simpl; lia). lia.
Qed.

Lemma encode_cons_cases (c : N) (r : jsstring) :
  (c < 65536)%N -> Forall (fun u => (u < 65536)%N) r ->
  exists cp rest,
    PrinterService.encode (c :: r)
    = PrinterService.utf8 cp ++ PrinterService.encode rest
    /\ (cp < 1114112)%N
    /\ ((rest = r /\ (cp < 65536)%N)
        \/ (exists d, r = d :: rest /\ (65536 <= cp)%N)).
Proof.
  intros Hc Hr. unfold PrinterService.encode.
  cbn [PrinterService.codePoints].
  destruct (PrinterService.isHighSurrogate c) eqn:Hh.
  - destruct r as [|d r'].
    + exists 65533%N, [].
      split; [reflexivity|]. split; [lia|]. left. split; [reflexivity|lia].
    + destruct (PrinterService.isLowSurrogate d) eqn:Hl.
      * unfold PrinterService.isHighSurrogate in Hh.
        unfold PrinterService.isLowSurrogate in Hl.
        apply andb_prop in Hh as [Hh1 Hh2]. apply andb_prop in Hl as [Hl1 Hl2].
        apply N.leb_le in Hh1, Hh2, Hl1, Hl2.
        exists (65536 + (c - 55296) * 1024 + (d - 56320))%N, r'.
        split; [reflexivity|]. split; [lia|]. right. exists d.
        split; [reflexivity|lia].
      * exists 65533%N, (d :: r'). split; [reflexivity|]. split; [lia|].
        left. split; [reflexivity|lia].
  - destruct (PrinterService.isLowSurrogate c).
    + exists 65533%N, r. split; [reflexivity|]. split; [lia|].
      left. split; [reflexivity|lia].
    + exists c, r. split; [reflexivity|]. split; [lia|]. left. auto.
Qed.

Lemma encode_bounds (n : nat) :
  forall s : jsstring,
    (length s <= n)%nat ->
    Forall (fun u => (u < 65536)%N) s ->
    Forall (fun b => (b < 256)%N) (PrinterService.encode s)
    /\ (length s <= length (PrinterService.encode s) <= 3 * length s)%nat.
Proof.
  induction n as [|n IH]; intros s Hlen Hs.
  - destruct s; [|simpl in Hlen; lia]. simpl. split; [constructor|lia].
  - destruct s as [|c r]; [simpl; split; [constructor|lia]|].
    inversion Hs as [|? ? Hc Hr]; subst.
    destruct (encode_cons_cases c r Hc Hr) as (cp & rest & Heq & Hcp & Hcase).
    destruct (utf8_bytes cp Hcp) as (Hbytes & Hlen1 & Hlen3).
    rewrite Heq, length_app. simpl in Hlen.
    destruct Hcase as [[-> Hsmall]|(d & -> & Hbig)].
    + destruct (IH r ltac:(lia) Hr) as [Hb Hl].
      split; [apply Forall_app; auto|]. specialize (Hlen3 Hsmall).
      simpl. lia.
    + inversion Hr as [|? ? Hd Hrest]; subst. simpl in Hlen.
      destruct (IH rest ltac:(lia) Hrest) as [Hb Hl].
      split; [apply Forall_app; auto|].
      assert (length (PrinterService.utf8 cp) = 4%nat).
      { unfold PrinterService.utf8.
        replace (cp <? 128)%N with false by (symmetry; apply N.ltb_ge; lia).
        replace (cp <? 2048)%N with false by (symmetry; apply N.ltb_ge; lia).
        replace (cp <? 65536)%N with false by (symmetry; apply N.ltb_ge; lia).
        reflexivity. }
      simpl. lia.
Qed.

(** X19. For a string of UTF-16 code units, the UTF-8 encoding that
    [sendData] takes of it consists of bytes below 256, at least as many as
    the string has code units and at most three times as many; so [sendData] writes
    between [ceil(n / 20)] and [ceil(3n / 20)] chunks for a string of [n]
    code units. *)
Theorem encode_size (data : jsstring) (c : PrinterService.Characteristic) :
  Forall (fun u => (u < 65536)%N) data ->
  Forall (fun b => (b < 256)%N) (PrinterService.encode data)
  /\ (length data <= length (PrinterService.encode data) <= 3 * length data)%nat
  /\ exists c',
       PrinterService.sendData data (Some c) = inr c'
       /\ ((length data + 19) / 20
           <= length (PrinterService.written c') - length (PrinterService.written c)
           <= (3 * length data + 19) / 20)%nat.
Proof.
  intros Hdata.
  destruct (encode_bounds (length data) data (le_n _) Hdata) as [Hbytes Hlen].
  split; [exact Hbytes|]. split; [exact Hlen|].
  destruct (sendFrom_chunks (PrinterService.encode data)
              (length (PrinterService.encode data)) 0 c)
    as (chunks & Hlog & Hcat & Hchunked); [lia|].
  pose proof (chunked_count PrinterService.chunkSize chunks) as Hcount.
  unfold PrinterService.chunkSize in Hcount at 1 2 4. simpl in Hcount.
  specialize (Hcount ltac:(lia) Hchunked).
  rewrite Hcat, drop_0 in Hcount.
  exists (PrinterService.sendFrom (PrinterService.encode data) 0 c).
  split; [reflexivity|].
  assert (Hwritten :
            (length (PrinterService.written
                       (PrinterService.sendFrom (PrinterService.encode data) 0 c))
             - length (PrinterService.written c))%nat
            = ((length (PrinterService.encode data) + 19) / 20)%nat).
  { rewrite Hlog, length_app, Hcount.
    change (Nat.divmod (length (PrinterService.encode data) + 19) 19 0 19).1
      with ((length (PrinterService.encode data) + 19) / 20)%nat.
    generalize ((length (PrinterService.encode data) + 19) / 20)%nat.
    intros k. lia. }
  rewrite Hwritten.
  split; apply Nat.Div0.div_le_mono; lia.
Qed.

Lemma encode_size_witness :
  Forall (fun u => (u < 65536)%N) [233; 8364; 55357; 56832]%N
  /\ (length [233; 8364; 55357; 56832]%N
      <= length (PrinterService.encode [233; 8364; 55357; 56832]%N)
      <= 3 * length [233; 8364; 55357; 56832]%N)%nat.
Proof.
  assert (H : Forall (fun u => (u < 65536)%N) [233; 8364; 55357; 56832]%N)
    by (repeat constructor).
  split; [exact H|].
  exact (proj1 (proj2 (encode_size [233; 8364; 55357; 56832]%N
                         {| PrinterService.written := [] |} H))).
Defined.
